(** * Qt controls of the napari Labels layer

    A shallow embedding of [napari/_qt/layers/qt_labels_layer.py]: the
    control panel [QtLabelsControls], which mirrors the properties of a
    Labels layer in Qt widgets and pushes the user's edits back into the
    layer, and the colour indicator [QtColorBox].

    The layer, the panel and the widgets are mutable Python objects; here
    they are records threaded through an interpreter.  Signals and layer
    events call back into the panel, so the methods are mutually recursive:
    the interpreter runs on fuel, and the theorems state how much fuel is
    enough. *)

From Stdlib Require Import ZArith List String Bool Lia QArith Qabs Qround.
From Stdlib Require Import Floats.SpecFloat.
Import ListNotations.
Open Scope Z_scope.

(** ** Python values *)

Module Py.

(** The exceptions the code can raise. *)
Inductive exn :=
| ValueError (msg : string)
| OverflowError (msg : string)
| TypeError (msg : string)
| AttributeError (msg : string).

(** A Python number: an [int] of any size, or a [float], an IEEE 754
    binary64 value. *)
Inductive num :=
| Int (z : Z)
| Float (f : spec_float).

(** The binary64 value nearest to [m * 2^e]. *)
Definition float64 (m e : Z) : spec_float := binary_normalize 53 1024 m e false.

(** The integer part of a finite float, towards zero: the magnitude
    [m * 2^e] loses its fractional bits, then the sign is put back. *)
Definition trunc (f : spec_float) : option Z :=
  match f with
  | S754_zero _ => Some 0
  | S754_finite s m e => Some (cond_Zopp s (Z.shiftl (Zpos m) e))
  | S754_infinity _ => None
  | S754_nan => None
  end.

(** [int(v)] *)
Definition int (v : num) : exn + Z :=
  match v with
  | Int z => inr z
  | Float S754_nan => inl (ValueError "cannot convert float NaN to integer")
  | Float (S754_infinity _) =>
      inl (OverflowError "cannot convert float infinity to integer")
  | Float (S754_zero _) => inr 0
  | Float (S754_finite s m e) => inr (cond_Zopp s (Z.shiftl (Zpos m) e))
  end.

(** The rational [m * 2^e]. *)
Definition magnitude (m : positive) (e : Z) : Q :=
  match e with
  | Z0 => inject_Z (Zpos m)
  | Zpos k => inject_Z (Zpos m * 2 ^ Zpos k)
  | Zneg k => Qmake (Zpos m) (2 ^ k)
  end.

(** The rational a number stands for, when it is finite. *)
Definition float_Q (f : spec_float) : option Q :=
  match f with
  | S754_zero _ => Some 0%Q
  | S754_finite s m e =>
      Some (if s then Qopp (magnitude m e) else magnitude m e)
  | S754_infinity _ => None
  | S754_nan => None
  end.

Definition to_Q (v : num) : option Q :=
  match v with
  | Int z => Some (inject_Z z)
  | Float f => float_Q f
  end.

(** [range(n)] *)
Definition range (n : Z) : list Z := map Z.of_nat (seq 0 (Z.to_nat n)).

End Py.

(** ** numpy *)

Module np.

(** The element type of a float array. *)
Inductive dtype := float32 | float64.

Definition prec (d : dtype) : Z := match d with float32 => 24 | float64 => 53 end.
Definition emax (d : dtype) : Z := match d with float32 => 128 | float64 => 1024 end.

(** [np.clip(a, a_min, a_max)] on integers: [minimum(maximum(a, a_min), a_max)]. *)
Definition clip (a a_min a_max : Z) : Z := Z.min (Z.max a a_min) a_max.

(** The Python integer [k] as an element of an array of type [d]. *)
Definition of_int (d : dtype) (k : Z) : spec_float :=
  binary_normalize (prec d) (emax d) k 0 false.

(** [k * x] for a Python integer [k] and an element [x] of an array of type
    [d]: the product is rounded to the array's type. *)
Definition mul_int (d : dtype) (k : Z) (x : spec_float) : spec_float :=
  SFmul (prec d) (emax d) (of_int d k) x.

Definition int64_min : Z := - 2 ^ 63.
Definition int64_max : Z := 2 ^ 63 - 1.

(** [x.astype(int)] on one element: the C cast to a 64-bit integer, which
    drops the fractional part.  What is not a number or does not fit comes
    out as the smallest integer (the conversion instruction's answer on the
    usual hardware). *)
Definition astype_int (x : spec_float) : Z :=
  match Py.trunc x with
  | Some z => if (int64_min <=? z) && (z <=? int64_max) then z else int64_min
  | None => int64_min
  end.

End np.

(** ** Qt widgets *)

Module Qt.

(** [Qt.CheckState] *)
Definition Unchecked : Z := 0.
Definition PartiallyChecked : Z := 1.
Definition Checked : Z := 2.

(** A C [int], of 32 bits: what PyQt converts the integer arguments of the
    calls below to.  A Python integer outside makes the call raise
    [OverflowError] before anything is done. *)
Definition c_int (z : Z) : bool := (-2147483648 <=? z) && (z <=? 2147483647).

(** The exception for the argument at position [k]. *)
Definition overflowed (k : string) : Py.exn :=
  Py.OverflowError
    ("argument " ++ k ++
     " overflowed: value must be in the range -2147483648 to 2147483647").

(** A spin box or a slider: an integer kept inside a range. *)
Record IntInput := { minimum : Z; maximum : Z; value : Z }.

(** The range is one of C ints, as that of every [QSpinBox] and [QSlider]
    is. *)
Definition c_int_range (s : IntInput) : bool :=
  c_int (minimum s) && c_int (maximum s).

Definition QSpinBox := IntInput.
Definition QSlider := IntInput.

(** [qBound(min, v, max)] *)
Definition qBound (lo v hi : Z) : Z := Z.max lo (Z.min hi v).

Definition with_value (v : Z) (s : IntInput) : IntInput :=
  {| minimum := minimum s; maximum := maximum s; value := v |}.

(** A spin box or a slider as Qt creates it. *)
Definition fresh_input : IntInput :=
  {| minimum := 0; maximum := 99; value := 0 |}.

(** [setMinimum] and [setMaximum] keep the range well formed and the value
    inside it. *)
Definition setMinimum (lo : Z) (s : IntInput) : IntInput :=
  let hi := Z.max lo (maximum s) in
  {| minimum := lo; maximum := hi; value := qBound lo (value s) hi |}.

Definition setMaximum (hi : Z) (s : IntInput) : IntInput :=
  let lo := Z.min (minimum s) hi in
  {| minimum := lo; maximum := hi; value := qBound lo (value s) hi |}.

(** A checkable, disableable button.  [dimmed] is the half-transparent
    rendering of a disabled control. *)
Record Button := { isChecked : bool; isEnabled : bool; dimmed : bool }.

Definition with_checked (b : bool) (x : Button) : Button :=
  {| isChecked := b; isEnabled := isEnabled x; dimmed := dimmed x |}.

(** A colour: four channels of 0..255 each, or the invalid colour. *)
Record QColor := {
  red : Z; green : Z; blue : Z; alpha : Z;
  isValid : bool
}.

(** What a channel may hold. *)
Definition is_channel (z : Z) : bool := (0 <=? z) && (z <=? 255).

(** The colour a constructor leaves when a channel is out of range. *)
Definition invalid : QColor :=
  {| red := 0; green := 0; blue := 0; alpha := 255; isValid := false |}.

(** [QColor(r, g, b, a)] on C ints: the colour with these channels, or
    the invalid colour when one of them is not in 0..255. *)
Definition rgba (r g b a : Z) : QColor :=
  if is_channel r && is_channel g && is_channel b && is_channel a
  then {| red := r; green := g; blue := b; alpha := a; isValid := true |}
  else invalid.

(** [QColor(r, g, b)]: an opaque colour. *)
Definition rgb (r g b : Z) : QColor := rgba r g b 255.

(** [QColor] on a list of Python integers, unpacked: three channels, or
    three channels and alpha, each converted to a C int first. *)
Definition QColor_of (args : list Z) : Py.exn + QColor :=
  let checked (c : QColor) :=
    match map c_int args with
    | false :: _ => inl (overflowed "1")
    | _ :: false :: _ => inl (overflowed "2")
    | _ :: _ :: false :: _ => inl (overflowed "3")
    | _ :: _ :: _ :: false :: _ => inl (overflowed "4")
    | _ => inr c
    end in
  match args with
  | [r; g; b] => checked (rgb r g b)
  | [r; g; b; a] => checked (rgba r g b a)
  | _ => inl (Py.TypeError "QColor: wrong number of arguments")
  end.

(** What a paint routine asks of its [QPainter]. *)
Inductive paint_cmd :=
| setPen (c : QColor)
| setBrush (c : QColor)
| drawRect (x y w h : Z).

(** The colour one pixel ends with.  [drawRect x0 y0 w h] strokes the
    outline through the pixels [x0] to [x0 + w] and [y0] to [y0 + h] with
    the pen (one pixel wide) and fills what is inside with the brush, when
    there is one; a pixel outside keeps what it had. *)
Fixpoint pixel (cmds : list paint_cmd) (pen : QColor) (brush : option QColor)
  (seen : option QColor) (x y : Z) : option QColor :=
  match cmds with
  | [] => seen
  | setPen c :: rest => pixel rest c brush seen x y
  | setBrush c :: rest => pixel rest pen (Some c) seen x y
  | drawRect x0 y0 w h :: rest =>
      let within := (x0 <=? x) && (x <=? x0 + w) && (y0 <=? y) && (y <=? y0 + h) in
      let edge := (x =? x0) || (x =? x0 + w) || (y =? y0) || (y =? y0 + h) in
      let seen' :=
        if within then
          if edge then Some pen
          else match brush with Some c => Some c | None => seen end
        else seen in
      pixel rest pen brush seen' x y
  end.

Definition black : QColor := rgb 0 0 0.

(** The pixel of a widget after its paint routine ran on a fresh painter
    (black pen, no brush). *)
Definition rendered (cmds : list paint_cmd) (x y : Z) : option QColor :=
  pixel cmds black None None x y.

End Qt.

(** ** The layer model

    The Labels layer lives outside this file of the repository; the panel
    reads and assigns its properties and uses its event emitters.
    [changeColor], which only forwards to the layer's [new_colormap], is
    left out. *)

(** Modelled from the spec: [Mode], the enumeration of the layer's
    interaction modes ("one of PAN_ZOOM, PICKER, PAINT, FILL"); its
    declaration is in [layers/labels/_constants.py]. *)
Inductive Mode := PAN_ZOOM | PICKER | PAINT | FILL.

(** What a mode event may carry: a member of [Mode], or any other object,
    known by its printed form. *)
Inductive mode_value :=
| Member (m : Mode)
| Foreign (repr : string).

Definition Mode_eqb (a b : Mode) : bool :=
  match a, b with
  | PAN_ZOOM, PAN_ZOOM | PICKER, PICKER | PAINT, PAINT | FILL, FILL => true
  | _, _ => false
  end.

(** [a == b] where [b] is a member of [Mode]. *)
Definition mode_eq (a : mode_value) (b : Mode) : bool :=
  match a with
  | Member m => Mode_eqb m b
  | Foreign _ => false
  end.

(** The colour of the selected label: a numpy array of three fractional
    channels, with or without an alpha channel. *)
Record color_array := {
  dtype : np.dtype;
  rgb : spec_float * spec_float * spec_float;
  opacity : option spec_float
}.

Definition items (c : color_array) : list spec_float :=
  let '(r, g, b) := rgb c in
  r :: g :: b :: match opacity c with Some a => [a] | None => [] end.

(** The emitters of [layer.events] the panel connects to. *)
Inductive emitter :=
| ev_mode | ev_selected_label | ev_brush_size
| ev_contiguous | ev_n_dimensional | ev_editable.

(** How many blockers are active on each emitter. *)
Record Blocked := {
  mode_blocked : nat;
  selected_label_blocked : nat;
  brush_size_blocked : nat;
  contiguous_blocked : nat;
  n_dimensional_blocked : nat;
  editable_blocked : nat
}.

Definition blocked (e : emitter) (b : Blocked) : nat :=
  match e with
  | ev_mode => mode_blocked b
  | ev_selected_label => selected_label_blocked b
  | ev_brush_size => brush_size_blocked b
  | ev_contiguous => contiguous_blocked b
  | ev_n_dimensional => n_dimensional_blocked b
  | ev_editable => editable_blocked b
  end.

Definition set_blocked (e : emitter) (n : nat) (b : Blocked) : Blocked :=
  {| mode_blocked := match e with ev_mode => n | _ => mode_blocked b end;
     selected_label_blocked :=
       match e with ev_selected_label => n | _ => selected_label_blocked b end;
     brush_size_blocked :=
       match e with ev_brush_size => n | _ => brush_size_blocked b end;
     contiguous_blocked :=
       match e with ev_contiguous => n | _ => contiguous_blocked b end;
     n_dimensional_blocked :=
       match e with ev_n_dimensional => n | _ => n_dimensional_blocked b end;
     editable_blocked :=
       match e with ev_editable => n | _ => editable_blocked b end |}.

(** Modelled from the spec: the layer, by the properties the panel
    mirrors ([mode], [selected_label], [brush_size], [contiguous],
    [n_dimensional], [editable]), the derived [_selected_color], the
    [status] text and the emitters of [layer.events]; the class is in
    [layers/labels/labels.py]. *)
Record Layer := {
  mode : mode_value;
  selected_label : Py.num;
  brush_size : Py.num;
  contiguous : bool;
  n_dimensional : bool;
  editable : bool;
  status : string;
  _selected_color : option color_array;
  events : Blocked
}.

Definition set_mode (m : mode_value) (l : Layer) : Layer :=
  {| mode := m; selected_label := selected_label l;
     brush_size := brush_size l; contiguous := contiguous l;
     n_dimensional := n_dimensional l; editable := editable l;
     status := status l; _selected_color := _selected_color l;
     events := events l |}.

Definition set_selected_label (v : Py.num) (c : option color_array)
  (l : Layer) : Layer :=
  {| mode := mode l; selected_label := v;
     brush_size := brush_size l; contiguous := contiguous l;
     n_dimensional := n_dimensional l; editable := editable l;
     status := status l; _selected_color := c;
     events := events l |}.

Definition set_brush_size (v : Py.num) (l : Layer) : Layer :=
  {| mode := mode l; selected_label := selected_label l;
     brush_size := v; contiguous := contiguous l;
     n_dimensional := n_dimensional l; editable := editable l;
     status := status l; _selected_color := _selected_color l;
     events := events l |}.

Definition set_contiguous (b : bool) (l : Layer) : Layer :=
  {| mode := mode l; selected_label := selected_label l;
     brush_size := brush_size l; contiguous := b;
     n_dimensional := n_dimensional l; editable := editable l;
     status := status l; _selected_color := _selected_color l;
     events := events l |}.

Definition set_n_dimensional (b : bool) (l : Layer) : Layer :=
  {| mode := mode l; selected_label := selected_label l;
     brush_size := brush_size l; contiguous := contiguous l;
     n_dimensional := b; editable := editable l;
     status := status l; _selected_color := _selected_color l;
     events := events l |}.

Definition set_editable (b : bool) (l : Layer) : Layer :=
  {| mode := mode l; selected_label := selected_label l;
     brush_size := brush_size l; contiguous := contiguous l;
     n_dimensional := n_dimensional l; editable := b;
     status := status l; _selected_color := _selected_color l;
     events := events l |}.

Definition set_status (s : string) (l : Layer) : Layer :=
  {| mode := mode l; selected_label := selected_label l;
     brush_size := brush_size l; contiguous := contiguous l;
     n_dimensional := n_dimensional l; editable := editable l;
     status := s; _selected_color := _selected_color l;
     events := events l |}.

Definition set_events (b : Blocked) (l : Layer) : Layer :=
  {| mode := mode l; selected_label := selected_label l;
     brush_size := brush_size l; contiguous := contiguous l;
     n_dimensional := n_dimensional l; editable := editable l;
     status := status l; _selected_color := _selected_color l;
     events := b |}.

(** [layer.events.<e>.block()] and [unblock()], the two ends of a
    [blocker()] context. *)
Definition block (e : emitter) (l : Layer) : Layer :=
  set_events (set_blocked e (S (blocked e (events l))) (events l)) l.

Definition unblock (e : emitter) (l : Layer) : Layer :=
  set_events (set_blocked e (Nat.pred (blocked e (events l))) (events l)) l.

(** ** The panel and its widgets *)

(** The four mode buttons, as the attributes of the panel that hold them. *)
Inductive button_id := Panzoom | Pick | Paint | Fill.

Definition button_id_eqb (a b : button_id) : bool :=
  match a, b with
  | Panzoom, Panzoom | Pick, Pick | Paint, Paint | Fill, Fill => true
  | _, _ => false
  end.

(** [getattr(obj, name)] for the names of the mode buttons. *)
Definition button_named (name : string) : option button_id :=
  if String.eqb name "panzoom_button" then Some Panzoom
  else if String.eqb name "pick_button" then Some Pick
  else if String.eqb name "paint_button" then Some Paint
  else if String.eqb name "fill_button" then Some Fill
  else None.

(** Where the keyboard focus is, as far as the panel moves it. *)
Inductive focus_owner := FocusSpinBox | FocusPanel | FocusElsewhere.

Record QtLabelsControls := {
  selectionSpinBox : Qt.QSpinBox;
  brushSizeSlider : Qt.QSlider;
  contigCheckBox : bool;
  ndimCheckBox : bool;
  panzoom_button : Qt.Button;
  pick_button : Qt.Button;
  paint_button : Qt.Button;
  fill_button : Qt.Button;
  (** [button_group.checkedButton()] *)
  button_group : option button_id;
  focus : focus_owner
}.

Definition set_selectionSpinBox (s : Qt.QSpinBox) (p : QtLabelsControls) :=
  {| selectionSpinBox := s; brushSizeSlider := brushSizeSlider p;
     contigCheckBox := contigCheckBox p; ndimCheckBox := ndimCheckBox p;
     panzoom_button := panzoom_button p; pick_button := pick_button p;
     paint_button := paint_button p; fill_button := fill_button p;
     button_group := button_group p; focus := focus p |}.

Definition set_brushSizeSlider (s : Qt.QSlider) (p : QtLabelsControls) :=
  {| selectionSpinBox := selectionSpinBox p; brushSizeSlider := s;
     contigCheckBox := contigCheckBox p; ndimCheckBox := ndimCheckBox p;
     panzoom_button := panzoom_button p; pick_button := pick_button p;
     paint_button := paint_button p; fill_button := fill_button p;
     button_group := button_group p; focus := focus p |}.

Definition set_contigCheckBox (b : bool) (p : QtLabelsControls) :=
  {| selectionSpinBox := selectionSpinBox p;
     brushSizeSlider := brushSizeSlider p;
     contigCheckBox := b; ndimCheckBox := ndimCheckBox p;
     panzoom_button := panzoom_button p; pick_button := pick_button p;
     paint_button := paint_button p; fill_button := fill_button p;
     button_group := button_group p; focus := focus p |}.

Definition set_ndimCheckBox (b : bool) (p : QtLabelsControls) :=
  {| selectionSpinBox := selectionSpinBox p;
     brushSizeSlider := brushSizeSlider p;
     contigCheckBox := contigCheckBox p; ndimCheckBox := b;
     panzoom_button := panzoom_button p; pick_button := pick_button p;
     paint_button := paint_button p; fill_button := fill_button p;
     button_group := button_group p; focus := focus p |}.

Definition set_button_group (g : option button_id) (p : QtLabelsControls) :=
  {| selectionSpinBox := selectionSpinBox p;
     brushSizeSlider := brushSizeSlider p;
     contigCheckBox := contigCheckBox p; ndimCheckBox := ndimCheckBox p;
     panzoom_button := panzoom_button p; pick_button := pick_button p;
     paint_button := paint_button p; fill_button := fill_button p;
     button_group := g; focus := focus p |}.

Definition set_focus (f : focus_owner) (p : QtLabelsControls) :=
  {| selectionSpinBox := selectionSpinBox p;
     brushSizeSlider := brushSizeSlider p;
     contigCheckBox := contigCheckBox p; ndimCheckBox := ndimCheckBox p;
     panzoom_button := panzoom_button p; pick_button := pick_button p;
     paint_button := paint_button p; fill_button := fill_button p;
     button_group := button_group p; focus := f |}.

Definition button (b : button_id) (p : QtLabelsControls) : Qt.Button :=
  match b with
  | Panzoom => panzoom_button p
  | Pick => pick_button p
  | Paint => paint_button p
  | Fill => fill_button p
  end.

Definition set_button (b : button_id) (x : Qt.Button) (p : QtLabelsControls) :=
  {| selectionSpinBox := selectionSpinBox p;
     brushSizeSlider := brushSizeSlider p;
     contigCheckBox := contigCheckBox p; ndimCheckBox := ndimCheckBox p;
     panzoom_button := match b with Panzoom => x | _ => panzoom_button p end;
     pick_button := match b with Pick => x | _ => pick_button p end;
     paint_button := match b with Paint => x | _ => paint_button p end;
     fill_button := match b with Fill => x | _ => fill_button p end;
     button_group := button_group p; focus := focus p |}.

(** Modelled from the spec: the four mode buttons are "mutually exclusive
    selector controls"; their class, [QtModeRadioButton], is in
    [_qt/qt_mode_buttons.py], and [__init__] puts them in one exclusive
    [QButtonGroup].  [button.setChecked(True)] does nothing when the button
    is checked already; otherwise the button becomes the group's checked
    button and the one that was is unchecked.  This is the panel's side
    only: [__init__] hands each button the layer and its mode, and what a
    button does with them when it is toggled is not in this file and not
    modelled.  The theorems about the mode buttons speak of the panel and
    say nothing of the layer after a button was checked. *)
Definition setChecked_True (b : button_id) (p : QtLabelsControls)
  : QtLabelsControls :=
  if Qt.isChecked (button b p) then p
  else
    let p1 := set_button b (Qt.with_checked true (button b p)) p in
    let p2 := set_button_group (Some b) p1 in
    match button_group p with
    | Some prev =>
        if button_id_eqb prev b then p2
        else set_button prev (Qt.with_checked false (button prev p2)) p2
    | None => p2
    end.

(** Modelled from the spec: [disable_with_opacity], the helper of
    [_qt/utils.py] that is not in this file.  For each named widget,
    "editable=false disables (visually dims and blocks input on)" it, and
    editable=true enables it again at full opacity.  An unknown name fails
    in [getattr]. *)
Fixpoint disable_with_opacity (widget_list : list string) (enabled : bool)
  (p : QtLabelsControls) : option QtLabelsControls :=
  match widget_list with
  | [] => Some p
  | wdg :: rest =>
      match button_named wdg with
      | Some b =>
          let x := button b p in
          disable_with_opacity rest enabled
            (set_button b {| Qt.isChecked := Qt.isChecked x;
                             Qt.isEnabled := enabled;
                             Qt.dimmed := negb enabled |} p)
      | None => None
      end
  end.

(** ** Calls and the state they run in *)

(** Every piece of code that can run: an assignment to a layer property
    (which notifies the property's emitter), a widget setter whose signal
    is connected to the panel, and the methods of the two classes. *)
Inductive call :=
| Layer_set_mode (m : mode_value)
| Layer_set_selected_label (v : Py.num)
| Layer_set_brush_size (v : Py.num)
| Layer_set_contiguous (b : bool)
| Layer_set_n_dimensional (b : bool)
| Layer_set_editable (b : bool)
| selectionSpinBox_setValue (z : Z)
| brushSizeSlider_setValue (z : Z)
| contigCheckBox_setChecked (b : bool)
| ndimCheckBox_setChecked (b : bool)
| mouseMoveEvent
| _on_mode_change (event_mode : mode_value)
| changeSelection (value : Z)
| changeSize (value : Z)
| change_contig (state : Z)
| change_ndim (state : Z)
| _on_selection_change
| _on_brush_size_change
| _on_n_dim_change
| _on_contig_change
| _on_editable_change
| update_color.

(** The layer, the panel bound to it, the colour box (of which only the
    pending repaint matters here), and the calls made so far, the latest
    first. *)
Record World := {
  layer : Layer;
  panel : QtLabelsControls;
  repaint_pending : bool;
  log : list call
}.

Definition on_layer (f : Layer -> Layer) (w : World) : World :=
  {| layer := f (layer w); panel := panel w;
     repaint_pending := repaint_pending w; log := log w |}.

Definition on_panel (f : QtLabelsControls -> QtLabelsControls) (w : World)
  : World :=
  {| layer := layer w; panel := f (panel w);
     repaint_pending := repaint_pending w; log := log w |}.

Definition request_repaint (w : World) : World :=
  {| layer := layer w; panel := panel w;
     repaint_pending := true; log := log w |}.

Definition record_call (c : call) (w : World) : World :=
  {| layer := layer w; panel := panel w;
     repaint_pending := repaint_pending w; log := c :: log w |}.

(** How a call ends: normally, with an exception, or cut short by the
    interpreter's fuel. *)
Inductive outcome :=
| Ok (w : World)
| Raise (e : Py.exn) (w : World)
| OutOfFuel.

Definition bind (o : outcome) (k : World -> outcome) : outcome :=
  match o with
  | Ok w => k w
  | Raise e w => Raise e w
  | OutOfFuel => OutOfFuel
  end.

Notation "o >>= k" := (bind o k) (at level 50, left associativity).

(** The exit of a [with] block runs however the body ends. *)
Definition finally (o : outcome) (exit : World -> World) : outcome :=
  match o with
  | Ok w => Ok (exit w)
  | Raise e w => Raise e (exit w)
  | OutOfFuel => OutOfFuel
  end.

(** [with self.layer.events.<e>.blocker(): body] *)
Definition with_blocker (e : emitter) (body : World -> outcome) (w : World)
  : outcome :=
  finally (body (on_layer (block e) w)) (on_layer (unblock e)).

Fixpoint run_all (run : call -> World -> outcome) (cs : list call)
  (w : World) : outcome :=
  match cs with
  | [] => Ok w
  | c :: rest => run c w >>= run_all run rest
  end.

(** Modelled from the spec: the emitter of a layer property, "a
    per-property change-notification stream with a temporary-suppression
    mechanism"; the emitters are in [utils/event.py], not in this file.  It
    calls the connected callbacks unless a blocker is active. *)
Definition emit (e : emitter) (callbacks : list call)
  (run : call -> World -> outcome) (w : World) : outcome :=
  if Nat.eqb (blocked e (events (layer w))) 0 then run_all run callbacks w
  else Ok w.

(** Modelled from the spec: the setter of a layer property, which
    "mutates shared layer state, which triggers the layer's own change
    notification"; the setters are in [layers/labels/labels.py], not in
    this file.  The value is stored, then the emitter of the property
    notifies.  The spec says no more of them: a setter that refuses a value
    (the selected label is "a non-negative integer"), that skips a value
    the layer holds already, or that touches more than its property (the
    status text, say) is not modelled.  The theorems that go through an
    assignment to the selected label or to the brush size are stated where
    this cannot matter: for a label that is new to the layer and not
    negative, or about the integer a stored number stands for, and not
    about the status text. *)
Definition Layer_setter (e : emitter) (store : Layer -> Layer)
  (callbacks : list call) (run : call -> World -> outcome) (w : World)
  : outcome :=
  emit e callbacks run (on_layer store w).

(** ** The colour box *)

(** [QtColorBox._height] *)
Definition _height : Z := 24.

(** [QtColorBox.paintEvent]: what the routine asks of its painter, in
    order. *)
Definition paintEvent (l : Layer) : Py.exn + list Qt.paint_cmd :=
  match _selected_color l with
  | None =>
      inr (flat_map (fun i =>
             flat_map (fun j =>
               (if ((i mod 2 =? 0) && (j mod 2 =? 0))
                   || ((i mod 2 =? 1) && (j mod 2 =? 1))
                then [Qt.setPen (Qt.rgb 230 230 230);
                      Qt.setBrush (Qt.rgb 230 230 230)]
                else [Qt.setPen (Qt.rgb 25 25 25);
                      Qt.setBrush (Qt.rgb 25 25 25)])
               ++ [Qt.drawRect (i * 4) (j * 4) 5 5])
               (Py.range (_height / 4)))
             (Py.range (_height / 4)))
  | Some selected =>
      let color := map (np.mul_int (dtype selected) 255) (items selected) in
      let color := map np.astype_int color in
      match Qt.QColor_of color with
      | inr c =>
          inr [Qt.setPen c; Qt.setBrush c; Qt.drawRect 0 0 _height _height]
      | inl e => inl e
      end
  end.

Section Panel.

(** [str(mode)], defined with the [Mode] enumeration outside this file. *)
Variable str : mode_value -> string.

(** [layer.get_color(label)], from which the layer derives
    [_selected_color]. *)
Variable get_color : Py.num -> option color_array.

(** One call, with [run] for the calls it makes in turn.  The callbacks
    of an emitter run from the one connected last; [QtColorBox] connects
    [update_color] after the panel connected [_on_selection_change]. *)
Definition step (run : call -> World -> outcome) (c : call) (w : World)
  : outcome :=
  match c with
  (* the callbacks are those __init__ and QtColorBox connect *)
  | Layer_set_mode m =>
      Layer_setter ev_mode (set_mode m) [_on_mode_change m] run w
  | Layer_set_selected_label v =>
      Layer_setter ev_selected_label (set_selected_label v (get_color v))
        [update_color; _on_selection_change] run w
  | Layer_set_brush_size v =>
      Layer_setter ev_brush_size (set_brush_size v)
        [_on_brush_size_change] run w
  | Layer_set_contiguous b =>
      Layer_setter ev_contiguous (set_contiguous b) [_on_contig_change] run w
  | Layer_set_n_dimensional b =>
      Layer_setter ev_n_dimensional (set_n_dimensional b)
        [_on_n_dim_change] run w
  | Layer_set_editable b =>
      Layer_setter ev_editable (set_editable b) [_on_editable_change] run w
  (* selectionSpinBox.valueChanged.connect(self.changeSelection) *)
  | selectionSpinBox_setValue z =>
      if Qt.c_int z then
        let sb := selectionSpinBox (panel w) in
        let v := Qt.qBound (Qt.minimum sb) z (Qt.maximum sb) in
        if v =? Qt.value sb then Ok w
        else run (changeSelection v)
               (on_panel (set_selectionSpinBox (Qt.with_value v sb)) w)
      else Raise (Qt.overflowed "1") w
  (* sld.valueChanged.connect(self.changeSize) *)
  | brushSizeSlider_setValue z =>
      if Qt.c_int z then
        let sld := brushSizeSlider (panel w) in
        let v := Qt.qBound (Qt.minimum sld) z (Qt.maximum sld) in
        if v =? Qt.value sld then Ok w
        else run (changeSize v)
               (on_panel (set_brushSizeSlider (Qt.with_value v sld)) w)
      else Raise (Qt.overflowed "1") w
  (* contig_cb.stateChanged.connect(self.change_contig) *)
  | contigCheckBox_setChecked b =>
      if Bool.eqb b (contigCheckBox (panel w)) then Ok w
      else run (change_contig (if b then Qt.Checked else Qt.Unchecked))
             (on_panel (set_contigCheckBox b) w)
  (* ndim_cb.stateChanged.connect(self.change_ndim) *)
  | ndimCheckBox_setChecked b =>
      if Bool.eqb b (ndimCheckBox (panel w)) then Ok w
      else run (change_ndim (if b then Qt.Checked else Qt.Unchecked))
             (on_panel (set_ndimCheckBox b) w)
  | mouseMoveEvent =>
      Ok (on_layer (set_status (str (mode (layer w)))) w)
  | _on_mode_change mode =>
      if mode_eq mode PAN_ZOOM then
        Ok (on_panel (setChecked_True Panzoom) w)
      else if mode_eq mode PICKER then
        Ok (on_panel (setChecked_True Pick) w)
      else if mode_eq mode PAINT then
        Ok (on_panel (setChecked_True Paint) w)
      else if mode_eq mode FILL then
        Ok (on_panel (setChecked_True Fill) w)
      else Raise (Py.ValueError "Mode not recognized") w
  | changeSelection value =>
      run (Layer_set_selected_label (Py.Int value)) w >>= fun w =>
      (* self.selectionSpinBox.clearFocus(); self.setFocus() *)
      Ok (on_panel (set_focus FocusPanel) w)
  | changeSize value =>
      run (Layer_set_brush_size (Py.Int value)) w
  | change_contig state =>
      if state =? Qt.Checked then run (Layer_set_contiguous true) w
      else run (Layer_set_contiguous false) w
  | change_ndim state =>
      if state =? Qt.Checked then run (Layer_set_n_dimensional true) w
      else run (Layer_set_n_dimensional false) w
  | _on_selection_change =>
      with_blocker ev_selected_label (fun w =>
        let value := selected_label (layer w) in
        match Py.int value with
        | inl e => Raise e w
        | inr z => run (selectionSpinBox_setValue z) w
        end) w
  | _on_brush_size_change =>
      with_blocker ev_brush_size (fun w =>
        let value := brush_size (layer w) in
        match Py.int value with
        | inl e => Raise e w
        | inr z =>
            let value := np.clip z 1 40 in
            run (brushSizeSlider_setValue value) w
        end) w
  | _on_n_dim_change =>
      with_blocker ev_n_dimensional (fun w =>
        run (ndimCheckBox_setChecked (n_dimensional (layer w))) w) w
  | _on_contig_change =>
      with_blocker ev_contiguous (fun w =>
        run (contigCheckBox_setChecked (contiguous (layer w))) w) w
  | _on_editable_change =>
      match disable_with_opacity
              ["pick_button"; "paint_button"; "fill_button"]%string
              (editable (layer w)) (panel w) with
      | Some p => Ok (on_panel (fun _ => p) w)
      | None => Raise (Py.AttributeError "no such widget") w
      end
  | update_color => Ok (request_repaint w)
  end.

(** The interpreter: each call is recorded, then run with one unit of
    fuel less for the calls it makes. *)
Fixpoint exec (fuel : nat) (c : call) (w : World) : outcome :=
  match fuel with
  | O => OutOfFuel
  | S n => step (exec n) c (record_call c w)
  end.

(** The panel as [__init__] leaves its widgets before the first handler
    runs: the spin box over 0..2147483647, the slider over 1..40, both
    check boxes clear, pan/zoom the checked button of the group. *)
Definition fresh_panel : QtLabelsControls :=
  {| selectionSpinBox :=
       Qt.setMaximum 2147483647 (Qt.setMinimum 0 Qt.fresh_input);
     brushSizeSlider := Qt.setMaximum 40 (Qt.setMinimum 1 Qt.fresh_input);
     contigCheckBox := false;
     ndimCheckBox := false;
     panzoom_button :=
       {| Qt.isChecked := true; Qt.isEnabled := true; Qt.dimmed := false |};
     pick_button :=
       {| Qt.isChecked := false; Qt.isEnabled := true; Qt.dimmed := false |};
     paint_button :=
       {| Qt.isChecked := false; Qt.isEnabled := true; Qt.dimmed := false |};
     fill_button :=
       {| Qt.isChecked := false; Qt.isEnabled := true; Qt.dimmed := false |};
     button_group := Some Panzoom;
     focus := FocusElsewhere |}.

(** [QtLabelsControls.__init__]: the widgets are created, then every
    mirrored property is read once through its handler. *)
Definition __init__ (fuel : nat) (l : Layer) : outcome :=
  Ok {| layer := l; panel := fresh_panel;
        repaint_pending := false; log := [] |}
  >>= exec fuel _on_selection_change
  >>= exec fuel _on_brush_size_change
  >>= exec fuel _on_contig_change
  >>= exec fuel _on_n_dim_change
  >>= exec fuel _on_editable_change.

(** *** The calls in closed form

    While a blocker is active on the emitter of a property, an assignment
    to the property notifies nobody, and the widget setter and the outbound
    handler above it end without calling back into the panel.  These are
    the worlds they end in; the lemmas below show that [exec] computes
    them. *)

Definition Layer_set_selected_label_quiet (v : Py.num) (w : World) : World :=
  on_layer (set_selected_label v (get_color v))
    (record_call (Layer_set_selected_label v) w).

Definition changeSelection_quiet (value : Z) (w : World) : World :=
  on_panel (set_focus FocusPanel)
    (Layer_set_selected_label_quiet (Py.Int value)
       (record_call (changeSelection value) w)).

Definition selectionSpinBox_setValue_quiet (z : Z) (w : World) : World :=
  let sb := selectionSpinBox (panel w) in
  let v := Qt.qBound (Qt.minimum sb) z (Qt.maximum sb) in
  if v =? Qt.value sb then record_call (selectionSpinBox_setValue z) w
  else changeSelection_quiet v
         (on_panel (set_selectionSpinBox (Qt.with_value v sb))
            (record_call (selectionSpinBox_setValue z) w)).

Definition Layer_set_brush_size_quiet (v : Py.num) (w : World) : World :=
  on_layer (set_brush_size v) (record_call (Layer_set_brush_size v) w).

Definition changeSize_quiet (value : Z) (w : World) : World :=
  Layer_set_brush_size_quiet (Py.Int value) (record_call (changeSize value) w).

Definition brushSizeSlider_setValue_quiet (z : Z) (w : World) : World :=
  let sld := brushSizeSlider (panel w) in
  let v := Qt.qBound (Qt.minimum sld) z (Qt.maximum sld) in
  if v =? Qt.value sld then record_call (brushSizeSlider_setValue z) w
  else changeSize_quiet v
         (on_panel (set_brushSizeSlider (Qt.with_value v sld))
            (record_call (brushSizeSlider_setValue z) w)).

Definition Layer_set_contiguous_quiet (b : bool) (w : World) : World :=
  on_layer (set_contiguous b) (record_call (Layer_set_contiguous b) w).

Definition change_contig_quiet (state : Z) (w : World) : World :=
  Layer_set_contiguous_quiet (state =? Qt.Checked)
    (record_call (change_contig state) w).

Definition contigCheckBox_setChecked_quiet (b : bool) (w : World) : World :=
  if Bool.eqb b (contigCheckBox (panel w))
  then record_call (contigCheckBox_setChecked b) w
  else change_contig_quiet (if b then Qt.Checked else Qt.Unchecked)
         (on_panel (set_contigCheckBox b)
            (record_call (contigCheckBox_setChecked b) w)).

Definition Layer_set_n_dimensional_quiet (b : bool) (w : World) : World :=
  on_layer (set_n_dimensional b) (record_call (Layer_set_n_dimensional b) w).

Definition change_ndim_quiet (state : Z) (w : World) : World :=
  Layer_set_n_dimensional_quiet (state =? Qt.Checked)
    (record_call (change_ndim state) w).

Definition ndimCheckBox_setChecked_quiet (b : bool) (w : World) : World :=
  if Bool.eqb b (ndimCheckBox (panel w))
  then record_call (ndimCheckBox_setChecked b) w
  else change_ndim_quiet (if b then Qt.Checked else Qt.Unchecked)
         (on_panel (set_ndimCheckBox b)
            (record_call (ndimCheckBox_setChecked b) w)).

(** The inbound handlers in closed form: the blocker is entered, the
    widget is set, the blocker is left. *)
Definition _on_selection_change_result (w : World) : outcome :=
  with_blocker ev_selected_label (fun w =>
    match Py.int (selected_label (layer w)) with
    | inl e => Raise e w
    | inr z =>
        if Qt.c_int z then Ok (selectionSpinBox_setValue_quiet z w)
        else Raise (Qt.overflowed "1") (record_call (selectionSpinBox_setValue z) w)
    end) (record_call _on_selection_change w).

Definition _on_brush_size_change_result (w : World) : outcome :=
  with_blocker ev_brush_size (fun w =>
    match Py.int (brush_size (layer w)) with
    | inl e => Raise e w
    | inr z => Ok (brushSizeSlider_setValue_quiet (np.clip z 1 40) w)
    end) (record_call _on_brush_size_change w).

Definition _on_contig_change_result (w : World) : World :=
  on_layer (unblock ev_contiguous)
    (contigCheckBox_setChecked_quiet (contiguous (layer w))
       (on_layer (block ev_contiguous) (record_call _on_contig_change w))).

Definition _on_n_dim_change_result (w : World) : World :=
  on_layer (unblock ev_n_dimensional)
    (ndimCheckBox_setChecked_quiet (n_dimensional (layer w))
       (on_layer (block ev_n_dimensional) (record_call _on_n_dim_change w))).

End Panel.

(** ** What the specification speaks of *)

(** The integer part of a rational, towards zero. *)
Definition Qtrunc (q : Q) : Z :=
  if Qnum q <? 0 then Qceiling q else Qfloor q.

(** The integer nearest to a rational, a tie going to the even one (what
    Python's [round] does). *)
Definition round_to_int (q : Q) : Z :=
  let f := Qfloor q in
  match Qcompare (q - inject_Z f) (1 # 2) with
  | Lt => f
  | Gt => f + 1
  | Eq => if Z.even f then f else f + 1
  end.

Definition clamp (z lo hi : Z) : Z := Z.max lo (Z.min z hi).

(** The button that stands for each mode. *)
Definition button_of (m : Mode) : button_id :=
  match m with
  | PAN_ZOOM => Panzoom
  | PICKER => Pick
  | PAINT => Paint
  | FILL => Fill
  end.

Definition all_buttons : list button_id := [Panzoom; Pick; Paint; Fill].

(** The exclusive group is consistent: its checked button, if any, is the
    one button that is checked. *)
Definition exclusive (p : QtLabelsControls) : bool :=
  forallb (fun b =>
    Bool.eqb (Qt.isChecked (button b p))
      (match button_group p with
       | Some c => button_id_eqb b c
       | None => false
       end)) all_buttons.

(** A blocker is active on the emitter. *)
Definition is_blocked (e : emitter) (w : World) : Prop :=
  blocked e (events (layer w)) <> 0%nat.

(** The calls made between two worlds, the latest first. *)
Definition calls_since (before after : World) : list call :=
  firstn (List.length (log after) - List.length (log before)) (log after).

Definition is_changeSelection (c : call) : bool :=
  match c with changeSelection _ => true | _ => false end.

Definition is_Layer_set_selected_label (c : call) : bool :=
  match c with Layer_set_selected_label _ => true | _ => false end.

Definition is__on_selection_change (c : call) : bool :=
  match c with _on_selection_change => true | _ => false end.

Definition count (f : call -> bool) (cs : list call) : nat :=
  List.length (filter f cs).

(** An assignment to [layer.contiguous] or [layer.n_dimensional], heard
    by the panel or not. *)
Definition Layer_set_contiguous_result (b : bool) (w : World) : World :=
  if Nat.eqb (blocked ev_contiguous (events (layer w))) 0
  then _on_contig_change_result (Layer_set_contiguous_quiet b w)
  else Layer_set_contiguous_quiet b w.

Definition Layer_set_n_dimensional_result (b : bool) (w : World) : World :=
  if Nat.eqb (blocked ev_n_dimensional (events (layer w))) 0
  then _on_n_dim_change_result (Layer_set_n_dimensional_quiet b w)
  else Layer_set_n_dimensional_quiet b w.

(** The two colours of the checkerboard. *)
Definition light : Qt.QColor := Qt.rgb 230 230 230.
Definition dark : Qt.QColor := Qt.rgb 25 25 25.

(** The colour of the cell in column [i] and row [j] of a checkerboard:
    light when [i] and [j] have the same parity. *)
Definition checker_color (i j : Z) : Qt.QColor :=
  if Bool.eqb (Z.even i) (Z.even j) then light else dark.

Definition QColor_eqb (a b : Qt.QColor) : bool :=
  (Qt.red a =? Qt.red b) && (Qt.green a =? Qt.green b)
  && (Qt.blue a =? Qt.blue b) && (Qt.alpha a =? Qt.alpha b)
  && Bool.eqb (Qt.isValid a) (Qt.isValid b).

(** The pixel of the rendering is of the given colour. *)
Definition shows_color (cmds : list Qt.paint_cmd) (c : Z -> Z -> Qt.QColor)
  (x y : Z) : bool :=
  match Qt.rendered cmds x y with
  | Some c' => QColor_eqb c' (c x y)
  | None => false
  end.

(** The colour of the bytes a selected colour is cut to: each channel the
    product with 255 in the array's type, cast to an integer; opaque when
    the array has no fourth channel. *)
Definition painted (selected : color_array) : Qt.QColor :=
  let channel x := np.astype_int (np.mul_int (dtype selected) 255 x) in
  let '(r, g, b) := rgb selected in
  {| Qt.red := channel r; Qt.green := channel g; Qt.blue := channel b;
     Qt.alpha := match opacity selected with
                 | Some a => channel a
                 | None => 255
                 end;
     Qt.isValid := true |}.

(** The colours a paint routine selects are among the given ones. *)
Definition selects_only (allowed : list Qt.QColor) (cmd : Qt.paint_cmd) : bool :=
  match cmd with
  | Qt.setPen c | Qt.setBrush c => existsb (QColor_eqb c) allowed
  | Qt.drawRect _ _ _ _ => true
  end.

(** The ranges [__init__] gives the spin box and the slider. *)
Definition ranges (p : QtLabelsControls) : bool :=
  (Qt.minimum (selectionSpinBox p) =? 0)
  && (Qt.maximum (selectionSpinBox p) =? 2147483647)
  && (Qt.minimum (brushSizeSlider p) =? 1)
  && (Qt.maximum (brushSizeSlider p) =? 40).

(** What holds of the panel from [__init__] on. *)
Definition well_formed (p : QtLabelsControls) : bool :=
  exclusive p && ranges p.

(** A call ended with the panel well formed, if it ended. *)
Definition ends_well (o : outcome) : Prop :=
  match o with
  | Ok w => well_formed (panel w) = true
  | Raise _ w => well_formed (panel w) = true
  | OutOfFuel => True
  end.

(** A call ended. *)
Definition ended (o : outcome) : Prop := o <> OutOfFuel.

(** [run'] gives what [run] gives wherever [run] ends. *)
Definition extends (run run' : call -> World -> outcome) : Prop :=
  forall c w, ended (run c w) -> run' c w = run c w.

(** ** What the calls keep *)

(** The property holds of the world a call ended in, if it ended. *)
Definition holds_after (P : World -> Prop) (o : outcome) : Prop :=
  match o with
  | Ok w => P w
  | Raise _ w => P w
  | OutOfFuel => True
  end.

(** The values of the spin box and of the slider lie in their ranges. *)
Definition values_in_range (p : QtLabelsControls) : bool :=
  (Qt.minimum (selectionSpinBox p) <=? Qt.value (selectionSpinBox p))
  && (Qt.value (selectionSpinBox p) <=? Qt.maximum (selectionSpinBox p))
  && (Qt.minimum (brushSizeSlider p) <=? Qt.value (brushSizeSlider p))
  && (Qt.value (brushSizeSlider p) <=? Qt.maximum (brushSizeSlider p)).

(** The group has a checked button. *)
Definition has_checked_button (p : QtLabelsControls) : bool :=
  match button_group p with
  | Some _ => true
  | None => false
  end.

(** The panel is in order: it is well formed, its two numeric widgets show
    values of their ranges, and a mode button is checked. *)
Definition panel_ok (p : QtLabelsControls) : bool :=
  well_formed p && values_in_range p && has_checked_button p.

Definition panel_is_ok (w : World) : Prop := panel_ok (panel w) = true.

(** The same blockers are active in both worlds. *)
Definition same_blockers (w w' : World) : Prop :=
  events (layer w') = events (layer w).

(** ** The four bindings *)

(** A property of the layer bound to a widget of the panel. *)
Inductive binding :=
| on_selected_label | on_brush_size | on_contiguous | on_n_dimensional.

(** The binding a call belongs to: the assignment to the property, the
    setter of its widget, and the handlers between the two. *)
Definition binding_of (c : call) : option binding :=
  match c with
  | Layer_set_selected_label _ | selectionSpinBox_setValue _
  | changeSelection _ | _on_selection_change | update_color =>
      Some on_selected_label
  | Layer_set_brush_size _ | brushSizeSlider_setValue _
  | changeSize _ | _on_brush_size_change =>
      Some on_brush_size
  | Layer_set_contiguous _ | contigCheckBox_setChecked _
  | change_contig _ | _on_contig_change =>
      Some on_contiguous
  | Layer_set_n_dimensional _ | ndimCheckBox_setChecked _
  | change_ndim _ | _on_n_dim_change =>
      Some on_n_dimensional
  | _ => None
  end.

(** The world with what belongs to a binding blanked out: the property
    (with the colour derived from the label), the value its widget shows
    (with the focus and the pending repaint, which the selection moves), and
    the record of calls.  The status text is blanked too: the layer may
    rewrite it when a property is assigned. *)
Definition elsewhere (b : binding) (w : World) : World :=
  match b with
  | on_selected_label =>
      {| layer :=
           set_status "" (set_selected_label (Py.Int 0) None (layer w));
         panel :=
           set_focus FocusElsewhere
             (set_selectionSpinBox
                (Qt.with_value 0 (selectionSpinBox (panel w))) (panel w));
         repaint_pending := false;
         log := [] |}
  | on_brush_size =>
      {| layer := set_status "" (set_brush_size (Py.Int 0) (layer w));
         panel :=
           set_brushSizeSlider
             (Qt.with_value 0 (brushSizeSlider (panel w))) (panel w);
         repaint_pending := repaint_pending w;
         log := [] |}
  | on_contiguous =>
      {| layer := set_status "" (set_contiguous false (layer w));
         panel := set_contigCheckBox false (panel w);
         repaint_pending := repaint_pending w;
         log := [] |}
  | on_n_dimensional =>
      {| layer := set_status "" (set_n_dimensional false (layer w));
         panel := set_ndimCheckBox false (panel w);
         repaint_pending := repaint_pending w;
         log := [] |}
  end.

(** Two worlds differ at most in what belongs to the binding. *)
Definition same_elsewhere (b : binding) (w w' : World) : Prop :=
  elsewhere b w' = elsewhere b w.

Definition is_changeSize (c : call) : bool :=
  match c with changeSize _ => true | _ => false end.

Definition is_change_contig (c : call) : bool :=
  match c with change_contig _ => true | _ => false end.

Definition is_change_ndim (c : call) : bool :=
  match c with change_ndim _ => true | _ => false end.

(** ** Colours in 8-bit steps *)

(** The element of an array of type [d] nearest to [k / 255]. *)
Definition eight_bit (d : np.dtype) (k : Z) : spec_float :=
  SFdiv (np.prec d) (np.emax d) (np.of_int d k) (np.of_int d 255).

(** The colour array of type [d] for the 8-bit colour [(r, g, b)]. *)
Definition eight_bit_color (d : np.dtype) (r g b : Z) : color_array :=
  {| dtype := d;
     rgb := (eight_bit d r, eight_bit d g, eight_bit d b);
     opacity := None |}.

(** A channel value is one of 0..255. *)
Definition is_byte (z : Z) : Prop := 0 <= z <= 255.

(** ** Example data *)

(** The float nearest to the fraction [n / d], as a literal such as [0.4]
    denotes it. *)
Definition decimal (n d : Z) : spec_float :=
  SFdiv 53 1024 (Py.float64 n 0) (Py.float64 d 0).

(** A printed form for the modes. *)
Definition example_str (m : mode_value) : string :=
  match m with
  | Member PAN_ZOOM => "pan_zoom"
  | Member PICKER => "picker"
  | Member PAINT => "paint"
  | Member FILL => "fill"
  | Foreign repr => repr
  end.

(** A colour map: no colour for label 0, red for every other label. *)
Definition example_get_color (v : Py.num) : option color_array :=
  match Py.int v with
  | inr 0 => None
  | _ => Some {| dtype := np.float64;
                 rgb := (Py.float64 1 0, S754_zero false, S754_zero false);
                 opacity := None |}
  end.

Definition unblocked : Blocked :=
  {| mode_blocked := 0; selected_label_blocked := 0; brush_size_blocked := 0;
     contiguous_blocked := 0; n_dimensional_blocked := 0;
     editable_blocked := 0 |}.

(** A layer showing the background label, with a brush of size 10. *)
Definition example_layer : Layer :=
  {| mode := Member PAN_ZOOM;
     selected_label := Py.Int 0;
     brush_size := Py.Int 10;
     contiguous := true;
     n_dimensional := false;
     editable := true;
     status := "Ready";
     _selected_color := None;
     events := unblocked |}.

(** The world once the panel of [example_layer] is built. *)
Definition example_world : World :=
  Eval vm_compute in
    match __init__ example_str example_get_color 4 example_layer with
    | Ok w => w
    | Raise _ w => w
    | OutOfFuel =>
        {| layer := example_layer; panel := fresh_panel;
           repaint_pending := false; log := [] |}
    end.

(** The same world with another brush size in the layer, before the panel
    hears of it. *)
Definition with_brush_size (v : Py.num) : World :=
  on_layer (set_brush_size v) example_world.

(** The same world with another selected label in the layer, before the
    panel hears of it. *)
Definition with_selected_label (v : Py.num) : World :=
  on_layer (set_selected_label v (example_get_color v)) example_world.

(** A colour whose red channel is one quarter. *)
Definition quarter_red : color_array :=
  {| dtype := np.float64;
     rgb := (Py.float64 1 (-2), S754_zero false, S754_zero false);
     opacity := None |}.


(** [example_layer] with a label selected and the given colour derived. *)
Definition colored_layer (c : color_array) : Layer :=
  set_selected_label (Py.Int 1) (Some c) example_layer.

(** * Properties *)

(** ** Numbers *)

Lemma magnitude_pos (m : positive) (e : Z) : 0 < Qnum (Py.magnitude m e).
Proof.
  destruct e as [|k|k]; unfold Py.magnitude; cbn [Qnum inject_Z].
  - lia.
  - apply Z.mul_pos_pos; [lia | apply Z.pow_pos_nonneg; lia].
  - lia.
Qed.

(** Shifting the mantissa by the exponent is the floor of the magnitude. *)
Lemma shiftl_magnitude (m : positive) (e : Z) :
  Z.shiftl (Zpos m) e = Qfloor (Py.magnitude m e).
Proof.
  destruct e as [|k|k]; unfold Py.magnitude.
  - rewrite Qfloor_Z. reflexivity.
  - rewrite Qfloor_Z, Z.shiftl_mul_pow2 by lia. reflexivity.
  - change (Z.shiftl (Z.pos m) (Z.neg k)) with (Z.shiftr (Z.pos m) (Z.pos k)).
    rewrite Z.shiftr_div_pow2 by lia. unfold Qfloor.
    rewrite Pos2Z.inj_pow. reflexivity.
Qed.

Lemma trunc_Qtrunc (f : spec_float) (q : Q) :
  Py.float_Q f = Some q -> Py.trunc f = Some (Qtrunc q).
Proof.
  destruct f as [s| | |s m e]; cbn [Py.float_Q Py.trunc]; try discriminate.
  - intros [= <-]. reflexivity.
  - intros [= <-]. f_equal. rewrite shiftl_magnitude.
    pose proof (magnitude_pos m e) as P.
    destruct (Py.magnitude m e) as [a d]. cbn [Qnum] in P.
    destruct s; cbn [cond_Zopp]; unfold Qtrunc, Qceiling, Qopp; cbn [Qnum Qden].
    + replace (- a <? 0) with true by (symmetry; apply Z.ltb_lt; lia).
      rewrite Z.opp_involutive. reflexivity.
    + replace (a <? 0) with false by (symmetry; apply Z.ltb_ge; lia).
      reflexivity.
Qed.

(** [int] of a finite number is its integer part towards zero. *)
Lemma int_Qtrunc (v : Py.num) (q : Q) :
  Py.to_Q v = Some q -> Py.int v = inr (Qtrunc q).
Proof.
  destruct v as [z|f]; cbn [Py.to_Q].
  - intros [= <-]. cbn [Py.int]. f_equal. unfold Qtrunc. cbn [Qnum inject_Z].
    destruct (z <? 0); [apply eq_sym, Qceiling_Z | apply eq_sym, Qfloor_Z].
  - intros H. pose proof (trunc_Qtrunc f q H) as T.
    destruct f as [s|s| |s m e]; cbn [Py.trunc] in T; try discriminate T;
      injection T as T; cbn [Py.int]; rewrite T; reflexivity.
Qed.

(** [int] of anything else raises. *)
Lemma int_not_finite (v : Py.num) :
  Py.to_Q v = None -> exists e, Py.int v = inl e.
Proof.
  destruct v as [z|[s|s| |s m e]]; cbn; try discriminate; eauto.
Qed.

(** The integer part towards zero is within one of the number, on the side
    of zero. *)
Lemma Qtrunc_spec (q : Q) :
  (0 <= q -> inject_Z (Qtrunc q) <= q /\ q < inject_Z (Qtrunc q + 1))%Q /\
  (q <= 0 -> inject_Z (Qtrunc q - 1) < q /\ q <= inject_Z (Qtrunc q))%Q.
Proof.
  unfold Qtrunc. split; intros H.
  - destruct (Z.ltb_spec (Qnum q) 0) as [N|N].
    + exfalso. unfold Qle in H. cbn in H. lia.
    + split; [apply Qfloor_le | apply Qlt_floor].
  - destruct (Z.ltb_spec (Qnum q) 0) as [N|N].
    + split; [apply Qceiling_lt | apply Qle_ceiling].
    + assert (Z : Qnum q = 0) by (unfold Qle in H; cbn in H; lia).
      destruct q as [a d]. cbn in Z. subst a.
      unfold Qfloor. rewrite Z.div_0_l by lia.
      split; [reflexivity | unfold Qle; cbn; lia].
Qed.

Lemma clip_clamp (z lo hi : Z) : lo <= hi -> np.clip z lo hi = clamp z lo hi.
Proof. unfold np.clip, clamp. lia. Qed.

Lemma qBound_inside (lo v hi : Z) : lo <= v <= hi -> Qt.qBound lo v hi = v.
Proof. unfold Qt.qBound. lia. Qed.

(** ** The colour box *)

Lemma QColor_eqb_eq (a b : Qt.QColor) : QColor_eqb a b = true -> a = b.
Proof.
  destruct a, b. unfold QColor_eqb.
  cbn [Qt.red Qt.green Qt.blue Qt.alpha Qt.isValid].
  rewrite !andb_true_iff, !Z.eqb_eq, Bool.eqb_true_iff.
  intros [[[[-> ->] ->] ->] ->]. reflexivity.
Qed.

Lemma in_range (n x : Z) : 0 <= x < n -> In x (Py.range n).
Proof.
  intros H. unfold Py.range. apply in_map_iff. exists (Z.to_nat x).
  split; [lia | apply in_seq; lia].
Qed.

(** A check of every pixel of an [n] by [n] widget covers each of them. *)
Lemma every_pixel (n : Z) (f : Z -> Z -> bool) :
  forallb (fun x => forallb (f x) (Py.range n)) (Py.range n) = true ->
  forall x y, 0 <= x < n -> 0 <= y < n -> f x y = true.
Proof.
  intros H x y Hx Hy. rewrite forallb_forall in H.
  specialize (H x (in_range n x Hx)). rewrite forallb_forall in H.
  exact (H y (in_range n y Hy)).
Qed.

Lemma shows_color_rendered (cmds : list Qt.paint_cmd)
  (c : Z -> Z -> Qt.QColor) (x y : Z) :
  shows_color cmds c x y = true -> Qt.rendered cmds x y = Some (c x y).
Proof.
  unfold shows_color. destruct (Qt.rendered cmds x y) as [c'|]; [|discriminate].
  intros H. f_equal. apply QColor_eqb_eq, H.
Qed.

(** C6: with no selected colour, [paintEvent] draws, for each cell
    [(i, j)] of the 6 by 6 grid of 4-pixel cells, a square at
    [(4i, 4j)] in one of two fixed colours, the light one exactly when [i]
    and [j] have the same parity; every pixel of the 24 by 24 swatch ends
    with the colour of the cell it lies in. *)
Theorem C6_paintEvent_checkerboard (l : Layer) :
  _selected_color l = None ->
  exists cmds,
    paintEvent l = inr cmds /\
    cmds =
      flat_map (fun i =>
        flat_map (fun j =>
          [Qt.setPen (checker_color i j); Qt.setBrush (checker_color i j);
           Qt.drawRect (4 * i) (4 * j) 5 5])
          (Py.range 6))
        (Py.range 6) /\
    (forall x y, 0 <= x < _height -> 0 <= y < _height ->
       Qt.rendered cmds x y = Some (checker_color (x / 4) (y / 4))) /\
    (forall c, In (Qt.setPen c) cmds \/ In (Qt.setBrush c) cmds ->
       c = light \/ c = dark).
Proof.
  intros H. unfold paintEvent. rewrite H. eexists. split; [reflexivity|].
  split; [vm_compute; reflexivity|]. split.
  - intros x y Hx Hy.
    apply (shows_color_rendered _ (fun x y => checker_color (x / 4) (y / 4))).
    revert x y Hx Hy. apply every_pixel. vm_compute. reflexivity.
  - intros c Hc.
    match type of Hc with In _ ?cmds \/ _ =>
      assert (A : forallb (selects_only [light; dark]) cmds = true)
        by (vm_compute; reflexivity)
    end.
    rewrite forallb_forall in A.
    destruct Hc as [Hc|Hc]; apply A in Hc; cbn [selects_only existsb] in Hc;
      rewrite !orb_true_iff in Hc;
      destruct Hc as [Hc|[Hc|Hc]]; try discriminate Hc;
      apply QColor_eqb_eq in Hc; auto.
Qed.

(** [astype(int)] of a finite element that fits is its integer part
    towards zero. *)
Lemma astype_int_Qtrunc (x : spec_float) (q : Q) :
  Py.float_Q x = Some q ->
  np.int64_min <= Qtrunc q <= np.int64_max ->
  np.astype_int x = Qtrunc q.
Proof.
  intros Hq R. unfold np.astype_int. rewrite (trunc_Qtrunc x q Hq).
  destruct (Z.leb_spec np.int64_min (Qtrunc q)); [|lia].
  destruct (Z.leb_spec (Qtrunc q) np.int64_max); [|lia].
  reflexivity.
Qed.


(** *** A product that fits in a byte *)

Lemma shr_1_div2 (mrs : shr_record) :
  0 <= shr_m mrs -> shr_m (shr_1 mrs) = shr_m mrs / 2.
Proof.
  destruct mrs as [m r s]. cbn [shr_m]. intros H.
  rewrite <- Z.div2_div.
  destruct m as [|[p|p|]|p]; try reflexivity. lia.
Qed.

Lemma iter_shr_1 (p : positive) (mrs : shr_record) :
  0 <= shr_m mrs ->
  shr_m (iter_pos shr_1 p mrs) = shr_m mrs / 2 ^ Zpos p.
Proof.
  assert (N : forall x, 0 <= shr_m x -> 0 <= shr_m (shr_1 x)).
  { intros x H. rewrite shr_1_div2 by exact H. apply Z.div_pos; lia. }
  revert mrs. induction p as [p IH|p IH|]; intros mrs H; cbn [iter_pos].
  - assert (H1 : 0 <= shr_m (shr_1 mrs)) by (apply N, H).
    assert (H2 : 0 <= shr_m (iter_pos shr_1 p (shr_1 mrs))).
    { rewrite IH by exact H1. apply Z.div_pos; [exact H1|].
      apply Z.pow_pos_nonneg; lia. }
    rewrite IH by exact H2. rewrite IH by exact H1.
    rewrite shr_1_div2 by exact H.
    rewrite !Z.div_div by (try apply Z.pow_pos_nonneg; lia).
    f_equal.
    replace (Z.pos p~1) with (1 + Z.pos p + Z.pos p) by lia.
    rewrite !Z.pow_add_r by lia. change (2 ^ 1) with 2. ring.
  - assert (H2 : 0 <= shr_m (iter_pos shr_1 p mrs)).
    { rewrite IH by exact H. apply Z.div_pos; [exact H|].
      apply Z.pow_pos_nonneg; lia. }
    rewrite IH by exact H2. rewrite IH by exact H.
    rewrite !Z.div_div by (try apply Z.pow_pos_nonneg; lia).
    f_equal. rewrite <- Z.pow_add_r by lia. f_equal. lia.
  - rewrite shr_1_div2 by exact H. reflexivity.
Qed.

Lemma digits2_pos_bound (m : positive) (k : Z) :
  Zpos m < 2 ^ k -> 0 <= k -> Zpos (digits2_pos m) <= k.
Proof.
  revert k. induction m as [m IH|m IH|]; intros k H K; cbn [digits2_pos].
  - assert (K1 : 1 <= k) by (destruct (Z.eq_dec k 0); [subst; cbn in H|]; lia).
    replace k with (1 + (k - 1)) in H by lia.
    rewrite Z.pow_add_r in H by lia. change (2 ^ 1) with 2 in H.
    specialize (IH (k - 1)). lia.
  - assert (K1 : 1 <= k) by (destruct (Z.eq_dec k 0); [subst; cbn in H|]; lia).
    replace k with (1 + (k - 1)) in H by lia.
    rewrite Z.pow_add_r in H by lia. change (2 ^ 1) with 2 in H.
    specialize (IH (k - 1)). lia.
  - destruct (Z.eq_dec k 0); [subst; cbn in H|]; lia.
Qed.

Lemma Zdigits2_bound (m k : Z) :
  0 <= m < 2 ^ k -> 0 <= k -> Zdigits2 m <= k.
Proof.
  destruct m as [|m|m]; cbn [Zdigits2]; intros [H0 H] K; try lia.
  apply digits2_pos_bound; assumption.
Qed.

Lemma round_nearest_even_bound (m : Z) (l : location) :
  m <= round_nearest_even m l <= m + 1.
Proof.
  destruct l as [|[]]; cbn [round_nearest_even];
    try destruct (Z.even m); lia.
Qed.

Section ByteProduct.

Variables prec emax : Z.
Hypothesis prec_large : 8 < prec.
Hypothesis emax_large : prec <= emax.

Lemma fexp_negative (x : Z) : x <= 8 -> fexp prec emax x < 0.
Proof. unfold fexp, emin. lia. Qed.

(** What [shr_fexp] gives for a mantissa that is not negative: the
    exponent is raised to the one of the format if it is below, and the
    mantissa is divided accordingly. *)
Lemma shr_fexp_spec (m e : Z) (l : location) :
  0 <= m ->
  let e' := Z.max e (fexp prec emax (Zdigits2 m + e)) in
  snd (shr_fexp prec emax m e l) = e' /\
  shr_m (fst (shr_fexp prec emax m e l)) = m / 2 ^ (e' - e) /\
  (e' = e -> fst (shr_fexp prec emax m e l) = shr_record_of_loc m l).
Proof.
  intros H e'. unfold shr_fexp, shr.
  assert (M : shr_m (shr_record_of_loc m l) = m)
    by (destruct l as [|[]]; reflexivity).
  destruct (fexp prec emax (Zdigits2 m + e) - e) as [|p|p] eqn:D;
    cbn [fst snd].
  - replace e' with e by (unfold e'; lia).
    rewrite Z.sub_diag, Z.div_1_r. auto.
  - replace e' with (e + Z.pos p) by (unfold e'; lia).
    split; [reflexivity|]. split; [|lia].
    rewrite iter_shr_1 by (rewrite M; exact H).
    rewrite M. f_equal. f_equal. lia.
  - replace e' with e by (unfold e'; lia).
    rewrite Z.sub_diag, Z.div_1_r. auto.
Qed.

(** Rounding a positive number that is at most 255 to the format gives
    zero or a positive number whose integer part is at most 255. *)
Lemma binary_round_aux_byte (M E : Z) :
  E <= 0 -> 0 < M <= 255 * 2 ^ (- E) ->
  binary_round_aux prec emax false M E loc_Exact = S754_zero false \/
  exists m e,
    binary_round_aux prec emax false M E loc_Exact = S754_finite false m e /\
    e <= 0 /\ Zpos m / 2 ^ (- e) <= 255.
Proof.
  intros HE [M0 HM]. unfold binary_round_aux.
  assert (P : forall k, 0 <= k -> 0 < 2 ^ k) by (intros; apply Z.pow_pos_nonneg; lia).
  (* the first shift *)
  destruct (shr_fexp_spec M E loc_Exact) as (E1 & M1 & X1); [lia|].
  destruct (shr_fexp prec emax M E loc_Exact) as [mrs1 e1].
  cbn [fst snd] in E1, M1, X1. rewrite <- E1 in M1, X1.
  assert (D1 : Zdigits2 M + E <= 8).
  { assert (Zdigits2 M <= 8 - E); [|lia].
    apply Zdigits2_bound; [|lia]. split; [lia|].
    replace (8 - E) with (8 + - E) by lia. rewrite Z.pow_add_r by lia.
    change (2 ^ 8) with 256. pose proof (P (- E)). nia. }
  pose proof (fexp_negative _ D1) as F1.
  assert (L1 : E <= e1 <= 0) by lia.
  assert (B1 : 0 <= shr_m mrs1 <= 255 * 2 ^ (- e1)).
  { rewrite M1. split; [apply Z.div_pos; [lia | apply P; lia]|].
    replace (- E) with ((e1 - E) + - e1) in HM by lia.
    rewrite Z.pow_add_r in HM by lia.
    apply Z.div_le_upper_bound; [apply P; lia|].
    rewrite Z.mul_assoc, (Z.mul_comm _ 255), <- Z.mul_assoc. exact HM. }
  (* the rounding *)
  set (mr := round_nearest_even (shr_m mrs1) (loc_of_shr_record mrs1)).
  pose proof (round_nearest_even_bound (shr_m mrs1) (loc_of_shr_record mrs1))
    as R. fold mr in R.
  assert (BR : 0 <= mr /\ mr / 2 ^ (- e1) <= 255 /\ mr < 2 ^ (8 - e1)).
  { split; [lia|].
    destruct (Z.eq_dec e1 E) as [Q|Q].
    - (* nothing was shifted out: the rounding is exact *)
      assert (mr = shr_m mrs1) as ->.
      { unfold mr. rewrite (X1 Q). reflexivity. }
      split.
      + apply Z.div_le_upper_bound; [apply P; lia|].
        rewrite Z.mul_comm. lia.
      + replace (8 - e1) with (8 + - e1) by lia.
        rewrite Z.pow_add_r by lia. change (2 ^ 8) with 256.
        pose proof (P (- e1)). 
        assert (0 < shr_m mrs1)
          by (rewrite M1, Q, Z.sub_diag, Z.div_1_r; exact M0).
        nia.
    - (* bits were shifted out: the exponent is the format's, below zero *)
      assert (N1 : e1 < 0) by lia.
      assert (K : 2 <= 2 ^ (- e1)).
      { replace (- e1) with (1 + (- e1 - 1)) by lia.
        rewrite Z.pow_add_r by lia. change (2 ^ 1) with 2.
        pose proof (P (- e1 - 1)). lia. }
      split.
      + assert (mr / 2 ^ (- e1) < 256); [|lia].
        apply Z.div_lt_upper_bound; [lia|]. nia.
      + replace (8 - e1) with (8 + - e1) by lia.
        rewrite Z.pow_add_r by lia. change (2 ^ 8) with 256. nia. }
  destruct BR as (R0 & RD & RP).
  (* the second shift *)
  destruct (shr_fexp_spec mr e1 loc_Exact R0) as (E2 & M2 & _).
  destruct (shr_fexp prec emax mr e1 loc_Exact) as [mrs2 e2].
  cbn [fst snd] in E2, M2. rewrite <- E2 in M2.
  assert (D2 : Zdigits2 mr + e1 <= 8).
  { assert (Zdigits2 mr <= 8 - e1); [|lia].
    apply Zdigits2_bound; lia. }
  pose proof (fexp_negative _ D2) as F2.
  assert (L2 : e1 <= e2 <= 0) by lia.
  assert (V : shr_m mrs2 / 2 ^ (- e2) = mr / 2 ^ (- e1)).
  { pose proof (P (e2 - e1)). pose proof (P (- e2)).
    rewrite M2, Z.div_div by lia.
    rewrite <- Z.pow_add_r by lia. f_equal. f_equal. lia. }
  assert (N2 : 0 <= shr_m mrs2)
    by (rewrite M2; apply Z.div_pos; [lia | apply P; lia]).
  destruct (shr_m mrs2) as [|m2|m2] eqn:S2; [left; reflexivity| |lia].
  right. exists m2, e2.
  destruct (Z.leb_spec e2 (emax - prec)); [|lia].
  split; [reflexivity|]. split; [lia|]. rewrite V. exact RD.
Qed.

End ByteProduct.

(** A float between 0 and 1 is a zero or has a mantissa of at most
    [2 ^ (- e)] with an exponent [e] that is not positive. *)
Lemma unit_interval_mantissa (s : bool) (m : positive) (e : Z) (q : Q) :
  Py.float_Q (S754_finite s m e) = Some q -> (0 <= q <= 1)%Q ->
  s = false /\ e <= 0 /\ Zpos m <= 2 ^ (- e).
Proof.
  cbn [Py.float_Q]. intros [= <-] [L U].
  pose proof (magnitude_pos m e) as P.
  destruct s.
  - exfalso. unfold Qle, Qopp in L. cbn [Qnum Qden] in L.
    destruct (Py.magnitude m e) as [a d]. cbn [Qnum Qden] in *. lia.
  - split; [reflexivity|].
    destruct e as [|k|k]; unfold Py.magnitude, Qle in U;
      cbn [Qnum Qden inject_Z] in U.
    + cbn. lia.
    + exfalso. assert (2 <= 2 ^ Z.pos k).
      { replace (Z.pos k) with (1 + (Z.pos k - 1)) by lia.
        rewrite Z.pow_add_r by lia. change (2 ^ 1) with 2.
        assert (0 < 2 ^ (Z.pos k - 1)) by (apply Z.pow_pos_nonneg; lia).
        lia. }
      nia.
    + split; [lia|]. cbn [Z.opp]. rewrite Pos2Z.inj_pow in U. lia.
Qed.

(** The product of 255 and a fraction between 0 and 1, in the array's
    type: a zero, or a positive number whose integer part is at most 255. *)
Lemma channel_product (d : np.dtype) (x : spec_float) (q : Q) :
  Py.float_Q x = Some q -> (0 <= q <= 1)%Q ->
  (exists s, np.mul_int d 255 x = S754_zero s) \/
  exists m e,
    np.mul_int d 255 x = S754_finite false m e /\
    e <= 0 /\ Zpos m / 2 ^ (- e) <= 255.
Proof.
  intros Hq B.
  destruct x as [s| | |s m e]; try discriminate Hq.
  - left. destruct d, s; vm_compute; eauto.
  - destruct (unit_interval_mantissa s m e q Hq B) as (-> & E & M).
    assert (F : exists m255 e255,
               np.of_int d 255 = S754_finite false m255 e255 /\
               e255 <= 0 /\ Zpos m255 = 255 * 2 ^ (- e255) /\
               8 < np.prec d /\ np.prec d <= np.emax d).
    { destruct d; eexists; eexists; (split; [vm_compute; reflexivity|]);
        vm_compute; repeat split; discriminate. }
    destruct F as (m255 & e255 & F & E255 & M255 & P1 & P2).
    unfold np.mul_int. rewrite F. cbn [SFmul xorb].
    destruct (binary_round_aux_byte (np.prec d) (np.emax d) P1 P2
                (Zpos (m255 * m)) (e255 + e)) as [Z|(m' & e' & Z & E' & V)].
    + lia.
    + split; [lia|]. rewrite Pos2Z.inj_mul, M255.
      replace (- (e255 + e)) with (- e255 + - e) by lia.
      rewrite Z.pow_add_r by lia.
      assert (0 < 2 ^ (- e255)) by (apply Z.pow_pos_nonneg; lia).
      nia.
    + left. eauto.
    + right. eauto.
Qed.

(** One channel: a fraction between 0 and 1, times 255 in the array's
    type and cut to an integer, is one of 0..255. *)
Lemma channel_is_byte (d : np.dtype) (x : spec_float) (q : Q) :
  Py.float_Q x = Some q -> (0 <= q <= 1)%Q ->
  is_byte (np.astype_int (np.mul_int d 255 x)).
Proof.
  intros Hq B. unfold is_byte.
  destruct (channel_product d x q Hq B) as [[s Z]|(m & e & Z & E & V)];
    rewrite Z.
  - vm_compute. split; discriminate.
  - unfold np.astype_int. cbn [Py.trunc cond_Zopp].
    rewrite Z.shiftl_div_pow2 by lia.
    assert (0 <= Z.pos m / 2 ^ (- e))
      by (apply Z.div_pos; [lia | apply Z.pow_pos_nonneg; lia]).
    unfold np.int64_min, np.int64_max.
    destruct (Z.leb_spec (- 2 ^ 63) (Z.pos m / 2 ^ (- e))); [|lia].
    destruct (Z.leb_spec (Z.pos m / 2 ^ (- e)) (2 ^ 63 - 1));
      cbn [andb]; lia.
Qed.


Lemma is_byte_c_int (z : Z) : is_byte z -> Qt.c_int z = true.
Proof.
  unfold is_byte, Qt.c_int. intros H.
  apply andb_true_iff. split; apply Z.leb_le; lia.
Qed.

Lemma is_byte_is_channel (z : Z) : is_byte z -> Qt.is_channel z = true.
Proof.
  unfold is_byte, Qt.is_channel. intros H.
  apply andb_true_iff. split; apply Z.leb_le; lia.
Qed.

(** [QColor] on three or four bytes gives the colour with these
    channels. *)
Lemma QColor_of_bytes (r g b : Z) (a : option Z) :
  is_byte r -> is_byte g -> is_byte b ->
  match a with Some a => is_byte a | None => True end ->
  Qt.QColor_of (r :: g :: b :: match a with Some a => [a] | None => [] end) =
  inr {| Qt.red := r; Qt.green := g; Qt.blue := b;
         Qt.alpha := match a with Some a => a | None => 255 end;
         Qt.isValid := true |}.
Proof.
  intros Hr Hg Hb Ha.
  destruct a as [a|]; unfold Qt.QColor_of, Qt.rgb, Qt.rgba; cbn [map];
    rewrite ?(is_byte_c_int r), ?(is_byte_c_int g), ?(is_byte_c_int b),
      ?(is_byte_c_int a), ?(is_byte_is_channel r), ?(is_byte_is_channel g),
      ?(is_byte_is_channel b), ?(is_byte_is_channel a) by assumption;
    reflexivity.
Qed.

(** With every channel cut to a byte, [paintEvent] draws one rectangle
    over the swatch in the colour of these bytes. *)
Lemma paintEvent_bytes (l : Layer) (selected : color_array) :
  _selected_color l = Some selected ->
  (forall x, In x (items selected) ->
     is_byte (np.astype_int (np.mul_int (dtype selected) 255 x))) ->
  paintEvent l =
    inr [Qt.setPen (painted selected); Qt.setBrush (painted selected);
         Qt.drawRect 0 0 _height _height].
Proof.
  intros H B. unfold paintEvent. rewrite H.
  destruct selected as [d [[r g] b] a].
  unfold items, painted in *. cbn [rgb opacity dtype map] in *.
  destruct a as [a|]; cbn [map app].
  - rewrite (QColor_of_bytes _ _ _ (Some _)); [reflexivity| | | |];
      apply B; cbn; auto.
  - rewrite (QColor_of_bytes _ _ _ None); [reflexivity| | | |];
      try (apply B; cbn; auto). exact I.
Qed.


(** ** The interpreter *)

Section Properties.

Variable str : mode_value -> string.
Variable get_color : Py.num -> option color_array.

Local Abbreviation exec := (exec str get_color).
Local Abbreviation step := (step str get_color).
Local Abbreviation __init__ := (__init__ str get_color).

Lemma exec_S (n : nat) (c : call) (w : World) :
  exec (S n) c w = step (exec n) c (record_call c w).
Proof. reflexivity. Qed.

Lemma emit_blocked (e : emitter) (cbs : list call)
  (run : call -> World -> outcome) (w : World) :
  is_blocked e w -> emit e cbs run w = Ok w.
Proof.
  unfold is_blocked, emit. intros H.
  destruct (blocked e (events (layer w))); [congruence | reflexivity].
Qed.

Lemma emit_unblocked (e : emitter) (cbs : list call)
  (run : call -> World -> outcome) (w : World) :
  blocked e (events (layer w)) = 0%nat -> emit e cbs run w = run_all run cbs w.
Proof. unfold emit. intros ->. reflexivity. Qed.

(** Entering a blocker blocks. *)
Lemma block_is_blocked (e : emitter) (w : World) :
  is_blocked e (on_layer (block e) w).
Proof. unfold is_blocked. destruct e; cbn; discriminate. Qed.

(** One level of the interpreter, for a call whose emitter is blocked. *)
Ltac one_level H :=
  cbn [Nat.add]; rewrite exec_S; cbn [step]; unfold Layer_setter;
  first [ rewrite emit_blocked; [reflexivity | exact H] | idtac ].

(** *** Selected label *)

Lemma Layer_set_selected_label_blocked (n : nat) (v : Py.num) (w : World) :
  is_blocked ev_selected_label w ->
  exec (1 + n) (Layer_set_selected_label v) w =
  Ok (Layer_set_selected_label_quiet get_color v w).
Proof. intros H. one_level H. Qed.

Lemma changeSelection_blocked (n : nat) (value : Z) (w : World) :
  is_blocked ev_selected_label w ->
  exec (2 + n) (changeSelection value) w =
  Ok (changeSelection_quiet get_color value w).
Proof.
  intros H. one_level H.
  rewrite (Layer_set_selected_label_blocked n); [reflexivity | exact H].
Qed.

Lemma selectionSpinBox_setValue_blocked (n : nat) (z : Z) (w : World) :
  is_blocked ev_selected_label w ->
  Qt.c_int z = true ->
  exec (3 + n) (selectionSpinBox_setValue z) w =
  Ok (selectionSpinBox_setValue_quiet get_color z w).
Proof.
  intros H C. one_level H. rewrite C.
  unfold selectionSpinBox_setValue_quiet. cbn [panel record_call].
  destruct (_ =? _); [reflexivity|].
  rewrite (changeSelection_blocked n); [reflexivity | exact H].
Qed.

(** An integer that is no C int does not reach the spin box. *)
Lemma selectionSpinBox_setValue_overflows (n : nat) (z : Z) (w : World) :
  Qt.c_int z = false ->
  exec (1 + n) (selectionSpinBox_setValue z) w =
  Raise (Qt.overflowed "1") (record_call (selectionSpinBox_setValue z) w).
Proof. intros C. cbn [Nat.add]. rewrite exec_S. cbn [step]. rewrite C. reflexivity. Qed.

Lemma _on_selection_change_exec (n : nat) (w : World) :
  exec (4 + n) _on_selection_change w =
  _on_selection_change_result get_color w.
Proof.
  cbn [Nat.add]. rewrite exec_S. cbn [step].
  unfold _on_selection_change_result, with_blocker. f_equal.
  destruct (Py.int _) as [e|z]; [reflexivity|].
  destruct (Qt.c_int z) eqn:C.
  - apply (selectionSpinBox_setValue_blocked n);
      [apply block_is_blocked | exact C].
  - apply (selectionSpinBox_setValue_overflows (2 + n)). exact C.
Qed.

(** *** Brush size *)

Lemma Layer_set_brush_size_blocked (n : nat) (v : Py.num) (w : World) :
  is_blocked ev_brush_size w ->
  exec (1 + n) (Layer_set_brush_size v) w =
  Ok (Layer_set_brush_size_quiet v w).
Proof. intros H. one_level H. Qed.

Lemma changeSize_blocked (n : nat) (value : Z) (w : World) :
  is_blocked ev_brush_size w ->
  exec (2 + n) (changeSize value) w = Ok (changeSize_quiet value w).
Proof.
  intros H. one_level H.
  rewrite (Layer_set_brush_size_blocked n); [reflexivity | exact H].
Qed.

Lemma brushSizeSlider_setValue_blocked (n : nat) (z : Z) (w : World) :
  is_blocked ev_brush_size w ->
  Qt.c_int z = true ->
  exec (3 + n) (brushSizeSlider_setValue z) w =
  Ok (brushSizeSlider_setValue_quiet z w).
Proof.
  intros H C. one_level H. rewrite C.
  unfold brushSizeSlider_setValue_quiet. cbn [panel record_call].
  destruct (_ =? _); [reflexivity|].
  rewrite (changeSize_blocked n); [reflexivity | exact H].
Qed.

(** What the brush size is clipped to is a C int whatever the size: the
    slider never refuses it. *)
Lemma c_int_clip (z : Z) : Qt.c_int (np.clip z 1 40) = true.
Proof.
  unfold Qt.c_int, np.clip. apply andb_true_iff. split; apply Z.leb_le; lia.
Qed.

Lemma _on_brush_size_change_exec (n : nat) (w : World) :
  exec (4 + n) _on_brush_size_change w = _on_brush_size_change_result w.
Proof.
  cbn [Nat.add]. rewrite exec_S. cbn [step].
  unfold _on_brush_size_change_result, with_blocker. f_equal.
  destruct (Py.int _); [reflexivity|].
  apply (brushSizeSlider_setValue_blocked n);
    [apply block_is_blocked | apply c_int_clip].
Qed.

(** *** Contiguous *)

Lemma Layer_set_contiguous_blocked (n : nat) (b : bool) (w : World) :
  is_blocked ev_contiguous w ->
  exec (1 + n) (Layer_set_contiguous b) w =
  Ok (Layer_set_contiguous_quiet b w).
Proof. intros H. one_level H. Qed.

Lemma change_contig_blocked (n : nat) (state : Z) (w : World) :
  is_blocked ev_contiguous w ->
  exec (2 + n) (change_contig state) w = Ok (change_contig_quiet state w).
Proof.
  intros H. one_level H. unfold change_contig_quiet.
  destruct (state =? Qt.Checked);
    rewrite (Layer_set_contiguous_blocked n); solve [reflexivity | exact H].
Qed.

Lemma contigCheckBox_setChecked_blocked (n : nat) (b : bool) (w : World) :
  is_blocked ev_contiguous w ->
  exec (3 + n) (contigCheckBox_setChecked b) w =
  Ok (contigCheckBox_setChecked_quiet b w).
Proof.
  intros H. one_level H.
  unfold contigCheckBox_setChecked_quiet. cbn [panel record_call].
  destruct (Bool.eqb _ _); [reflexivity|].
  rewrite (change_contig_blocked n); [reflexivity | exact H].
Qed.

Lemma _on_contig_change_exec (n : nat) (w : World) :
  exec (4 + n) _on_contig_change w = Ok (_on_contig_change_result w).
Proof.
  cbn [Nat.add]. rewrite exec_S. cbn [step].
  unfold _on_contig_change_result, with_blocker.
  rewrite (contigCheckBox_setChecked_blocked n) by apply block_is_blocked.
  reflexivity.
Qed.

(** *** N-dimensional *)

Lemma Layer_set_n_dimensional_blocked (n : nat) (b : bool) (w : World) :
  is_blocked ev_n_dimensional w ->
  exec (1 + n) (Layer_set_n_dimensional b) w =
  Ok (Layer_set_n_dimensional_quiet b w).
Proof. intros H. one_level H. Qed.

Lemma change_ndim_blocked (n : nat) (state : Z) (w : World) :
  is_blocked ev_n_dimensional w ->
  exec (2 + n) (change_ndim state) w = Ok (change_ndim_quiet state w).
Proof.
  intros H. one_level H. unfold change_ndim_quiet.
  destruct (state =? Qt.Checked);
    rewrite (Layer_set_n_dimensional_blocked n); solve [reflexivity | exact H].
Qed.

Lemma ndimCheckBox_setChecked_blocked (n : nat) (b : bool) (w : World) :
  is_blocked ev_n_dimensional w ->
  exec (3 + n) (ndimCheckBox_setChecked b) w =
  Ok (ndimCheckBox_setChecked_quiet b w).
Proof.
  intros H. one_level H.
  unfold ndimCheckBox_setChecked_quiet. cbn [panel record_call].
  destruct (Bool.eqb _ _); [reflexivity|].
  rewrite (change_ndim_blocked n); [reflexivity | exact H].
Qed.

Lemma _on_n_dim_change_exec (n : nat) (w : World) :
  exec (4 + n) _on_n_dim_change w = Ok (_on_n_dim_change_result w).
Proof.
  cbn [Nat.add]. rewrite exec_S. cbn [step].
  unfold _on_n_dim_change_result, with_blocker.
  rewrite (ndimCheckBox_setChecked_blocked n) by apply block_is_blocked.
  reflexivity.
Qed.


(** ** The mode buttons *)

Ltac open_buttons p :=
  destruct p as [? ? ? ? [[] ? ?] [[] ? ?] [[] ? ?] [[] ? ?] [[]|] ?].

(** Checking a button of a consistent group leaves it the only checked
    one, and the group consistent. *)
Lemma setChecked_True_exclusive (b : button_id) (p : QtLabelsControls) :
  exclusive p = true ->
  exclusive (setChecked_True b p) = true /\
  forall b', Qt.isChecked (button b' (setChecked_True b p)) = button_id_eqb b' b.
Proof.
  intros H. open_buttons p; destruct b; try discriminate H;
    (split; [reflexivity | intros []; reflexivity]).
Qed.

(** C1: for each of the four modes, [_on_mode_change] with an event
    carrying the mode ends normally and leaves the button of that mode
    checked and the other three unchecked: exactly one of the four mode
    buttons is active. *)
Theorem C1_on_mode_change_checks_one_button
  (n : nat) (w : World) (k : Mode) :
  exclusive (panel w) = true ->
  exists w',
    exec (1 + n) (_on_mode_change (Member k)) w = Ok w' /\
    (forall b, Qt.isChecked (button b (panel w')) =
               button_id_eqb b (button_of k)) /\
    filter (fun b => Qt.isChecked (button b (panel w'))) all_buttons =
      [button_of k] /\
    exclusive (panel w') = true.
Proof.
  intros H.
  destruct (setChecked_True_exclusive (button_of k) (panel w) H) as [E C].
  exists (on_panel (setChecked_True (button_of k))
            (record_call (_on_mode_change (Member k)) w)).
  split; [destruct k; reflexivity|].
  cbn [panel on_panel record_call layer].
  split; [exact C|]. split; [|exact E].
  unfold all_buttons. cbn [filter]. rewrite !C. destruct k; reflexivity.
Qed.

(** C4: an event whose mode is none of the four makes [_on_mode_change]
    raise [ValueError]; the panel and the layer are as they were, so no
    button was selected in its place.  For each of the four modes the
    handler does not raise. *)
Theorem C4_on_mode_change_rejects_other_modes
  (n : nat) (w : World) (m : mode_value) :
  (m <> Member PAN_ZOOM -> m <> Member PICKER ->
   m <> Member PAINT -> m <> Member FILL ->
   exists w',
     exec (1 + n) (_on_mode_change m) w =
       Raise (Py.ValueError "Mode not recognized") w' /\
     panel w' = panel w /\ layer w' = layer w) /\
  (forall k, exists w', exec (1 + n) (_on_mode_change (Member k)) w = Ok w').
Proof.
  split.
  - intros H1 H2 H3 H4. exists (record_call (_on_mode_change m) w).
    split; [|split; reflexivity].
    destruct m as [[]|repr]; try congruence; reflexivity.
  - intros []; eexists; reflexivity.
Qed.

(** C7: with [layer.editable] false, [_on_editable_change] leaves the
    pick, paint and fill buttons disabled and the pan/zoom button as it
    was, so enabled if it was; once the layer is editable again, a second
    run of the handler enables the three. *)
Theorem C7_on_editable_change_disables_three
  (n : nat) (w : World) :
  editable (layer w) = false ->
  Qt.isEnabled (panzoom_button (panel w)) = true ->
  exists w1,
    exec (1 + n) _on_editable_change w = Ok w1 /\
    Qt.isEnabled (pick_button (panel w1)) = false /\
    Qt.isEnabled (paint_button (panel w1)) = false /\
    Qt.isEnabled (fill_button (panel w1)) = false /\
    Qt.isEnabled (panzoom_button (panel w1)) = true /\
    exists w2,
      exec (1 + n) _on_editable_change (on_layer (set_editable true) w1)
        = Ok w2 /\
      Qt.isEnabled (pick_button (panel w2)) = true /\
      Qt.isEnabled (paint_button (panel w2)) = true /\
      Qt.isEnabled (fill_button (panel w2)) = true /\
      Qt.isEnabled (panzoom_button (panel w2)) = true.
Proof.
  intros E P. destruct w as [l p r lg]. cbn [layer panel] in *.
  cbn [Nat.add exec step record_call layer panel disable_with_opacity
       button_named String.eqb Ascii.eqb Bool.eqb].
  rewrite E.
  eexists. split; [reflexivity|].
  cbn. repeat split; try assumption.
  eexists. split; [reflexivity|]. cbn. repeat split; assumption.
Qed.

(** C8: [mouseMoveEvent] sets the status of the layer to [str] of the
    layer's mode; no other property of the layer, nothing in the panel and
    nothing in the colour box changes. *)
Theorem C8_mouseMoveEvent_sets_status (n : nat) (w : World) :
  exists w',
    exec (1 + n) mouseMoveEvent w = Ok w' /\
    status (layer w') = str (mode (layer w)) /\
    layer w' = set_status (str (mode (layer w))) (layer w) /\
    panel w' = panel w /\
    repaint_pending w' = repaint_pending w /\
    log w' = mouseMoveEvent :: log w.
Proof.
  eexists. split; [reflexivity|]. cbn. repeat split.
Qed.


(** ** The check boxes *)

Lemma Layer_set_contiguous_exec (n : nat) (b : bool) (w : World) :
  exec (5 + n) (Layer_set_contiguous b) w =
  Ok (Layer_set_contiguous_result b w).
Proof.
  cbn [Nat.add]. rewrite exec_S. cbn [step].
  unfold Layer_setter, emit, Layer_set_contiguous_result.
  cbn [layer on_layer record_call events set_contiguous].
  destruct (Nat.eqb _ 0); [|reflexivity].
  cbn [run_all]. rewrite (_on_contig_change_exec n).
  reflexivity.
Qed.

Lemma change_contig_exec (n : nat) (state : Z) (w : World) :
  exec (6 + n) (change_contig state) w =
  Ok (Layer_set_contiguous_result (state =? Qt.Checked)
        (record_call (change_contig state) w)).
Proof.
  cbn [Nat.add]. rewrite exec_S. cbn [step].
  destruct (state =? Qt.Checked);
    apply (Layer_set_contiguous_exec n).
Qed.

Lemma Layer_set_n_dimensional_exec (n : nat) (b : bool) (w : World) :
  exec (5 + n) (Layer_set_n_dimensional b) w =
  Ok (Layer_set_n_dimensional_result b w).
Proof.
  cbn [Nat.add]. rewrite exec_S. cbn [step].
  unfold Layer_setter, emit, Layer_set_n_dimensional_result.
  cbn [layer on_layer record_call events set_n_dimensional].
  destruct (Nat.eqb _ 0); [|reflexivity].
  cbn [run_all]. rewrite (_on_n_dim_change_exec n).
  reflexivity.
Qed.

Lemma change_ndim_exec (n : nat) (state : Z) (w : World) :
  exec (6 + n) (change_ndim state) w =
  Ok (Layer_set_n_dimensional_result (state =? Qt.Checked)
        (record_call (change_ndim state) w)).
Proof.
  cbn [Nat.add]. rewrite exec_S. cbn [step].
  destruct (state =? Qt.Checked);
    apply (Layer_set_n_dimensional_exec n).
Qed.

(** The inbound handler does not change the property it mirrors: when the
    check box differs, the outbound handler writes the same value back. *)
Lemma _on_contig_change_keeps (w : World) :
  contiguous (layer (_on_contig_change_result w)) = contiguous (layer w) /\
  contigCheckBox (panel (_on_contig_change_result w)) = contiguous (layer w).
Proof.
  unfold _on_contig_change_result, contigCheckBox_setChecked_quiet.
  cbn [panel on_layer record_call].
  destruct (contiguous (layer w)) eqn:C, (contigCheckBox (panel w)) eqn:B;
    cbn; auto.
Qed.

Lemma _on_n_dim_change_keeps (w : World) :
  n_dimensional (layer (_on_n_dim_change_result w)) = n_dimensional (layer w) /\
  ndimCheckBox (panel (_on_n_dim_change_result w)) = n_dimensional (layer w).
Proof.
  unfold _on_n_dim_change_result, ndimCheckBox_setChecked_quiet.
  cbn [panel on_layer record_call].
  destruct (n_dimensional (layer w)) eqn:C, (ndimCheckBox (panel w)) eqn:B;
    cbn; auto.
Qed.

Lemma Layer_set_contiguous_stores (b : bool) (w : World) :
  contiguous (layer (Layer_set_contiguous_result b w)) = b.
Proof.
  unfold Layer_set_contiguous_result. destruct (Nat.eqb _ 0).
  - rewrite (proj1 (_on_contig_change_keeps _)). reflexivity.
  - reflexivity.
Qed.

Lemma Layer_set_n_dimensional_stores (b : bool) (w : World) :
  n_dimensional (layer (Layer_set_n_dimensional_result b w)) = b.
Proof.
  unfold Layer_set_n_dimensional_result. destruct (Nat.eqb _ 0).
  - rewrite (proj1 (_on_n_dim_change_keeps _)). reflexivity.
  - reflexivity.
Qed.

(** C9: whatever state [change_contig] and [change_ndim] receive, they
    end normally, and the layer's [contiguous] (respectively
    [n_dimensional]) is then true exactly when the state is [Qt.Checked];
    any other state, [Qt.PartiallyChecked] among them, leaves it false. *)
Theorem C9_change_contig_ndim_checked_only
  (n : nat) (w : World) (state : Z) :
  (exists w',
     exec (6 + n) (change_contig state) w = Ok w' /\
     (contiguous (layer w') = true <-> state = Qt.Checked) /\
     (state = Qt.PartiallyChecked -> contiguous (layer w') = false)) /\
  (exists w',
     exec (6 + n) (change_ndim state) w = Ok w' /\
     (n_dimensional (layer w') = true <-> state = Qt.Checked) /\
     (state = Qt.PartiallyChecked -> n_dimensional (layer w') = false)).
Proof.
  split; eexists;
    (split; [first [apply change_contig_exec | apply change_ndim_exec]|]).
  - rewrite Layer_set_contiguous_stores. split.
    + apply Z.eqb_eq.
    + intros ->. reflexivity.
  - rewrite Layer_set_n_dimensional_stores. split.
    + apply Z.eqb_eq.
    + intros ->. reflexivity.
Qed.


(** ** The spin box and the slider *)

Lemma calls_since_app (w w' : World) (new : list call) :
  log w' = new ++ log w -> calls_since w w' = new.
Proof.
  intros E. unfold calls_since. rewrite E, length_app, Nat.add_sub.
  rewrite firstn_app, Nat.sub_diag, firstn_all. cbn [firstn].
  apply app_nil_r.
Qed.

(** Leaving a blocker undoes entering it. *)
Lemma unblock_block (e : emitter) (l : Layer) :
  events (unblock e (block e l)) = events l.
Proof. destruct l as [? ? ? ? ? ? ? ? []], e; reflexivity. Qed.

(** What [_on_selection_change] does when [int] gives [z]. *)
Lemma _on_selection_change_finite (n : nat) (w : World) (z : Z) :
  Py.int (selected_label (layer w)) = inr z ->
  Qt.c_int z = true ->
  let sb := selectionSpinBox (panel w) in
  let v := Qt.qBound (Qt.minimum sb) z (Qt.maximum sb) in
  exists w',
    exec (4 + n) _on_selection_change w = Ok w' /\
    Qt.value (selectionSpinBox (panel w')) = v /\
    Qt.minimum (selectionSpinBox (panel w')) = Qt.minimum sb /\
    Qt.maximum (selectionSpinBox (panel w')) = Qt.maximum sb /\
    events (layer w') = events (layer w) /\
    selected_label (layer w') =
      (if v =? Qt.value sb then selected_label (layer w) else Py.Int v) /\
    log w' =
      ((if v =? Qt.value sb then []
        else [Layer_set_selected_label (Py.Int v); changeSelection v])
       ++ [selectionSpinBox_setValue z; _on_selection_change]) ++ log w.
Proof.
  intros Hz C sb v. rewrite _on_selection_change_exec.
  unfold _on_selection_change_result, with_blocker.
  cbn [layer on_layer record_call block selected_label set_events].
  rewrite Hz, C. cbn [finally]. eexists. split; [reflexivity|].
  unfold selectionSpinBox_setValue_quiet.
  cbn [panel on_layer record_call]. fold sb. fold v.
  destruct (Z.eqb_spec v (Qt.value sb)) as [E|E].
  - cbn [panel on_layer record_call layer log app selected_label unblock
         set_events].
    repeat split; try reflexivity.
    + symmetry. exact E.
    + apply (unblock_block ev_selected_label).
  - cbn. repeat split. apply (unblock_block ev_selected_label (layer w)).
Qed.

(** What [_on_selection_change] does when [int] raises. *)
Lemma _on_selection_change_raises (n : nat) (w : World) (e : Py.exn) :
  Py.int (selected_label (layer w)) = inl e ->
  exists w',
    exec (4 + n) _on_selection_change w = Raise e w' /\
    panel w' = panel w /\
    events (layer w') = events (layer w).
Proof.
  intros Hz. rewrite _on_selection_change_exec.
  unfold _on_selection_change_result, with_blocker.
  cbn [layer on_layer record_call block selected_label set_events].
  rewrite Hz. cbn [finally]. eexists. split; [reflexivity|].
  split; [reflexivity|]. apply (unblock_block ev_selected_label (layer w)).
Qed.

(** What [_on_selection_change] does when [int] gives an integer that is
    no C int: [setValue] refuses it, and nothing but the record of calls
    has changed when the exception leaves the handler. *)
Lemma _on_selection_change_overflows (n : nat) (w : World) (z : Z) :
  Py.int (selected_label (layer w)) = inr z ->
  Qt.c_int z = false ->
  exists w',
    exec (4 + n) _on_selection_change w = Raise (Qt.overflowed "1") w' /\
    panel w' = panel w /\
    layer w' = layer w /\
    repaint_pending w' = repaint_pending w /\
    log w' = selectionSpinBox_setValue z :: _on_selection_change :: log w.
Proof.
  intros Hz C. rewrite _on_selection_change_exec.
  unfold _on_selection_change_result, with_blocker.
  cbn [layer on_layer record_call block selected_label set_events].
  rewrite Hz, C. cbn [finally]. eexists. split; [reflexivity|].
  cbn [panel layer on_layer record_call repaint_pending log].
  repeat split.
  destruct w as [[? ? ? ? ? ? ? ? []] ? ? ?]. reflexivity.
Qed.

(** C10, amended: for every finite value of [selected_label] whose
    integer part is a C int, [_on_selection_change] hands [int] of it to the
    spin box: for an integer or not, its integer part towards zero, which
    the spin box then shows when it lies in its range.  For a finite value
    whose integer part is no C int, [setValue] raises [OverflowError], and
    for a value [int] rejects, [int] raises: nothing is written, and the
    exception leaves the handler. *)
Theorem C10_on_selection_change_truncates (n : nat) (w : World) :
  let v := selected_label (layer w) in
  let sb := selectionSpinBox (panel w) in
  (forall q, Py.to_Q v = Some q -> Qt.c_int (Qtrunc q) = true ->
     exists w',
       exec (4 + n) _on_selection_change w = Ok w' /\
       In (selectionSpinBox_setValue (Qtrunc q)) (calls_since w w') /\
       Qt.value (selectionSpinBox (panel w')) =
         Qt.qBound (Qt.minimum sb) (Qtrunc q) (Qt.maximum sb) /\
       (Qt.minimum sb <= Qtrunc q <= Qt.maximum sb ->
        Qt.value (selectionSpinBox (panel w')) = Qtrunc q)) /\
  (forall q, Py.to_Q v = Some q -> Qt.c_int (Qtrunc q) = false ->
     exists msg w',
       exec (4 + n) _on_selection_change w = Raise (Py.OverflowError msg) w' /\
       In (selectionSpinBox_setValue (Qtrunc q)) (calls_since w w') /\
       panel w' = panel w /\ layer w' = layer w) /\
  (Py.to_Q v = None ->
     exists e w',
       exec (4 + n) _on_selection_change w = Raise e w' /\
       panel w' = panel w).
Proof.
  intros v sb. split; [|split].
  - intros q Hq C. apply int_Qtrunc in Hq.
    destruct (_on_selection_change_finite n w _ Hq C)
      as (w' & E & V & _ & _ & _ & _ & L).
    exists w'. split; [exact E|]. split; [|split].
    + rewrite (calls_since_app _ _ _ L). apply in_or_app. right. left.
      reflexivity.
    + exact V.
    + intros R. rewrite V. apply qBound_inside. exact R.
  - intros q Hq C. apply int_Qtrunc in Hq.
    destruct (_on_selection_change_overflows n w _ Hq C)
      as (w' & E & P & Ly & _ & L).
    eexists. exists w'. split; [exact E|]. split; [|split; assumption].
    rewrite (calls_since_app w w'
               [selectionSpinBox_setValue (Qtrunc q); _on_selection_change])
      by exact L.
    left. reflexivity.
  - intros Hq. destruct (int_not_finite _ Hq) as [e He].
    destruct (_on_selection_change_raises n w e He) as (w' & E & P & _).
    exists e, w'. split; assumption.
Qed.

(** *** Brush size *)

Lemma _on_brush_size_change_finite (n : nat) (w : World) (z : Z) :
  Py.int (brush_size (layer w)) = inr z ->
  let sld := brushSizeSlider (panel w) in
  let v := Qt.qBound (Qt.minimum sld) (np.clip z 1 40) (Qt.maximum sld) in
  exists w',
    exec (4 + n) _on_brush_size_change w = Ok w' /\
    Qt.value (brushSizeSlider (panel w')) = v /\
    Qt.minimum (brushSizeSlider (panel w')) = Qt.minimum sld /\
    Qt.maximum (brushSizeSlider (panel w')) = Qt.maximum sld /\
    events (layer w') = events (layer w) /\
    brush_size (layer w') =
      (if v =? Qt.value sld then brush_size (layer w) else Py.Int v) /\
    log w' =
      ((if v =? Qt.value sld then []
        else [Layer_set_brush_size (Py.Int v); changeSize v])
       ++ [brushSizeSlider_setValue (np.clip z 1 40); _on_brush_size_change])
      ++ log w.
Proof.
  intros Hz sld v. rewrite _on_brush_size_change_exec.
  unfold _on_brush_size_change_result, with_blocker.
  cbn [layer on_layer record_call block brush_size set_events].
  rewrite Hz. cbn [finally]. eexists. split; [reflexivity|].
  unfold brushSizeSlider_setValue_quiet.
  cbn [panel on_layer record_call]. fold sld. fold v.
  destruct (Z.eqb_spec v (Qt.value sld)) as [E|E].
  - cbn [panel on_layer record_call layer log app brush_size unblock
         set_events].
    repeat split; try reflexivity.
    + symmetry. exact E.
    + apply (unblock_block ev_brush_size).
  - cbn. repeat split. apply (unblock_block ev_brush_size (layer w)).
Qed.

Lemma _on_brush_size_change_raises (n : nat) (w : World) (e : Py.exn) :
  Py.int (brush_size (layer w)) = inl e ->
  exists w',
    exec (4 + n) _on_brush_size_change w = Raise e w' /\
    panel w' = panel w /\
    events (layer w') = events (layer w).
Proof.
  intros Hz. rewrite _on_brush_size_change_exec.
  unfold _on_brush_size_change_result, with_blocker.
  cbn [layer on_layer record_call block brush_size set_events].
  rewrite Hz. cbn [finally]. eexists. split; [reflexivity|].
  split; [reflexivity|]. apply (unblock_block ev_brush_size (layer w)).
Qed.

(** The slider after the handler ran on a finite brush size. *)
Lemma _on_brush_size_change_shows (n : nat) (w : World) (q : Q) :
  Qt.minimum (brushSizeSlider (panel w)) = 1 ->
  Qt.maximum (brushSizeSlider (panel w)) = 40 ->
  Py.to_Q (brush_size (layer w)) = Some q ->
  exists w',
    exec (4 + n) _on_brush_size_change w = Ok w' /\
    In (brushSizeSlider_setValue (clamp (Qtrunc q) 1 40)) (calls_since w w') /\
    Qt.value (brushSizeSlider (panel w')) = clamp (Qtrunc q) 1 40.
Proof.
  intros Lo Hi Hq. apply int_Qtrunc in Hq.
  destruct (_on_brush_size_change_finite n w _ Hq)
    as (w' & E & V & _ & _ & _ & _ & L).
  rewrite clip_clamp in * by lia.
  exists w'. split; [exact E|]. split.
  - rewrite (calls_since_app _ _ _ L). apply in_or_app. right. left.
    reflexivity.
  - rewrite V, Lo, Hi. apply qBound_inside. unfold clamp. lia.
Qed.

(** C2, amended: for every finite brush size [v], the value
    [_on_brush_size_change] writes to the slider (whose range is 1..40) is
    the integer part of [v] towards zero, clamped to 1..40; 0.4 shows as 1,
    40.9 as 40 and 15 as 15. *)
Theorem C2_on_brush_size_change_clamps_integer_part (n : nat) (w : World) :
  Qt.minimum (brushSizeSlider (panel w)) = 1 ->
  Qt.maximum (brushSizeSlider (panel w)) = 40 ->
  let v := brush_size (layer w) in
  let shows (z : Z) :=
    exists w',
      exec (4 + n) _on_brush_size_change w = Ok w' /\
      In (brushSizeSlider_setValue z) (calls_since w w') /\
      Qt.value (brushSizeSlider (panel w')) = z in
  (forall q, Py.to_Q v = Some q -> shows (clamp (Qtrunc q) 1 40)) /\
  (v = Py.Float (decimal 4 10) -> shows 1) /\
  (v = Py.Float (decimal 409 10) -> shows 40) /\
  (v = Py.Int 15 \/ v = Py.Float (Py.float64 15 0) -> shows 15).
Proof.
  intros Lo Hi v shows.
  assert (G : forall q, Py.to_Q v = Some q -> shows (clamp (Qtrunc q) 1 40)).
  { intros q Hq. exact (_on_brush_size_change_shows n w q Lo Hi Hq). }
  split; [exact G|].
  split; [|split]; [intros E | intros E | intros [E|E]];
    match type of E with
    | _ = ?x =>
        match eval vm_compute in (Py.to_Q x) with
        | Some ?q =>
            assert (Hq : Py.to_Q v = Some q)
              by (rewrite E; vm_compute; reflexivity);
            apply G in Hq;
            match goal with
            | |- shows ?z =>
                replace z with (clamp (Qtrunc q) 1 40)
                  by (vm_compute; reflexivity)
            end;
            exact Hq
        end
    end.
Qed.

(** *** An assignment to [selected_label] that is heard *)

(** With no blocker active, the assignment runs the two callbacks: the
    colour box asks for a repaint, then the panel updates its spin box. *)
Lemma Layer_set_selected_label_exec (n : nat) (v : Py.num) (w : World) :
  blocked ev_selected_label (events (layer w)) = 0%nat ->
  exec (5 + n) (Layer_set_selected_label v) w =
  _on_selection_change_result get_color
    (request_repaint
       (record_call update_color
          (Layer_set_selected_label_quiet get_color v w))).
Proof.
  intros U. cbn [Nat.add]. rewrite exec_S. cbn [step]. unfold Layer_setter.
  rewrite emit_unblocked by exact U.
  cbn [run_all]. rewrite exec_S. cbn [step bind].
  rewrite (_on_selection_change_exec n).
  destruct (_on_selection_change_result _ _); reflexivity.
Qed.

(** C3, amended: once 5 is assigned to [selected_label] on the layer
    (and 5 is in the range of the spin box), [_on_selection_change] leaves
    the spin box holding 5 and the layer holding 5, and releases its
    blocker.  What it blocks is the notification of the layer, not the
    signal of the spin box: when the spin box did not show 5 already,
    setting it makes [changeSelection] run once, with 5, and assign the
    same 5 to the layer once more; the handler itself is not entered again.
    When the spin box showed 5, [changeSelection] does not run. *)
Theorem C3_on_selection_change_round_trip (n : nat) (w : World) :
  selected_label (layer w) = Py.Int 5 ->
  Qt.minimum (selectionSpinBox (panel w)) <= 5
    <= Qt.maximum (selectionSpinBox (panel w)) ->
  let shown := Qt.value (selectionSpinBox (panel w)) =? 5 in
  exists w',
    exec (4 + n) _on_selection_change w = Ok w' /\
    Qt.value (selectionSpinBox (panel w')) = 5 /\
    selected_label (layer w') = Py.Int 5 /\
    events (layer w') = events (layer w) /\
    calls_since w w' =
      (if shown then []
       else [Layer_set_selected_label (Py.Int 5); changeSelection 5])
      ++ [selectionSpinBox_setValue 5; _on_selection_change] /\
    count is__on_selection_change (calls_since w w') = 1%nat /\
    count is_changeSelection (calls_since w w') =
      (if shown then 0%nat else 1%nat) /\
    count is_Layer_set_selected_label (calls_since w w') =
      (if shown then 0%nat else 1%nat).
Proof.
  intros H R shown.
  assert (Hz : Py.int (selected_label (layer w)) = inr 5)
    by (rewrite H; reflexivity).
  destruct (_on_selection_change_finite n w 5 Hz eq_refl)
    as (w' & E & V & _ & _ & Ev & S & L).
  rewrite (qBound_inside _ _ _ R) in *.
  rewrite (Z.eqb_sym 5) in S, L. fold shown in S, L.
  apply calls_since_app in L.
  exists w'. split; [exact E|]. split; [exact V|].
  split; [|split; [exact Ev|split; [exact L|]]].
  - rewrite S, H. destruct shown; reflexivity.
  - rewrite L. destruct shown; repeat split; reflexivity.
Qed.

(** ** What every call preserves *)

Lemma ends_well_bind (o : outcome) (k : World -> outcome) :
  ends_well o ->
  (forall w, well_formed (panel w) = true -> ends_well (k w)) ->
  ends_well (o >>= k).
Proof. destruct o; cbn; auto. Qed.

Lemma ends_well_finally (o : outcome) (f : Layer -> Layer) :
  ends_well o -> ends_well (finally o (on_layer f)).
Proof. destruct o; cbn; auto. Qed.

Lemma ends_well_emit (e : emitter) (c : list call)
  (run : call -> World -> outcome) (w : World) :
  (forall c w, well_formed (panel w) = true -> ends_well (run c w)) ->
  well_formed (panel w) = true ->
  ends_well (emit e c run w).
Proof.
  intros R W. unfold emit. destruct (Nat.eqb _ 0); [|exact W].
  revert w W. induction c as [|c cs IH]; intros w W; cbn [run_all].
  - exact W.
  - apply ends_well_bind; [apply R; exact W | exact IH].
Qed.

Lemma setChecked_True_well_formed (b : button_id) (p : QtLabelsControls) :
  well_formed p = true -> well_formed (setChecked_True b p) = true.
Proof.
  unfold well_formed. rewrite !andb_true_iff. intros [E R]. split.
  - apply setChecked_True_exclusive, E.
  - rewrite <- R. unfold setChecked_True.
    destruct (Qt.isChecked _); [reflexivity|].
    destruct (button_group p) as [prev|]; [|reflexivity].
    destruct (button_id_eqb prev b); reflexivity.
Qed.

Lemma step_well_formed (run : call -> World -> outcome) (c : call)
  (w : World) :
  (forall c w, well_formed (panel w) = true -> ends_well (run c w)) ->
  well_formed (panel w) = true ->
  ends_well (step run c w).
Proof.
  intros R W.
  destruct c; cbn [step]; unfold Layer_setter;
    try (apply ends_well_emit; [exact R | exact W]);
    try (unfold with_blocker; apply ends_well_finally);
    repeat match goal with
      | |- ends_well (if ?b then _ else _) => destruct b
      | |- ends_well (match ?x with inl _ => _ | inr _ => _ end) => destruct x
      | |- ends_well (Ok _) => cbn [ends_well panel on_layer on_panel
                                   request_repaint]
      | |- ends_well (Raise _ _) => cbn [ends_well panel on_layer]
      | |- ends_well (run _ _) => apply R
      | |- ends_well (_ >>= _) => apply ends_well_bind; [|intros w' W']
      end;
    try exact W; try assumption;
    try (apply setChecked_True_well_formed; exact W).
Qed.

(** Whatever is called, a well-formed panel stays well formed: one mode
    button checked, the one the group knows of, and the ranges of the spin
    box and the slider as built. *)
Lemma exec_well_formed (n : nat) (c : call) (w : World) :
  well_formed (panel w) = true -> ends_well (exec n c w).
Proof.
  revert c w. induction n as [|n IH]; intros c w W; [exact I|].
  rewrite exec_S. apply step_well_formed; [exact IH | exact W].
Qed.



(** The panel is well formed once built. *)
Lemma __init___well_formed (fuel : nat) (l : Layer) :
  ends_well (__init__ fuel l).
Proof.
  unfold __init__.
  repeat (apply ends_well_bind;
          [|intros w W; apply exec_well_formed; exact W]).
  reflexivity.
Qed.

Lemma ended_bind (o : outcome) (k : World -> outcome) :
  ended o -> (forall w, ended (k w)) -> ended (o >>= k).
Proof. unfold ended. destruct o; cbn; auto. Qed.

Lemma ended_finally (o : outcome) (f : World -> World) :
  ended o -> ended (finally o f).
Proof. unfold ended. destruct o; cbn; congruence. Qed.

Lemma ended_Ok (w : World) : ended (Ok w).
Proof. discriminate. Qed.

Lemma ended_Raise (e : Py.exn) (w : World) : ended (Raise e w).
Proof. discriminate. Qed.

Lemma ended_emit (e : emitter) (cs : list call)
  (run : call -> World -> outcome) (w : World) :
  (forall c w, In c cs -> ended (run c w)) -> ended (emit e cs run w).
Proof.
  intros R. unfold emit. destruct (Nat.eqb _ 0); [|apply ended_Ok].
  revert w. induction cs as [|c cs IH]; intros w; cbn [run_all].
  - apply ended_Ok.
  - apply ended_bind.
    + apply R. left. reflexivity.
    + apply IH. intros c' w' H. apply R. right. exact H.
Qed.

Create HintDb ended.
#[local] Hint Resolve ended_Ok ended_Raise ended_bind ended_finally : ended.

(** The handlers that call nothing. *)
Lemma leaf_ended (n : nat) (c : call) (w : World) :
  match c with
  | mouseMoveEvent | _on_mode_change _ | _on_editable_change | update_color =>
      True
  | _ => False
  end ->
  ended (exec (1 + n) c w).
Proof.
  destruct c; intros []; cbn [Nat.add]; rewrite exec_S; cbn [step];
    auto with ended.
  - repeat match goal with |- ended (if ?b then _ else _) => destruct b end;
      auto with ended.
  - destruct (disable_with_opacity _ _ _); auto with ended.
Qed.

(** The inbound handlers. *)
Lemma inbound_ended (n : nat) (c : call) (w : World) :
  match c with
  | _on_selection_change | _on_brush_size_change
  | _on_n_dim_change | _on_contig_change => True
  | _ => False
  end ->
  ended (exec (4 + n) c w).
Proof.
  destruct c; intros [].
  - rewrite _on_selection_change_exec.
    unfold _on_selection_change_result, with_blocker.
    apply ended_finally. destruct (Py.int _); auto with ended.
    destruct (Qt.c_int _); auto with ended.
  - rewrite _on_brush_size_change_exec.
    unfold _on_brush_size_change_result, with_blocker.
    apply ended_finally. destruct (Py.int _); auto with ended.
  - rewrite _on_n_dim_change_exec. apply ended_Ok.
  - rewrite _on_contig_change_exec. apply ended_Ok.
Qed.

(** An assignment to a layer property. *)
Lemma Layer_set_ended (n : nat) (c : call) (w : World) :
  match c with
  | Layer_set_mode _ | Layer_set_selected_label _ | Layer_set_brush_size _
  | Layer_set_contiguous _ | Layer_set_n_dimensional _
  | Layer_set_editable _ => True
  | _ => False
  end ->
  ended (exec (5 + n) c w).
Proof.
  destruct c; intros []; cbn [Nat.add]; rewrite exec_S; cbn [step];
    unfold Layer_setter; apply ended_emit; intros c' w' H; cbn [In] in H;
    repeat match goal with H : _ \/ _ |- _ => destruct H as [H|H] end;
    try contradiction; subst c';
    first [ apply (inbound_ended n); exact I
          | apply (leaf_ended (3 + n)); exact I ].
Qed.

(** The outbound handlers. *)
Lemma outbound_ended (n : nat) (c : call) (w : World) :
  match c with
  | changeSelection _ | changeSize _ | change_contig _ | change_ndim _ => True
  | _ => False
  end ->
  ended (exec (6 + n) c w).
Proof.
  destruct c; intros []; cbn [Nat.add]; rewrite exec_S; cbn [step];
    repeat match goal with |- ended (if ?b then _ else _) => destruct b end;
    try (apply ended_bind; [|auto with ended]);
    apply (Layer_set_ended n); exact I.
Qed.

(** With seven units of fuel every call ends, normally or with an
    exception, in every world: the interpreter's fuel never cuts short
    what the code does. *)
Theorem exec_ends (n : nat) (c : call) (w : World) :
  ended (exec (7 + n) c w).
Proof.
  destruct c;
    try (apply (leaf_ended (6 + n)); exact I);
    try (apply (inbound_ended (3 + n)); exact I);
    try (apply (Layer_set_ended (2 + n)); exact I);
    try (apply (outbound_ended (1 + n)); exact I);
    cbn [Nat.add]; rewrite exec_S; cbn [step];
    repeat match goal with |- ended (if ?b then _ else _) => destruct b end;
    auto with ended;
    apply (outbound_ended n); exact I.
Qed.

(** *** More fuel changes nothing *)

Lemma ended_bind_inv (o : outcome) (k : World -> outcome) :
  ended (o >>= k) -> ended o.
Proof. unfold ended. destruct o; cbn; congruence. Qed.

Lemma ended_finally_inv (o : outcome) (f : World -> World) :
  ended (finally o f) -> ended o.
Proof. unfold ended. destruct o; cbn; congruence. Qed.

Lemma bind_extends (o : outcome) (k k' : World -> outcome) :
  ended (o >>= k) ->
  (forall w, ended (k w) -> k' w = k w) ->
  o >>= k' = o >>= k.
Proof. destruct o; cbn; auto. Qed.

Lemma run_all_extends (run run' : call -> World -> outcome) :
  extends run run' ->
  forall cs w, ended (run_all run cs w) ->
               run_all run' cs w = run_all run cs w.
Proof.
  intros X. induction cs as [|c cs IH]; intros w E; cbn [run_all] in *.
  - reflexivity.
  - rewrite (X c w) by (eapply ended_bind_inv; exact E).
    apply bind_extends; [exact E | exact IH].
Qed.

Lemma step_extends (run run' : call -> World -> outcome) :
  extends run run' -> extends (step run) (step run').
Proof.
  intros X c w. destruct c; cbn [step];
    unfold Layer_setter, emit, with_blocker; intros E;
    repeat match goal with
      | |- context [if ?b then _ else _] => destruct b
      | |- context [match ?x with inl _ => _ | inr _ => _ end] => destruct x
      end;
    try reflexivity;
    try (apply run_all_extends; [exact X | exact E]);
    try (apply X; exact E);
    try (f_equal; apply X; eapply ended_finally_inv; exact E).
  rewrite (X _ _) by (eapply ended_bind_inv; exact E). reflexivity.
Qed.

Lemma exec_S_extends (n : nat) : extends (exec n) (exec (S n)).
Proof.
  induction n as [|n IH]; intros c w E.
  - exfalso. apply E. reflexivity.
  - rewrite (exec_S (S n)), (exec_S n). apply step_extends; [exact IH|].
    rewrite <- exec_S. exact E.
Qed.

(** Once a call ends, more fuel gives the same outcome. *)
Lemma exec_more_fuel (n m : nat) (c : call) (w : World) :
  ended (exec n c w) -> exec (n + m) c w = exec n c w.
Proof.
  intros E. induction m as [|m IH].
  - rewrite Nat.add_0_r. reflexivity.
  - rewrite Nat.add_succ_r, <- IH. apply exec_S_extends.
    rewrite IH. exact E.
Qed.

(** So seven units of fuel give the outcome of every call. *)
Theorem exec_seven (n : nat) (c : call) (w : World) :
  exec (7 + n) c w = exec 7 c w.
Proof. apply exec_more_fuel, (exec_ends 0). Qed.


(** ** More of what every call keeps *)

Lemma holds_after_bind (P : World -> Prop) (o : outcome)
  (k : World -> outcome) :
  holds_after P o ->
  (forall w, P w -> holds_after P (k w)) ->
  holds_after P (o >>= k).
Proof. destruct o; cbn; auto. Qed.

Lemma holds_after_weaken (P Q : World -> Prop) (o : outcome) :
  (forall w, P w -> Q w) -> holds_after P o -> holds_after Q o.
Proof. destruct o; cbn; auto. Qed.

(** *** Blockers *)

Lemma unblock_after_block (e : emitter) (l l' : Layer) :
  events l' = events (block e l) -> events (unblock e l') = events l.
Proof.
  intros H. rewrite <- (unblock_block e l).
  unfold unblock. cbn [events set_events]. rewrite H. reflexivity.
Qed.

Lemma same_blockers_with_blocker (e : emitter) (w : World) (o : outcome) :
  holds_after (same_blockers (on_layer (block e) w)) o ->
  holds_after (same_blockers w) (finally o (on_layer (unblock e))).
Proof.
  destruct o as [w'|x w'|]; cbn [finally holds_after]; auto;
    unfold same_blockers; cbn [layer on_layer]; apply unblock_after_block.
Qed.

Lemma same_blockers_run_all (run : call -> World -> outcome) :
  (forall c w, holds_after (same_blockers w) (run c w)) ->
  forall cs w, holds_after (same_blockers w) (run_all run cs w).
Proof.
  intros R. induction cs as [|c cs IH]; intros w; cbn [run_all].
  - reflexivity.
  - apply holds_after_bind; [apply R|].
    intros w1 H1. apply (holds_after_weaken (same_blockers w1)); [|apply IH].
    intros w2 H2. unfold same_blockers in *. congruence.
Qed.

Lemma step_same_blockers (run : call -> World -> outcome) :
  (forall c w, holds_after (same_blockers w) (run c w)) ->
  forall c w, holds_after (same_blockers w) (step run c w).
Proof.
  intros R c w.
  destruct c; cbn [step]; unfold Layer_setter, emit;
    try (apply same_blockers_with_blocker);
    repeat match goal with
      | |- holds_after _ (if ?b then _ else _) => destruct b
      | |- holds_after _ (match ?x with inl _ => _ | inr _ => _ end) =>
          destruct x
      | |- holds_after _ (match ?x with Some _ => _ | None => _ end) =>
          destruct x
      end;
    try reflexivity;
    try exact (R _ _);
    try exact (same_blockers_run_all run R _ _).
  apply holds_after_bind; [exact (R _ _)|]. intros w1 H1. exact H1.
Qed.

Lemma exec_same_blockers (n : nat) (c : call) (w : World) :
  holds_after (same_blockers w) (exec n c w).
Proof.
  revert c w. induction n as [|n IH]; intros c w; [exact I|].
  rewrite exec_S. exact (step_same_blockers (exec n) IH c (record_call c w)).
Qed.

(** With seven units of fuel, what holds after every call holds of a world
    the call really ends in. *)
Lemma after_seven (P : World -> Prop) (n : nat) (c : call) (w : World) :
  holds_after P (exec (7 + n) c w) ->
  exists w',
    (exec (7 + n) c w = Ok w' \/ exists e, exec (7 + n) c w = Raise e w') /\
    P w'.
Proof.
  pose proof (exec_ends n c w) as E. unfold ended in E.
  destruct (exec (7 + n) c w) as [w'|e w'|]; cbn [holds_after]; intros H.
  - exists w'. auto.
  - exists w'. split; [right; exists e; reflexivity | exact H].
  - congruence.
Qed.

(** X3: whatever is called and however it ends, normally or with an
    exception, the blockers active afterwards are those active before:
    every handler releases the blocker it entered. *)
Theorem X3_blockers_released (n : nat) (c : call) (w : World) :
  exists w',
    (exec (7 + n) c w = Ok w' \/ exists e, exec (7 + n) c w = Raise e w') /\
    events (layer w') = events (layer w).
Proof. apply (after_seven (same_blockers w)), exec_same_blockers. Qed.

(** *** The panel *)

Lemma panel_ok_spin (z : Z) (p : QtLabelsControls) :
  panel_ok p = true ->
  panel_ok
    (set_selectionSpinBox
       (Qt.with_value
          (Qt.qBound (Qt.minimum (selectionSpinBox p)) z
             (Qt.maximum (selectionSpinBox p)))
          (selectionSpinBox p)) p) = true.
Proof.
  unfold panel_ok, well_formed, ranges, values_in_range, Qt.qBound.
  cbn [selectionSpinBox brushSizeSlider set_selectionSpinBox Qt.with_value
       Qt.minimum Qt.maximum Qt.value].
  rewrite !andb_true_iff, !Z.eqb_eq, !Z.leb_le.
  intros [[[E R] V] G]. split; [split; [split; [exact E | exact R]|]|exact G].
  lia.
Qed.

Lemma panel_ok_slider (z : Z) (p : QtLabelsControls) :
  panel_ok p = true ->
  panel_ok
    (set_brushSizeSlider
       (Qt.with_value
          (Qt.qBound (Qt.minimum (brushSizeSlider p)) z
             (Qt.maximum (brushSizeSlider p)))
          (brushSizeSlider p)) p) = true.
Proof.
  unfold panel_ok, well_formed, ranges, values_in_range, Qt.qBound.
  cbn [selectionSpinBox brushSizeSlider set_brushSizeSlider Qt.with_value
       Qt.minimum Qt.maximum Qt.value].
  rewrite !andb_true_iff, !Z.eqb_eq, !Z.leb_le.
  intros [[[E R] V] G]. split; [split; [split; [exact E | exact R]|]|exact G].
  lia.
Qed.

Lemma panel_ok_setChecked_True (b : button_id) (p : QtLabelsControls) :
  panel_ok p = true -> panel_ok (setChecked_True b p) = true.
Proof.
  unfold panel_ok. rewrite !andb_true_iff. intros [[W V] G].
  split; [split|].
  - apply setChecked_True_well_formed, W.
  - rewrite <- V. unfold setChecked_True.
    destruct (Qt.isChecked _); [reflexivity|].
    destruct (button_group p) as [prev|]; [|reflexivity].
    destruct (button_id_eqb prev b); reflexivity.
  - unfold setChecked_True.
    destruct (Qt.isChecked _); [exact G|].
    destruct (button_group p) as [prev|]; [|reflexivity].
    destruct (button_id_eqb prev b); reflexivity.
Qed.

(** What a panel in order shows. *)
Lemma panel_ok_shows (p : QtLabelsControls) :
  panel_ok p = true ->
  0 <= Qt.value (selectionSpinBox p) <= 2147483647 /\
  1 <= Qt.value (brushSizeSlider p) <= 40 /\
  exists b, forall b', Qt.isChecked (button b' p) = button_id_eqb b' b.
Proof.
  unfold panel_ok, well_formed, ranges, values_in_range, has_checked_button,
    exclusive, all_buttons.
  cbn [forallb]. rewrite !andb_true_iff, !Z.eqb_eq, !Z.leb_le.
  intros [[[(E1 & E2 & E3 & E4 & _) R] V] G].
  split; [lia|]. split; [lia|].
  destruct (button_group p) as [b|]; [|discriminate G].
  exists b. intros []; apply eqb_prop; assumption.
Qed.

Lemma panel_ok_run_all (run : call -> World -> outcome) :
  (forall c w, panel_is_ok w -> holds_after panel_is_ok (run c w)) ->
  forall cs w, panel_is_ok w -> holds_after panel_is_ok (run_all run cs w).
Proof.
  intros R. induction cs as [|c cs IH]; intros w W; cbn [run_all].
  - exact W.
  - apply holds_after_bind; [apply R, W | exact IH].
Qed.

Lemma step_panel_ok (run : call -> World -> outcome) :
  (forall c w, panel_is_ok w -> holds_after panel_is_ok (run c w)) ->
  forall c w, panel_is_ok w -> holds_after panel_is_ok (step run c w).
Proof.
  intros R c w W.
  destruct c; cbn [step]; unfold Layer_setter, emit, with_blocker;
    repeat match goal with
      | |- holds_after _ (finally ?o _) =>
          let H := fresh in
          assert (H : holds_after panel_is_ok o);
          [|destruct o; exact H]
      | |- holds_after _ (if ?b then _ else _) => destruct b
      | |- holds_after _ (match ?x with inl _ => _ | inr _ => _ end) =>
          destruct x
      | |- holds_after _ (run_all _ _ _) => apply (panel_ok_run_all run R)
      | |- holds_after _ (run _ _) => apply R
      | |- holds_after _ (_ >>= _) =>
          apply holds_after_bind; [|intros w' W'; exact W']
      end;
    try exact W;
    try (apply panel_ok_spin; exact W);
    try (apply panel_ok_slider; exact W);
    try (apply panel_ok_setChecked_True; exact W).
Qed.

Lemma exec_panel_ok (n : nat) (c : call) (w : World) :
  panel_is_ok w -> holds_after panel_is_ok (exec n c w).
Proof.
  revert c w. induction n as [|n IH]; intros c w W; [exact I|].
  rewrite exec_S. apply step_panel_ok; [exact IH | exact W].
Qed.

(** X2: whatever is called on a panel in order, the panel it leaves is in
    order: the spin box ranges over 0..2147483647 and the slider over
    1..40, each shows a value of its range, and the checked mode button is
    the one the group knows of and the only one. *)
Theorem X2_panel_stays_in_order (n : nat) (c : call) (w : World) :
  panel_ok (panel w) = true ->
  exists w',
    (exec (7 + n) c w = Ok w' \/ exists e, exec (7 + n) c w = Raise e w') /\
    panel_ok (panel w') = true /\
    0 <= Qt.value (selectionSpinBox (panel w')) <= 2147483647 /\
    1 <= Qt.value (brushSizeSlider (panel w')) <= 40 /\
    exists b, forall b',
      Qt.isChecked (button b' (panel w')) = button_id_eqb b' b.
Proof.
  intros W.
  destruct (after_seven panel_is_ok n c w (exec_panel_ok _ c w W))
    as (w' & E & W').
  exists w'. split; [exact E|]. split; [exact W'|].
  apply panel_ok_shows, W'.
Qed.

(** X1: no call starts an endless exchange between the layer and the
    panel: in every world, every call ends within seven nested calls, and
    more fuel than that changes nothing of its outcome. *)
Theorem X1_no_feedback_loop (n : nat) (c : call) (w : World) :
  exec (7 + n) c w <> OutOfFuel /\ exec (7 + n) c w = exec 7 c w.
Proof. split; [apply exec_ends | apply exec_seven]. Qed.

(** *** The bindings do not interfere *)

Lemma same_elsewhere_with_blocker (b : binding) (e : emitter) (w : World)
  (o : outcome) :
  holds_after (same_elsewhere b (on_layer (block e) w)) o ->
  holds_after (same_elsewhere b w) (finally o (on_layer (unblock e))).
Proof.
  assert (U : forall w', same_elsewhere b (on_layer (block e) w) w' ->
                         same_elsewhere b w (on_layer (unblock e) w')).
  { unfold same_elsewhere. intros w' H.
    assert (C : elsewhere b (on_layer (unblock e) w')
                = on_layer (unblock e) (elsewhere b w'))
      by (destruct b; reflexivity).
    rewrite C, H. destruct w as [[? ? ? ? ? ? ? ? []] ? ? ?].
    destruct b, e; reflexivity. }
  destruct o as [w'|x w'|]; cbn [finally holds_after]; auto.
Qed.

Lemma same_elsewhere_run_all (b : binding)
  (run : call -> World -> outcome) :
  (forall c w, binding_of c = Some b ->
               holds_after (same_elsewhere b w) (run c w)) ->
  forall cs w, Forall (fun c => binding_of c = Some b) cs ->
               holds_after (same_elsewhere b w) (run_all run cs w).
Proof.
  intros R. induction cs as [|c cs IH]; intros w F; cbn [run_all].
  - reflexivity.
  - inversion F as [|? ? Fc Fcs]; subst.
    apply holds_after_bind; [apply R, Fc|].
    intros w1 H1.
    apply (holds_after_weaken (same_elsewhere b w1)); [|apply IH, Fcs].
    intros w2 H2. unfold same_elsewhere in *. congruence.
Qed.

Lemma step_same_elsewhere (b : binding) (run : call -> World -> outcome) :
  (forall c w, binding_of c = Some b ->
               holds_after (same_elsewhere b w) (run c w)) ->
  forall c w, binding_of c = Some b ->
              holds_after (same_elsewhere b w)
                (step run c (record_call c w)).
Proof.
  intros R c w B.
  destruct c; cbn [binding_of] in B; try discriminate B;
    injection B as <-; cbn [step]; unfold Layer_setter, emit;
    try (apply same_elsewhere_with_blocker);
    repeat match goal with
      | |- holds_after _ (if ?b then _ else _) => destruct b
      | |- holds_after _ (match ?x with inl _ => _ | inr _ => _ end) =>
          destruct x
      end;
    try reflexivity;
    try (refine (R _ _ _); reflexivity);
    try (refine (same_elsewhere_run_all _ run R _ _ _); repeat constructor).
  apply holds_after_bind; [refine (R _ _ _); reflexivity|].
  intros w1 H1. exact H1.
Qed.

Lemma exec_same_elsewhere (b : binding) (n : nat) (c : call) (w : World) :
  binding_of c = Some b -> holds_after (same_elsewhere b w) (exec n c w).
Proof.
  revert c w. induction n as [|n IH]; intros c w B; [exact I|].
  rewrite exec_S. apply step_same_elsewhere; [exact IH | exact B].
Qed.

(** X4: a call that belongs to one of the four bindings (selected label,
    brush size, contiguous, n-dimensional) changes nothing outside it:
    the other mirrored properties of the layer, the widgets of the other
    bindings, the mode buttons and the blockers are afterwards what they
    were.  Nothing is said of the status text. *)
Theorem X4_bindings_do_not_interfere
  (b : binding) (n : nat) (c : call) (w : World) :
  binding_of c = Some b ->
  exists w',
    (exec (7 + n) c w = Ok w' \/ exists e, exec (7 + n) c w = Raise e w') /\
    elsewhere b w' = elsewhere b w /\
    mode (layer w') = mode (layer w) /\
    editable (layer w') = editable (layer w) /\
    events (layer w') = events (layer w) /\
    (forall x, button x (panel w') = button x (panel w)) /\
    button_group (panel w') = button_group (panel w).
Proof.
  intros B.
  destruct (after_seven (same_elsewhere b w) n c w
              (exec_same_elsewhere b _ c w B)) as (w' & E & H).
  exists w'. split; [exact E|]. split; [exact H|].
  unfold same_elsewhere in H.
  repeat split;
    [ apply (f_equal (fun x => mode (layer x))) in H
    | apply (f_equal (fun x => editable (layer x))) in H
    | apply (f_equal (fun x => events (layer x))) in H
    | intros x; apply (f_equal (fun y => button x (panel y))) in H
    | apply (f_equal (fun x => button_group (panel x))) in H ];
    destruct b; exact H.
Qed.

(** *** The inbound handlers, end to end *)

Lemma unblock_block_layer (e : emitter) (l : Layer) :
  unblock e (block e l) = l.
Proof. destruct l as [? ? ? ? ? ? ? ? []], e; reflexivity. Qed.

(** The world [_on_selection_change] ends in when [int] gives [z]: the
    one it started in if the spin box shows the bounded [z] already, and
    otherwise the one where the spin box shows it, the layer holds it, and
    the focus is on the panel. *)
Lemma _on_selection_change_ends (n : nat) (w : World) (z : Z) :
  Py.int (selected_label (layer w)) = inr z ->
  Qt.c_int z = true ->
  let sb := selectionSpinBox (panel w) in
  let u := Qt.qBound (Qt.minimum sb) z (Qt.maximum sb) in
  exec (4 + n) _on_selection_change w =
  Ok (if u =? Qt.value sb then
        record_call (selectionSpinBox_setValue z)
          (record_call _on_selection_change w)
      else
        {| layer :=
             set_selected_label (Py.Int u) (get_color (Py.Int u)) (layer w);
           panel :=
             set_focus FocusPanel
               (set_selectionSpinBox (Qt.with_value u sb) (panel w));
           repaint_pending := repaint_pending w;
           log :=
             [Layer_set_selected_label (Py.Int u); changeSelection u;
              selectionSpinBox_setValue z; _on_selection_change] ++ log w |}).
Proof.
  intros Hz C sb u. rewrite _on_selection_change_exec.
  unfold _on_selection_change_result, with_blocker.
  cbn [layer on_layer record_call block selected_label set_events].
  rewrite Hz, C. cbn [finally]. f_equal.
  unfold selectionSpinBox_setValue_quiet.
  cbn [panel on_layer record_call]. fold sb. fold u.
  destruct (u =? Qt.value sb).
  - unfold on_layer, record_call. cbn [layer panel repaint_pending log].
    rewrite unblock_block_layer. reflexivity.
  - unfold changeSelection_quiet, Layer_set_selected_label_quiet,
      on_layer, on_panel, record_call.
    cbn [layer panel repaint_pending log app]. f_equal.
    rewrite <- (unblock_block_layer ev_selected_label (layer w)) at 2.
    destruct (layer w) as [? ? ? ? ? ? ? ? []]. reflexivity.
Qed.

(** The same for [_on_brush_size_change]. *)
Lemma _on_brush_size_change_ends (n : nat) (w : World) (z : Z) :
  Py.int (brush_size (layer w)) = inr z ->
  let sld := brushSizeSlider (panel w) in
  let u := Qt.qBound (Qt.minimum sld) (np.clip z 1 40) (Qt.maximum sld) in
  exec (4 + n) _on_brush_size_change w =
  Ok (if u =? Qt.value sld then
        record_call (brushSizeSlider_setValue (np.clip z 1 40))
          (record_call _on_brush_size_change w)
      else
        {| layer := set_brush_size (Py.Int u) (layer w);
           panel := set_brushSizeSlider (Qt.with_value u sld) (panel w);
           repaint_pending := repaint_pending w;
           log :=
             [Layer_set_brush_size (Py.Int u); changeSize u;
              brushSizeSlider_setValue (np.clip z 1 40);
              _on_brush_size_change] ++ log w |}).
Proof.
  intros Hz sld u. rewrite _on_brush_size_change_exec.
  unfold _on_brush_size_change_result, with_blocker.
  cbn [layer on_layer record_call block brush_size set_events].
  rewrite Hz. cbn [finally]. f_equal.
  unfold brushSizeSlider_setValue_quiet.
  cbn [panel on_layer record_call]. fold sld. fold u.
  destruct (u =? Qt.value sld).
  - unfold on_layer, record_call. cbn [layer panel repaint_pending log].
    rewrite unblock_block_layer. reflexivity.
  - unfold changeSize_quiet, Layer_set_brush_size_quiet,
      on_layer, on_panel, record_call.
    cbn [layer panel repaint_pending log app]. f_equal.
    rewrite <- (unblock_block_layer ev_brush_size (layer w)) at 2.
    destruct (layer w) as [? ? ? ? ? ? ? ? []]. reflexivity.
Qed.

Lemma qBound_again (lo z hi : Z) :
  Qt.qBound lo (Qt.qBound lo z hi) hi = Qt.qBound lo z hi.
Proof. unfold Qt.qBound. lia. Qed.

Lemma qBound_clip_again (lo z hi : Z) :
  Qt.qBound lo (np.clip (Qt.qBound lo (np.clip z 1 40) hi) 1 40) hi
  = Qt.qBound lo (np.clip z 1 40) hi.
Proof. unfold Qt.qBound, np.clip. lia. Qed.

(** The calls between two worlds, read off their records. *)
Tactic Notation "since" constr(l) :=
  match goal with
  | |- context [calls_since ?a ?b] =>
      rewrite (calls_since_app a b l) by reflexivity
  end.

(** A handler that ended normally had a number [int] accepts. *)
Lemma _on_brush_size_change_Ok (n : nat) (w w1 : World) :
  exec (4 + n) _on_brush_size_change w = Ok w1 ->
  exists z, Py.int (brush_size (layer w)) = inr z.
Proof.
  rewrite _on_brush_size_change_exec.
  unfold _on_brush_size_change_result, with_blocker.
  cbn [layer on_layer record_call block brush_size set_events].
  destruct (Py.int _) as [e|z]; [discriminate | eauto].
Qed.

(** What is bounded to a range of C ints is a C int. *)
Lemma c_int_qBound (lo z hi : Z) :
  Qt.c_int lo = true -> Qt.c_int hi = true -> Qt.c_int z = true ->
  Qt.c_int (Qt.qBound lo z hi) = true.
Proof.
  unfold Qt.c_int, Qt.qBound. rewrite !andb_true_iff, !Z.leb_le. lia.
Qed.

(** A handler that ended normally had a C int for the spin box. *)
Lemma _on_selection_change_Ok_c_int (n : nat) (w w1 : World) :
  exec (4 + n) _on_selection_change w = Ok w1 ->
  exists z, Py.int (selected_label (layer w)) = inr z /\ Qt.c_int z = true.
Proof.
  rewrite _on_selection_change_exec.
  unfold _on_selection_change_result, with_blocker.
  cbn [layer on_layer record_call block selected_label set_events].
  destruct (Py.int _) as [e|z]; [discriminate|].
  destruct (Qt.c_int z) eqn:C; [eauto | discriminate].
Qed.

(** X5: for a label whose integer part [int] gives and a C int can hold,
    and a spin box whose range starts at 0 or above (as [__init__] sets
    it), [_on_selection_change] ends normally with the spin box on [int] of
    the label bounded to its range.  When the spin box showed that integer
    already, neither the layer nor the panel has changed.  When it had to
    move, [changeSelection] ran with the integer now shown, the label the
    layer holds afterwards has that integer as its [int], and the focus is
    on the panel. *)
Theorem X5_on_selection_change_writes_back (n : nat) (w : World) (z : Z) :
  Py.int (selected_label (layer w)) = inr z ->
  Qt.c_int z = true ->
  0 <= Qt.minimum (selectionSpinBox (panel w)) ->
  let sb := selectionSpinBox (panel w) in
  let u := Qt.qBound (Qt.minimum sb) z (Qt.maximum sb) in
  exists w',
    exec (4 + n) _on_selection_change w = Ok w' /\
    Qt.value (selectionSpinBox (panel w')) = u /\
    0 <= u /\
    (u = Qt.value sb -> layer w' = layer w /\ panel w' = panel w) /\
    (u <> Qt.value sb ->
     Py.int (selected_label (layer w')) = inr u /\
     focus (panel w') = FocusPanel /\
     calls_since w w' =
       [Layer_set_selected_label (Py.Int u); changeSelection u;
        selectionSpinBox_setValue z; _on_selection_change]).
Proof.
  intros Hz C M sb u. rewrite (_on_selection_change_ends n w z Hz C).
  fold sb. fold u. eexists. split; [reflexivity|].
  assert (U : 0 <= u) by (unfold u, Qt.qBound; fold sb in M; lia).
  destruct (Z.eqb_spec u (Qt.value sb)) as [E|E].
  - cbn [panel layer record_call]. split; [symmetry; exact E|].
    split; [exact U|].
    split; [auto | intros N; contradiction].
  - cbn [panel layer selectionSpinBox set_focus set_selectionSpinBox
         Qt.value Qt.with_value selected_label _selected_color
         set_selected_label focus].
    split; [reflexivity|]. split; [exact U|].
    split; [intros N; contradiction|].
    intros _. repeat split. apply calls_since_app. reflexivity.
Qed.

(** X6: [_on_selection_change] settles in one run: run again after it
    ended normally, on a spin box whose range is one of C ints, it leaves
    the layer and the panel as they are and calls no outbound handler. *)
Theorem X6_on_selection_change_settles (n : nat) (w w1 : World) :
  Qt.c_int_range (selectionSpinBox (panel w)) = true ->
  exec (4 + n) _on_selection_change w = Ok w1 ->
  exists w2,
    exec (4 + n) _on_selection_change w1 = Ok w2 /\
    layer w2 = layer w1 /\ panel w2 = panel w1 /\
    repaint_pending w2 = repaint_pending w1 /\
    count is_changeSelection (calls_since w1 w2) = 0%nat /\
    count is_Layer_set_selected_label (calls_since w1 w2) = 0%nat.
Proof.
  intros G H. destruct (_on_selection_change_Ok_c_int n w w1 H) as (z & Hz & C).
  rewrite (_on_selection_change_ends n w z Hz C) in H. injection H as <-.
  set (sb := selectionSpinBox (panel w)).
  set (u := Qt.qBound (Qt.minimum sb) z (Qt.maximum sb)).
  assert (Cu : Qt.c_int u = true).
  { unfold Qt.c_int_range in G. fold sb in G.
    apply andb_true_iff in G. destruct G as [G1 G2].
    apply c_int_qBound; assumption. }
  destruct (Z.eqb_spec u (Qt.value sb)) as [E|E].
  - match goal with
    | |- context [exec (4 + n) _on_selection_change ?x] =>
        rewrite (_on_selection_change_ends n x z Hz C)
    end.
    cbn [panel record_call]. fold sb. fold u.
    rewrite (proj2 (Z.eqb_eq _ _) E).
    eexists. split; [reflexivity|]. repeat split;
      since [selectionSpinBox_setValue z; _on_selection_change];
      reflexivity.
  - match goal with
    | |- context [exec (4 + n) _on_selection_change ?x] =>
        rewrite (_on_selection_change_ends n x u eq_refl Cu)
    end.
    cbn [panel selectionSpinBox set_focus set_selectionSpinBox
         Qt.minimum Qt.maximum Qt.value Qt.with_value].
    replace (Qt.qBound (Qt.minimum sb) u (Qt.maximum sb)) with u
      by (unfold u; symmetry; apply qBound_again).
    rewrite Z.eqb_refl.
    eexists. split; [reflexivity|]. repeat split;
      since [selectionSpinBox_setValue u; _on_selection_change];
      reflexivity.
Qed.

(** X7: when [_on_brush_size_change] moves the slider, the layer's brush
    size is replaced by the integer the slider now shows; when the slider
    shows that integer already, neither the layer nor the panel changes.
    Either way the slider ends on [int] of the brush size, clipped to
    1..40 and bounded to the slider's range. *)
Theorem X7_on_brush_size_change_writes_back (n : nat) (w : World) (z : Z) :
  Py.int (brush_size (layer w)) = inr z ->
  let sld := brushSizeSlider (panel w) in
  let u := Qt.qBound (Qt.minimum sld) (np.clip z 1 40) (Qt.maximum sld) in
  exists w',
    exec (4 + n) _on_brush_size_change w = Ok w' /\
    Qt.value (brushSizeSlider (panel w')) = u /\
    (u = Qt.value sld -> layer w' = layer w /\ panel w' = panel w) /\
    (u <> Qt.value sld ->
     brush_size (layer w') = Py.Int u /\
     calls_since w w' =
       [Layer_set_brush_size (Py.Int u); changeSize u;
        brushSizeSlider_setValue (np.clip z 1 40); _on_brush_size_change]).
Proof.
  intros Hz sld u. rewrite (_on_brush_size_change_ends n w z Hz).
  fold sld. fold u. eexists. split; [reflexivity|].
  destruct (Z.eqb_spec u (Qt.value sld)) as [E|E].
  - cbn [panel layer record_call]. split; [symmetry; exact E|].
    split; [auto | intros N; contradiction].
  - cbn [panel layer brushSizeSlider set_brushSizeSlider
         Qt.value Qt.with_value brush_size set_brush_size].
    split; [reflexivity|]. split; [intros N; contradiction|].
    intros _. split; [reflexivity|]. apply calls_since_app. reflexivity.
Qed.

(** X8: [_on_brush_size_change] settles in one run: run again after it
    ended normally, it leaves the layer and the panel as they are and
    calls no outbound handler. *)
Theorem X8_on_brush_size_change_settles (n : nat) (w w1 : World) :
  exec (4 + n) _on_brush_size_change w = Ok w1 ->
  exists w2,
    exec (4 + n) _on_brush_size_change w1 = Ok w2 /\
    layer w2 = layer w1 /\ panel w2 = panel w1 /\
    repaint_pending w2 = repaint_pending w1 /\
    count is_changeSize (calls_since w1 w2) = 0%nat.
Proof.
  intros H. destruct (_on_brush_size_change_Ok n w w1 H) as [z Hz].
  rewrite (_on_brush_size_change_ends n w z Hz) in H. injection H as <-.
  set (sld := brushSizeSlider (panel w)).
  set (u := Qt.qBound (Qt.minimum sld) (np.clip z 1 40) (Qt.maximum sld)).
  destruct (Z.eqb_spec u (Qt.value sld)) as [E|E].
  - match goal with
    | |- context [exec (4 + n) _on_brush_size_change ?x] =>
        rewrite (_on_brush_size_change_ends n x z Hz)
    end.
    cbn [panel record_call]. fold sld. fold u.
    rewrite (proj2 (Z.eqb_eq _ _) E).
    eexists. split; [reflexivity|]. repeat split.
    since [brushSizeSlider_setValue (np.clip z 1 40); _on_brush_size_change].
    reflexivity.
  - match goal with
    | |- context [exec (4 + n) _on_brush_size_change ?x] =>
        rewrite (_on_brush_size_change_ends n x u eq_refl)
    end.
    cbn [panel brushSizeSlider set_brushSizeSlider
         Qt.minimum Qt.maximum Qt.value Qt.with_value].
    replace (Qt.qBound (Qt.minimum sld) (np.clip u 1 40) (Qt.maximum sld))
      with u by (unfold u; symmetry; apply qBound_clip_again).
    rewrite Z.eqb_refl.
    eexists. split; [reflexivity|]. repeat split.
    since [brushSizeSlider_setValue (np.clip u 1 40); _on_brush_size_change].
    reflexivity.
Qed.

(** *** The check boxes, end to end *)

Ltac open_world w :=
  destruct w as [[? ? ? ? ? ? ? ? [? ? ? ? ? ?]] [? ? ? ? ? ? ? ? ? ?] ? ?].

Lemma _on_contig_change_ends (n : nat) (w : World) :
  exists w',
    exec (4 + n) _on_contig_change w = Ok w' /\
    layer w' = layer w /\
    panel w' = set_contigCheckBox (contiguous (layer w)) (panel w) /\
    repaint_pending w' = repaint_pending w /\
    count is_change_contig (calls_since w w') =
      (if Bool.eqb (contiguous (layer w)) (contigCheckBox (panel w))
       then 0%nat else 1%nat).
Proof.
  rewrite _on_contig_change_exec. eexists. split; [reflexivity|].
  unfold _on_contig_change_result, contigCheckBox_setChecked_quiet.
  open_world w. cbn [layer panel contiguous contigCheckBox on_layer
                     record_call].
  destruct contiguous0, contigCheckBox0; cbn -[calls_since]; repeat split;
    match goal with
    | |- context [calls_since ?a ?b] =>
        let l := eval cbn in (log b) in
        match l with
        | ?x :: ?y :: ?z :: ?t :: _ => since [x; y; z; t]
        | ?x :: ?y :: _ => since [x; y]
        end
    end; reflexivity.
Qed.

Lemma _on_n_dim_change_ends (n : nat) (w : World) :
  exists w',
    exec (4 + n) _on_n_dim_change w = Ok w' /\
    layer w' = layer w /\
    panel w' = set_ndimCheckBox (n_dimensional (layer w)) (panel w) /\
    repaint_pending w' = repaint_pending w /\
    count is_change_ndim (calls_since w w') =
      (if Bool.eqb (n_dimensional (layer w)) (ndimCheckBox (panel w))
       then 0%nat else 1%nat).
Proof.
  rewrite _on_n_dim_change_exec. eexists. split; [reflexivity|].
  unfold _on_n_dim_change_result, ndimCheckBox_setChecked_quiet.
  open_world w. cbn [layer panel n_dimensional ndimCheckBox on_layer
                     record_call].
  destruct n_dimensional0, ndimCheckBox0; cbn -[calls_since]; repeat split;
    match goal with
    | |- context [calls_since ?a ?b] =>
        let l := eval cbn in (log b) in
        match l with
        | ?x :: ?y :: ?z :: ?t :: _ => since [x; y; z; t]
        | ?x :: ?y :: _ => since [x; y]
        end
    end; reflexivity.
Qed.

(** X9: [_on_contig_change] and [_on_n_dim_change] never change the
    layer: they end normally with the check box showing the layer's flag
    and the layer as it was, the outbound handler having run once if the
    check box had to move and not at all otherwise; a second run changes
    nothing. *)
Theorem X9_check_boxes_follow_the_layer (n : nat) (w : World) :
  (exists w',
     exec (4 + n) _on_contig_change w = Ok w' /\
     layer w' = layer w /\
     contigCheckBox (panel w') = contiguous (layer w) /\
     panel w' = set_contigCheckBox (contiguous (layer w)) (panel w) /\
     count is_change_contig (calls_since w w') =
       (if Bool.eqb (contiguous (layer w)) (contigCheckBox (panel w))
        then 0%nat else 1%nat) /\
     exists w2,
       exec (4 + n) _on_contig_change w' = Ok w2 /\
       layer w2 = layer w' /\ panel w2 = panel w') /\
  (exists w',
     exec (4 + n) _on_n_dim_change w = Ok w' /\
     layer w' = layer w /\
     ndimCheckBox (panel w') = n_dimensional (layer w) /\
     panel w' = set_ndimCheckBox (n_dimensional (layer w)) (panel w) /\
     count is_change_ndim (calls_since w w') =
       (if Bool.eqb (n_dimensional (layer w)) (ndimCheckBox (panel w))
        then 0%nat else 1%nat) /\
     exists w2,
       exec (4 + n) _on_n_dim_change w' = Ok w2 /\
       layer w2 = layer w' /\ panel w2 = panel w').
Proof.
  split.
  - destruct (_on_contig_change_ends n w) as (w' & E & L & P & _ & C).
    exists w'. split; [exact E|]. split; [exact L|].
    split; [rewrite P; reflexivity|]. split; [exact P|]. split; [exact C|].
    destruct (_on_contig_change_ends n w') as (w2 & E2 & L2 & P2 & _).
    exists w2. split; [exact E2|]. split; [exact L2|].
    rewrite P2, L, P. destruct (panel w). reflexivity.
  - destruct (_on_n_dim_change_ends n w) as (w' & E & L & P & _ & C).
    exists w'. split; [exact E|]. split; [exact L|].
    split; [rewrite P; reflexivity|]. split; [exact P|]. split; [exact C|].
    destruct (_on_n_dim_change_ends n w') as (w2 & E2 & L2 & P2 & _).
    exists w2. split; [exact E2|]. split; [exact L2|].
    rewrite P2, L, P. destruct (panel w). reflexivity.
Qed.

(** X10: after [change_contig] (and likewise [change_ndim]) ran with no
    blocker active on the property, the check box and the layer agree on
    the value the handler computed; with a blocker active the layer gets
    the value and the check box keeps what it showed. *)
Theorem X10_change_contig_ndim_keep_check_box_in_step
  (n : nat) (w : World) (state : Z) :
  (exists w',
     exec (6 + n) (change_contig state) w = Ok w' /\
     contiguous (layer w') = (state =? Qt.Checked) /\
     contigCheckBox (panel w') =
       (if Nat.eqb (blocked ev_contiguous (events (layer w))) 0
        then state =? Qt.Checked else contigCheckBox (panel w))) /\
  (exists w',
     exec (6 + n) (change_ndim state) w = Ok w' /\
     n_dimensional (layer w') = (state =? Qt.Checked) /\
     ndimCheckBox (panel w') =
       (if Nat.eqb (blocked ev_n_dimensional (events (layer w))) 0
        then state =? Qt.Checked else ndimCheckBox (panel w))).
Proof.
  split; eexists;
    (split; [first [apply change_contig_exec | apply change_ndim_exec]|]).
  - split; [apply Layer_set_contiguous_stores|].
    unfold Layer_set_contiguous_result.
    cbn [layer record_call events].
    destruct (Nat.eqb _ 0); [|reflexivity].
    rewrite (proj2 (_on_contig_change_keeps _)). reflexivity.
  - split; [apply Layer_set_n_dimensional_stores|].
    unfold Layer_set_n_dimensional_result.
    cbn [layer record_call events].
    destruct (Nat.eqb _ 0); [|reflexivity].
    rewrite (proj2 (_on_n_dim_change_keeps _)). reflexivity.
Qed.

(** *** The outbound handlers of the spin box and the slider *)

Lemma changeSelection_exec (n : nat) (value : Z) (w : World) :
  blocked ev_selected_label (events (layer w)) = 0%nat ->
  exec (6 + n) (changeSelection value) w =
  exec (4 + n) _on_selection_change
    (request_repaint
       (record_call update_color
          (Layer_set_selected_label_quiet get_color (Py.Int value)
             (record_call (changeSelection value) w))))
  >>= fun w => Ok (on_panel (set_focus FocusPanel) w).
Proof.
  intros U. cbn [Nat.add]. rewrite exec_S. cbn [step].
  rewrite (Layer_set_selected_label_exec n) by exact U.
  rewrite <- (_on_selection_change_exec n). reflexivity.
Qed.

Lemma Layer_set_brush_size_exec (n : nat) (v : Py.num) (w : World) :
  blocked ev_brush_size (events (layer w)) = 0%nat ->
  exec (5 + n) (Layer_set_brush_size v) w =
  exec (4 + n) _on_brush_size_change (Layer_set_brush_size_quiet v w).
Proof.
  intros U. cbn [Nat.add]. rewrite exec_S. cbn [step]. unfold Layer_setter.
  rewrite emit_unblocked by exact U.
  cbn [run_all]. unfold Layer_set_brush_size_quiet.
  match goal with |- ?o >>= _ = _ => destruct o end; reflexivity.
Qed.

(** What [changeSelection value] does in the model with no blocker
    active, for a C int. *)
Lemma changeSelection_ends (n : nat) (w : World) (value : Z) :
  blocked ev_selected_label (events (layer w)) = 0%nat ->
  Qt.c_int value = true ->
  let sb := selectionSpinBox (panel w) in
  let u := Qt.qBound (Qt.minimum sb) value (Qt.maximum sb) in
  exists w',
    exec (6 + n) (changeSelection value) w = Ok w' /\
    Qt.value (selectionSpinBox (panel w')) = u /\
    selected_label (layer w') =
      (if u =? Qt.value sb then Py.Int value else Py.Int u) /\
    _selected_color (layer w') = get_color (selected_label (layer w')) /\
    focus (panel w') = FocusPanel /\
    repaint_pending w' = true /\
    count is_changeSelection (calls_since w w') =
      (if u =? Qt.value sb then 1%nat else 2%nat) /\
    count is__on_selection_change (calls_since w w') = 1%nat.
Proof.
  intros U C sb u. rewrite (changeSelection_exec n value w U).
  match goal with
  | |- context [exec (4 + n) _on_selection_change ?x] =>
      rewrite (_on_selection_change_ends n x value eq_refl C)
  end.
  cbn [panel request_repaint record_call Layer_set_selected_label_quiet
       on_layer]. fold sb. fold u.
  destruct (Z.eqb_spec u (Qt.value sb)) as [E|E]; cbn [bind];
    match goal with
    | |- exists w', Ok ?x = Ok w' /\ _ =>
        exists x; split; [reflexivity|];
        match eval cbn in (log x) with
        | ?a :: ?b :: ?c :: ?d :: ?e :: ?f :: ?g :: _ =>
            assert (L : calls_since w x = [a; b; c; d; e; f; g])
              by (apply calls_since_app; reflexivity)
        | ?a :: ?b :: ?c :: ?d :: ?e :: _ =>
            assert (L : calls_since w x = [a; b; c; d; e])
              by (apply calls_since_app; reflexivity)
        end;
        rewrite L
    end;
    cbn; repeat split; try (symmetry; exact E).
Qed.

(** X11: with no blocker active, [changeSelection value] for a label the
    spin box can show (of its range, and of 0..2147483647) that the layer
    does not hold yet ends normally: the layer holds the value and the
    colour derived from it, the colour box has been asked to repaint, the
    spin box shows the value and the focus is on the panel.  If the spin
    box had to move, [changeSelection] ran a second time, with the same
    value; it never runs a third time, and [_on_selection_change] runs
    once. *)
Theorem X11_changeSelection_round_trip (n : nat) (w : World) (value z0 : Z) :
  blocked ev_selected_label (events (layer w)) = 0%nat ->
  selected_label (layer w) = Py.Int z0 -> z0 <> value ->
  0 <= value <= 2147483647 ->
  Qt.minimum (selectionSpinBox (panel w)) <= value
    <= Qt.maximum (selectionSpinBox (panel w)) ->
  exists w',
    exec (6 + n) (changeSelection value) w = Ok w' /\
    Qt.value (selectionSpinBox (panel w')) = value /\
    selected_label (layer w') = Py.Int value /\
    _selected_color (layer w') = get_color (Py.Int value) /\
    focus (panel w') = FocusPanel /\
    repaint_pending w' = true /\
    count is_changeSelection (calls_since w w') =
      (if Qt.value (selectionSpinBox (panel w)) =? value
       then 1%nat else 2%nat) /\
    count is__on_selection_change (calls_since w w') = 1%nat.
Proof.
  intros U _ _ V R.
  assert (C : Qt.c_int value = true)
    by (unfold Qt.c_int; apply andb_true_iff; split; apply Z.leb_le; lia).
  destruct (changeSelection_ends n w value U C)
    as (w' & E & S & L & Col & F & P & N1 & N2).
  rewrite (qBound_inside _ _ _ R) in *.
  rewrite (Z.eqb_sym value) in L, N1.
  assert (L' : selected_label (layer w') = Py.Int value)
    by (rewrite L; destruct (_ =? _); reflexivity).
  exists w'. rewrite L' in Col. repeat split; assumption.
Qed.

(** X12: with no blocker active, [changeSize value] stores the value in
    the layer and brings the slider to the value clipped to 1..40 and
    bounded to the slider's range.  If that moves the slider, the handler
    runs a second time, with the slider's value, which is then what the
    layer holds; it never runs a third time.  For a value of 1..40 and of
    the slider's range, the layer and the slider end on it. *)
Theorem X12_changeSize_round_trip (n : nat) (w : World) (value : Z) :
  blocked ev_brush_size (events (layer w)) = 0%nat ->
  let sld := brushSizeSlider (panel w) in
  let u := Qt.qBound (Qt.minimum sld) (np.clip value 1 40) (Qt.maximum sld) in
  exists w',
    exec (6 + n) (changeSize value) w = Ok w' /\
    Qt.value (brushSizeSlider (panel w')) = u /\
    brush_size (layer w') =
      (if u =? Qt.value sld then Py.Int value else Py.Int u) /\
    count is_changeSize (calls_since w w') =
      (if u =? Qt.value sld then 1%nat else 2%nat) /\
    (1 <= value <= 40 -> Qt.minimum sld <= value <= Qt.maximum sld ->
     brush_size (layer w') = Py.Int value /\
     Qt.value (brushSizeSlider (panel w')) = value).
Proof.
  intros U sld u. cbn [Nat.add]. rewrite exec_S. cbn [step].
  rewrite (Layer_set_brush_size_exec n) by exact U.
  match goal with
  | |- context [exec (4 + n) _on_brush_size_change ?x] =>
      rewrite (_on_brush_size_change_ends n x value eq_refl)
  end.
  cbn [panel record_call Layer_set_brush_size_quiet on_layer].
  fold sld. fold u.
  assert (R : 1 <= value <= 40 ->
              Qt.minimum sld <= value <= Qt.maximum sld -> u = value)
    by (intros R1 R2; unfold u, Qt.qBound, np.clip; lia).
  destruct (Z.eqb_spec u (Qt.value sld)) as [E|E];
    match goal with
    | |- exists w', Ok ?x = Ok w' /\ _ =>
        exists x; split; [reflexivity|];
        match eval cbn in (log x) with
        | ?a :: ?b :: ?c :: ?d :: ?e :: ?f :: _ =>
            assert (L : calls_since w x = [a; b; c; d; e; f])
              by (apply calls_since_app; reflexivity)
        | ?a :: ?b :: ?c :: ?d :: _ =>
            assert (L : calls_since w x = [a; b; c; d])
              by (apply calls_since_app; reflexivity)
        end;
        rewrite L
    end;
    cbn; repeat split; try (symmetry; exact E);
    try (rewrite <- (R ltac:(assumption) ltac:(assumption)) at 1;
         reflexivity);
    try (transitivity u; [symmetry; exact E | apply R; assumption]);
    try (apply R; assumption).
Qed.

(** What an assignment to [selected_label] does in the model, for a
    value whose [int] is a C int. *)
Lemma Layer_set_selected_label_ends
  (n : nat) (w : World) (v : Py.num) (z : Z) :
  Py.int v = inr z ->
  Qt.c_int z = true ->
  let sb := selectionSpinBox (panel w) in
  exists w',
    exec (5 + n) (Layer_set_selected_label v) w = Ok w' /\
    if Nat.eqb (blocked ev_selected_label (events (layer w))) 0 then
      repaint_pending w' = true /\
      Qt.value (selectionSpinBox (panel w')) =
        Qt.qBound (Qt.minimum sb) z (Qt.maximum sb) /\
      In update_color (calls_since w w') /\
      In _on_selection_change (calls_since w w')
    else
      selected_label (layer w') = v /\
      _selected_color (layer w') = get_color v /\
      panel w' = panel w /\
      repaint_pending w' = repaint_pending w /\
      calls_since w w' = [Layer_set_selected_label v].
Proof.
  intros Hz C sb.
  destruct (Nat.eqb (blocked ev_selected_label (events (layer w))) 0) eqn:B.
  - apply Nat.eqb_eq in B.
    rewrite (Layer_set_selected_label_exec n v w B).
    rewrite <- (_on_selection_change_exec n).
    match goal with
    | |- context [exec (4 + n) _on_selection_change ?x] =>
        rewrite (_on_selection_change_ends n x z Hz C)
    end.
    cbn [panel request_repaint record_call Layer_set_selected_label_quiet
         on_layer]. fold sb.
    destruct (_ =? _) eqn:E;
      match goal with
      | |- exists w', Ok ?x = Ok w' /\ _ =>
          exists x; split; [reflexivity|];
          match eval cbn in (log x) with
          | ?a :: ?b :: ?c :: ?d :: ?e :: ?f :: _ =>
              assert (L : calls_since w x = [a; b; c; d; e; f])
                by (apply calls_since_app; reflexivity)
          | ?a :: ?b :: ?c :: ?d :: _ =>
              assert (L : calls_since w x = [a; b; c; d])
                by (apply calls_since_app; reflexivity)
          end;
          rewrite L
      end;
      cbn; repeat split; auto 8.
    apply Z.eqb_eq in E. symmetry. exact E.
  - assert (K : is_blocked ev_selected_label w).
    { unfold is_blocked. intros Z0. rewrite Z0 in B. discriminate B. }
    change (5 + n)%nat with (1 + (4 + n))%nat.
    rewrite (Layer_set_selected_label_blocked (4 + n) v w K).
    eexists. split; [reflexivity|]. cbn -[calls_since]. repeat split.
    apply calls_since_app. reflexivity.
Qed.

(** X13: an assignment to [selected_label] of a label that is new to
    the layer and that the spin box can be given (an integer of
    0..2147483647), with no blocker active, has the colour box asked to
    repaint and brings the spin box to the label bounded to its range (which
    starts at 0 or above, as [__init__] sets it); with a blocker active it
    only stores the label and the colour derived from it, and neither the
    colour box nor the panel hears of it. *)
Theorem X13_selected_label_reaches_color_box_and_spin_box
  (n : nat) (w : World) (z z0 : Z) :
  selected_label (layer w) = Py.Int z0 -> z0 <> z ->
  0 <= z <= 2147483647 ->
  0 <= Qt.minimum (selectionSpinBox (panel w)) ->
  let sb := selectionSpinBox (panel w) in
  exists w',
    exec (5 + n) (Layer_set_selected_label (Py.Int z)) w = Ok w' /\
    if Nat.eqb (blocked ev_selected_label (events (layer w))) 0 then
      repaint_pending w' = true /\
      Qt.value (selectionSpinBox (panel w')) =
        Qt.qBound (Qt.minimum sb) z (Qt.maximum sb) /\
      In update_color (calls_since w w') /\
      In _on_selection_change (calls_since w w')
    else
      selected_label (layer w') = Py.Int z /\
      _selected_color (layer w') = get_color (Py.Int z) /\
      panel w' = panel w /\
      repaint_pending w' = repaint_pending w /\
      calls_since w w' = [Layer_set_selected_label (Py.Int z)].
Proof.
  intros _ _ V _ sb.
  assert (C : Qt.c_int z = true)
    by (unfold Qt.c_int; apply andb_true_iff; split; apply Z.leb_le; lia).
  exact (Layer_set_selected_label_ends n w (Py.Int z) z eq_refl C).
Qed.

(** *** Building the panel *)

Lemma _on_editable_change_ends (n : nat) (w : World) :
  exists w',
    exec (1 + n) _on_editable_change w = Ok w' /\
    layer w' = layer w /\
    selectionSpinBox (panel w') = selectionSpinBox (panel w) /\
    brushSizeSlider (panel w') = brushSizeSlider (panel w) /\
    contigCheckBox (panel w') = contigCheckBox (panel w) /\
    ndimCheckBox (panel w') = ndimCheckBox (panel w).
Proof.
  eexists. split; [reflexivity|]. cbn. repeat split.
Qed.

Lemma __init___panel_ok (fuel : nat) (l : Layer) :
  holds_after panel_is_ok (__init__ fuel l).
Proof.
  unfold __init__.
  repeat (apply holds_after_bind;
          [|intros w W; apply exec_panel_ok; exact W]).
  reflexivity.
Qed.

(** What [__init__] does in the model, for a label whose [int] is a C
    int. *)
Lemma __init___ends
  (n : nat) (l : Layer) (z1 z2 : Z) :
  Py.int (selected_label l) = inr z1 ->
  Qt.c_int z1 = true ->
  Py.int (brush_size l) = inr z2 ->
  let u1 := Qt.qBound 0 z1 2147483647 in
  let u2 := np.clip z2 1 40 in
  exists w,
    __init__ (4 + n) l = Ok w /\
    Qt.value (selectionSpinBox (panel w)) = u1 /\
    Qt.value (brushSizeSlider (panel w)) = u2 /\
    contigCheckBox (panel w) = contiguous l /\
    ndimCheckBox (panel w) = n_dimensional l /\
    panel_ok (panel w) = true /\
    selected_label (layer w) =
      (if u1 =? 0 then selected_label l else Py.Int u1) /\
    brush_size (layer w) = (if u2 =? 1 then brush_size l else Py.Int u2) /\
    contiguous (layer w) = contiguous l /\
    n_dimensional (layer w) = n_dimensional l /\
    editable (layer w) = editable l /\
    events (layer w) = events l.
Proof.
  intros H1 C1 H2 u1 u2.
  pose proof (__init___panel_ok (4 + n) l) as OK.
  unfold __init__ in *. cbn [bind] in *.
  match type of OK with
  | context [exec (4 + n) _on_selection_change ?x] =>
      rewrite (_on_selection_change_ends n x z1 H1 C1) in *
  end.
  cbn [panel fresh_panel selectionSpinBox Qt.setMaximum Qt.setMinimum
       Qt.fresh_input Qt.minimum Qt.maximum Qt.value] in *.
  change (Qt.qBound (Z.min 0 2147483647) z1 2147483647) with u1 in *.
  change (Qt.qBound (Z.min 0 2147483647)
            (Qt.qBound 0 0 (Z.max 0 99)) 2147483647) with 0 in *.
  assert (U2 : Qt.qBound 1 u2 40 = u2)
    by (unfold u2, Qt.qBound, np.clip; lia).
  destruct (Z.eqb_spec u1 0) as [Q1|Q1]; cbn [bind] in *;
    match type of OK with
    | context [exec (4 + n) _on_brush_size_change ?x] =>
        rewrite (_on_brush_size_change_ends n x z2 H2) in *
    end;
    cbn [panel brushSizeSlider set_focus set_selectionSpinBox fresh_panel
         record_call Qt.setMaximum Qt.setMinimum
         Qt.fresh_input Qt.minimum Qt.maximum Qt.value] in *;
    change (Z.min 1 40) with 1 in *;
    fold u2 in OK |- *; rewrite U2 in *;
    change (Qt.qBound 1 (Qt.qBound 1 0 (Z.max 1 99)) 40) with 1 in *;
    destruct (Z.eqb_spec u2 1) as [Q2|Q2]; cbn [bind] in *;
    match type of OK with
    | context [exec (4 + n) _on_contig_change ?x] =>
        destruct (_on_contig_change_ends n x) as (w3 & E3 & L3 & P3 & _)
    end;
    rewrite E3 in *; cbn [bind] in *;
    destruct (_on_n_dim_change_ends n w3) as (w4 & E4 & L4 & P4 & _);
    rewrite E4 in *; cbn [bind] in *;
    destruct (_on_editable_change_ends (3 + n) w4)
      as (w5 & E5 & L5 & S5 & B5 & C5 & N5);
    change (1 + (3 + n))%nat with (4 + n)%nat in E5;
    rewrite E5 in *; cbn [holds_after] in OK;
    exists w5; (split; [reflexivity|]);
    rewrite S5, B5, C5, N5, L5, P4, L4, P3, L3;
    cbn; repeat split; solve [exact OK | symmetry; assumption].
Qed.

(** X14: for a layer whose selected label has an integer part a C int
    can hold and whose brush size [int] accepts, [__init__] ends normally
    with every widget showing the layer: the spin box [int] of the label
    bounded to 0..2147483647, the slider [int] of the brush size clipped to
    1..40, the check boxes the two flags; the panel is in order.  Building
    the panel can write to the layer: when the spin box had to leave 0, the
    label the layer holds afterwards has the integer shown as its [int]
    (2.7 has become 2), and a brush size whose clipped integer is not 1 is
    replaced by that integer.  The two flags, [editable] and the blockers
    are as they were. *)
Theorem X14_init_shows_the_layer
  (n : nat) (l : Layer) (z1 z2 : Z) :
  Py.int (selected_label l) = inr z1 ->
  Qt.c_int z1 = true ->
  Py.int (brush_size l) = inr z2 ->
  let u1 := Qt.qBound 0 z1 2147483647 in
  let u2 := np.clip z2 1 40 in
  exists w,
    __init__ (4 + n) l = Ok w /\
    Qt.value (selectionSpinBox (panel w)) = u1 /\
    Qt.value (brushSizeSlider (panel w)) = u2 /\
    contigCheckBox (panel w) = contiguous l /\
    ndimCheckBox (panel w) = n_dimensional l /\
    panel_ok (panel w) = true /\
    (u1 = 0 -> selected_label (layer w) = selected_label l) /\
    (u1 <> 0 -> Py.int (selected_label (layer w)) = inr u1) /\
    brush_size (layer w) = (if u2 =? 1 then brush_size l else Py.Int u2) /\
    contiguous (layer w) = contiguous l /\
    n_dimensional (layer w) = n_dimensional l /\
    editable (layer w) = editable l /\
    events (layer w) = events l.
Proof.
  intros H1 C1 H2 u1 u2.
  destruct (__init___ends n l z1 z2 H1 C1 H2)
    as (w & E & S & B & K & N & OK & L & Br & Co & Nd & Ed & Ev).
  fold u1 in S, L. fold u2 in B, Br.
  exists w. repeat split; try assumption.
  - intros Q. rewrite L, Q. reflexivity.
  - intros Q. rewrite L. destruct (Z.eqb_spec u1 0); [contradiction|].
    reflexivity.
Qed.

(** X15: [__init__] does not build a panel for a layer whose selected
    label [int] rejects (not a number, or infinite), nor for one whose
    label has an integer part a C int can hold and whose brush size [int]
    rejects: the exception of [int] leaves the constructor. *)
Theorem X15_init_raises_on_numbers_int_rejects
  (n : nat) (l : Layer) (e : Py.exn) :
  Py.int (selected_label l) = inl e \/
  ((exists z, Py.int (selected_label l) = inr z /\ Qt.c_int z = true) /\
   Py.int (brush_size l) = inl e) ->
  exists w, __init__ (4 + n) l = Raise e w.
Proof.
  intros [H|[[z [H1 C1]] H2]].
  - unfold __init__. cbn [bind].
    match goal with
    | |- context [exec (4 + n) _on_selection_change ?x] =>
        destruct (_on_selection_change_raises n x e H) as (w' & E & _)
    end.
    rewrite E. cbn [bind]. eauto.
  - unfold __init__. cbn [bind].
    match goal with
    | |- context [exec (4 + n) _on_selection_change ?x] =>
        rewrite (_on_selection_change_ends n x z H1 C1)
    end.
    destruct (_ =? _); cbn [bind];
      match goal with
      | |- context [exec (4 + n) _on_brush_size_change ?x] =>
          destruct (_on_brush_size_change_raises n x e H2) as (w' & E & _)
      end;
      rewrite E; cbn [bind]; eauto.
Qed.

(** *** The mode buttons, one event after another *)

Lemma _on_mode_change_ends (n : nat) (w : World) (k : Mode) :
  exec (1 + n) (_on_mode_change (Member k)) w =
  Ok (on_panel (setChecked_True (button_of k))
        (record_call (_on_mode_change (Member k)) w)).
Proof. destruct k; reflexivity. Qed.

(** Checking a button changes check marks only. *)
Lemma setChecked_True_keeps (b : button_id) (p : QtLabelsControls) :
  selectionSpinBox (setChecked_True b p) = selectionSpinBox p /\
  brushSizeSlider (setChecked_True b p) = brushSizeSlider p /\
  contigCheckBox (setChecked_True b p) = contigCheckBox p /\
  ndimCheckBox (setChecked_True b p) = ndimCheckBox p /\
  focus (setChecked_True b p) = focus p /\
  forall x,
    Qt.isEnabled (button x (setChecked_True b p)) = Qt.isEnabled (button x p)
    /\ Qt.dimmed (button x (setChecked_True b p)) = Qt.dimmed (button x p).
Proof.
  unfold setChecked_True.
  destruct (Qt.isChecked (button b p)); [repeat split|].
  destruct (button_group p) as [prev|];
    [destruct (button_id_eqb prev b) eqn:E|];
    repeat split; destruct x, b; try destruct prev; try discriminate E;
    reflexivity.
Qed.

(** X16: of two mode events handled one after the other the last one
    decides: its button is the one checked, whatever the first was, and an
    event repeated changes nothing.  In the panel the handler changes
    check marks only: which buttons are enabled or dimmed and what the
    other widgets show stay as they were. *)
Theorem X16_last_mode_event_decides (n : nat) (w : World) (a b : Mode) :
  exclusive (panel w) = true ->
  exists w1 w2,
    exec (1 + n) (_on_mode_change (Member a)) w = Ok w1 /\
    exec (1 + n) (_on_mode_change (Member b)) w1 = Ok w2 /\
    (forall x, Qt.isChecked (button x (panel w2)) =
               button_id_eqb x (button_of b)) /\
    (a = b -> panel w2 = panel w1) /\
    (forall x,
       Qt.isEnabled (button x (panel w2)) = Qt.isEnabled (button x (panel w))
       /\ Qt.dimmed (button x (panel w2)) = Qt.dimmed (button x (panel w))) /\
    selectionSpinBox (panel w2) = selectionSpinBox (panel w) /\
    brushSizeSlider (panel w2) = brushSizeSlider (panel w) /\
    contigCheckBox (panel w2) = contigCheckBox (panel w) /\
    ndimCheckBox (panel w2) = ndimCheckBox (panel w).
Proof.
  intros X. rewrite (_on_mode_change_ends n w a).
  eexists. eexists. split; [reflexivity|].
  rewrite _on_mode_change_ends. split; [reflexivity|].
  cbn [panel layer on_panel record_call].
  destruct (setChecked_True_exclusive (button_of a) (panel w) X) as [X1 C1].
  destruct (setChecked_True_exclusive (button_of b) _ X1) as [X2 C2].
  destruct (setChecked_True_keeps (button_of a) (panel w))
    as (S1 & B1 & K1 & N1 & _ & F1).
  destruct (setChecked_True_keeps (button_of b)
              (setChecked_True (button_of a) (panel w)))
    as (S2 & B2 & K2 & N2 & _ & F2).
  split; [exact C2|]. split.
  - intros <-. unfold setChecked_True at 1.
    rewrite C1. destruct a; reflexivity.
  - split.
    + intros x. destruct (F1 x) as [E1 D1], (F2 x) as [E2 D2].
      split; congruence.
    + repeat split; congruence.
Qed.

End Properties.

(** ** More on the colour box *)

(** One channel there and back: [k / 255] as a float, times 255, cut to an
    integer, is [k] again. *)
Lemma eight_bit_channel (d : np.dtype) (k : Z) :
  0 <= k <= 255 ->
  np.astype_int (np.mul_int d 255 (eight_bit d k)) = k.
Proof.
  intros H.
  assert (A : forallb (fun k =>
                np.astype_int (np.mul_int d 255 (eight_bit d k)) =? k)
                (Py.range 256) = true)
    by (destruct d; vm_compute; reflexivity).
  rewrite forallb_forall in A. apply Z.eqb_eq, A, in_range. lia.
Qed.

(** X17: a colour given in 8-bit steps, each channel the float nearest
    to [k / 255], is painted with exactly those steps, in either float
    type: the integer cast of [paintEvent] loses none of them. *)
Theorem X17_paintEvent_keeps_8_bit_colors
  (l : Layer) (d : np.dtype) (r g b : Z) :
  _selected_color l = Some (eight_bit_color d r g b) ->
  0 <= r <= 255 -> 0 <= g <= 255 -> 0 <= b <= 255 ->
  paintEvent l =
    inr [Qt.setPen (Qt.rgb r g b); Qt.setBrush (Qt.rgb r g b);
         Qt.drawRect 0 0 _height _height].
Proof.
  intros H Hr Hg Hb. unfold paintEvent. rewrite H.
  unfold eight_bit_color, items. cbn [rgb opacity dtype map].
  rewrite !eight_bit_channel by assumption.
  unfold Qt.QColor_of. cbn [map].
  rewrite !is_byte_c_int by assumption. reflexivity.
Qed.

(** X18: when every channel of the selected colour is a fraction between
    0 and 1, [paintEvent] paints one colour whose channels are all in
    0..255, whatever the float type of the array: the product with 255 is
    rounded, but never above 255. *)
Theorem X18_paintEvent_channels_are_bytes (l : Layer) (selected : color_array) :
  _selected_color l = Some selected ->
  (forall x, In x (items selected) ->
     exists q, Py.float_Q x = Some q /\ (0 <= q <= 1)%Q) ->
  exists c,
    paintEvent l =
      inr [Qt.setPen c; Qt.setBrush c; Qt.drawRect 0 0 _height _height] /\
    is_byte (Qt.red c) /\ is_byte (Qt.green c) /\ is_byte (Qt.blue c) /\
    is_byte (Qt.alpha c).
Proof.
  intros H A.
  assert (B : forall x, In x (items selected) ->
                is_byte (np.astype_int (np.mul_int (dtype selected) 255 x))).
  { intros x I. destruct (A x I) as (q & Hq & R).
    exact (channel_is_byte _ x q Hq R). }
  exists (painted selected).
  split; [exact (paintEvent_bytes l selected H B)|].
  clear A H. destruct selected as [d [[r g] b] [a|]];
    unfold items, painted in *;
    cbn [rgb opacity dtype Qt.red Qt.green Qt.blue Qt.alpha] in *;
    repeat split; try (apply B; cbn; auto); unfold is_byte; lia.
Qed.




(** ** The claims at concrete inputs *)

(** The example world is the one [__init__] builds. *)
Example example_world_built :
  __init__ example_str example_get_color 4 example_layer = Ok example_world.
Proof. vm_compute. reflexivity. Qed.

(** The literals used below: 0.4, 40.9 and 2.7 are not binary fractions,
    2.75 is. *)
Example decimal_values :
  decimal 4 10 = S754_finite false 7205759403792794 (-54) /\
  decimal 409 10 = S754_finite false 5756163273732915 (-47) /\
  decimal 27 10 = S754_finite false 6079859496950170 (-51) /\
  Py.float_Q (decimal 275 100) = Some (6192449487634432 # 2251799813685248)%Q.
Proof. vm_compute. repeat split. Qed.

(** C1 on the example world, for the paint mode. *)
Lemma C1_witness_paint :
  exclusive (panel example_world) = true /\
  exists w',
    exec example_str example_get_color 1 (_on_mode_change (Member PAINT))
      example_world = Ok w' /\
    filter (fun b => Qt.isChecked (button b (panel w'))) all_buttons = [Paint].
Proof.
  split; [reflexivity|].
  destruct (C1_on_mode_change_checks_one_button example_str example_get_color
              0 example_world PAINT eq_refl) as (w' & E & _ & F & _).
  exists w'. split; [exact E | exact F].
Defined.

(** C2 as stated fails at the brush size 2.75: the slider is set to 2,
    while 2.75 rounded to an integer and clamped is 3. *)
Lemma C2_counterexample_2_75 :
  exists w' q,
    exec example_str example_get_color 4 _on_brush_size_change
      (with_brush_size (Py.Float (decimal 275 100))) = Ok w' /\
    Py.to_Q (Py.Float (decimal 275 100)) = Some q /\
    (q == 275 # 100)%Q /\
    Qt.value (brushSizeSlider (panel w')) = 2 /\
    clamp (round_to_int q) 1 40 = 3 /\
    Qt.value (brushSizeSlider (panel w')) <> clamp (round_to_int q) 1 40.
Proof.
  eexists. eexists. split; [vm_compute; reflexivity|].
  split; [vm_compute; reflexivity|].
  split; [reflexivity|]. split; [reflexivity|]. split; [reflexivity|].
  vm_compute. discriminate.
Qed.

(** C2 on the example world, for the brush size 0.4. *)
Lemma C2_witness_0_4 :
  exists w',
    exec example_str example_get_color 4 _on_brush_size_change
      (with_brush_size (Py.Float (decimal 4 10))) = Ok w' /\
    Qt.value (brushSizeSlider (panel w')) = 1.
Proof.
  destruct (C2_on_brush_size_change_clamps_integer_part
              example_str example_get_color 0
              (with_brush_size (Py.Float (decimal 4 10))) eq_refl eq_refl)
    as (_ & H & _).
  destruct (H eq_refl) as (w' & E & _ & V).
  exists w'. split; [exact E | exact V].
Defined.

(** C3 as stated fails where the layer holds 5 and the spin box shows 0:
    while [_on_selection_change] updates the spin box, [changeSelection]
    runs and assigns [selected_label] again. *)
Lemma C3_counterexample_changeSelection_runs :
  exists w',
    exec example_str example_get_color 4 _on_selection_change
      (with_selected_label (Py.Int 5)) = Ok w' /\
    Qt.value (selectionSpinBox (panel w')) = 5 /\
    calls_since (with_selected_label (Py.Int 5)) w' =
      [Layer_set_selected_label (Py.Int 5); changeSelection 5;
       selectionSpinBox_setValue 5; _on_selection_change] /\
    In (changeSelection 5) (calls_since (with_selected_label (Py.Int 5)) w') /\
    In (Layer_set_selected_label (Py.Int 5))
       (calls_since (with_selected_label (Py.Int 5)) w').
Proof.
  eexists. split; [vm_compute; reflexivity|].
  split; [reflexivity|]. split; [reflexivity|].
  split; vm_compute; auto.
Qed.

(** C3 on the example world, once the layer holds 5. *)
Lemma C3_witness_example_world :
  exists w',
    exec example_str example_get_color 4 _on_selection_change
      (with_selected_label (Py.Int 5)) = Ok w' /\
    Qt.value (selectionSpinBox (panel w')) = 5 /\
    selected_label (layer w') = Py.Int 5 /\
    count is__on_selection_change
      (calls_since (with_selected_label (Py.Int 5)) w') = 1%nat.
Proof.
  assert (R : Qt.minimum
                (selectionSpinBox (panel (with_selected_label (Py.Int 5))))
              <= 5
              <= Qt.maximum
                   (selectionSpinBox (panel (with_selected_label (Py.Int 5)))))
    by (cbn; lia).
  destruct (C3_on_selection_change_round_trip example_str example_get_color
              0 (with_selected_label (Py.Int 5)) eq_refl R)
    as (w' & E & V & S & _ & _ & C & _).
  exists w'. repeat split; assumption.
Defined.

(** C4 on the example world, for a mode outside the enumeration. *)
Lemma C4_witness_foreign_mode :
  exists w',
    exec example_str example_get_color 1
      (_on_mode_change (Foreign "ERASE")) example_world
      = Raise (Py.ValueError "Mode not recognized") w' /\
    panel w' = panel example_world.
Proof.
  destruct (C4_on_mode_change_rejects_other_modes example_str
              example_get_color 0 example_world (Foreign "ERASE"))
    as [H _].
  destruct H as (w' & E & P & _); try discriminate.
  exists w'. split; [exact E | exact P].
Defined.



(** C6 for the example layer, which has no selected colour: two pixels
    of neighbouring cells. *)
Lemma C6_witness_background :
  exists cmds,
    paintEvent example_layer = inr cmds /\
    Qt.rendered cmds 5 3 = Some dark /\
    Qt.rendered cmds 5 6 = Some light.
Proof.
  destruct (C6_paintEvent_checkerboard example_layer eq_refl)
    as (cmds & P & _ & R & _).
  exists cmds. split; [exact P|].
  split; [apply (R 5 3) | apply (R 5 6)]; unfold _height; lia.
Defined.

(** C7 on the example world, once the layer is not editable. *)
Lemma C7_witness_not_editable :
  exists w1,
    exec example_str example_get_color 1 _on_editable_change
      (on_layer (set_editable false) example_world) = Ok w1 /\
    Qt.isEnabled (pick_button (panel w1)) = false /\
    Qt.isEnabled (panzoom_button (panel w1)) = true.
Proof.
  destruct (C7_on_editable_change_disables_three example_str
              example_get_color 0
              (on_layer (set_editable false) example_world) eq_refl eq_refl)
    as (w1 & E & A & _ & _ & B & _).
  exists w1. repeat split; assumption.
Defined.

(** C9 on the example world, for the partially checked state. *)
Lemma C9_witness_partially_checked :
  exists w',
    exec example_str example_get_color 6 (change_contig Qt.PartiallyChecked)
      example_world = Ok w' /\
    contiguous (layer w') = false.
Proof.
  destruct (C9_change_contig_ndim_checked_only example_str example_get_color
              0 example_world Qt.PartiallyChecked)
    as [(w' & E & _ & P) _].
  exists w'. split; [exact E | exact (P eq_refl)].
Defined.

(** C10 as stated fails at the label 2147483648: [int] gives the label
    itself, which is no C int; [setValue] raises, and the spin box keeps the
    0 it showed. *)
Lemma C10_counterexample_2147483648 :
  exists msg w',
    Py.int (Py.Int 2147483648) = inr 2147483648 /\
    exec example_str example_get_color 4 _on_selection_change
      (with_selected_label (Py.Int 2147483648))
      = Raise (Py.OverflowError msg) w' /\
    Qt.value (selectionSpinBox (panel w')) = 0 /\
    Qt.value (selectionSpinBox (panel w')) <> 2147483648.
Proof.
  eexists. eexists. split; [reflexivity|].
  split; [vm_compute; reflexivity|].
  split; [reflexivity | discriminate].
Qed.

(** C10 on the example world, for the label 2.7. *)
Lemma C10_witness_2_7 :
  exists w',
    exec example_str example_get_color 4 _on_selection_change
      (with_selected_label (Py.Float (decimal 27 10))) = Ok w' /\
    Qt.value (selectionSpinBox (panel w')) = 2.
Proof.
  destruct (C10_on_selection_change_truncates example_str example_get_color
              0 (with_selected_label (Py.Float (decimal 27 10))))
    as [H _].
  destruct (H (6079859496950170 # 2251799813685248)%Q eq_refl eq_refl)
    as (w' & E & _ & _ & V).
  exists w'. split; [exact E|].
  apply V. vm_compute. split; discriminate.
Defined.

(** ** The further properties at concrete inputs *)

(** X2 on the example world, for a label typed into the spin box. *)
Lemma X2_witness_changeSelection :
  panel_ok (panel example_world) = true /\
  exists w',
    (exec example_str example_get_color 7 (changeSelection 7) example_world
       = Ok w' \/
     exists e,
       exec example_str example_get_color 7 (changeSelection 7) example_world
         = Raise e w') /\
    panel_ok (panel w') = true /\
    1 <= Qt.value (brushSizeSlider (panel w')) <= 40.
Proof.
  split; [reflexivity|].
  destruct (X2_panel_stays_in_order example_str example_get_color
              0 (changeSelection 7) example_world eq_refl)
    as (w' & E & P & _ & S & _).
  exists w'. repeat split; assumption || apply S.
Defined.

(** X4 on the example world: moving the brush size slider leaves the
    spin box, the mode and the blockers alone. *)
Lemma X4_witness_changeSize :
  exists w',
    (exec example_str example_get_color 7 (changeSize 12) example_world
       = Ok w' \/
     exists e,
       exec example_str example_get_color 7 (changeSize 12) example_world
         = Raise e w') /\
    elsewhere on_brush_size w' = elsewhere on_brush_size example_world /\
    mode (layer w') = mode (layer example_world) /\
    events (layer w') = events (layer example_world).
Proof.
  destruct (X4_bindings_do_not_interfere example_str example_get_color
              on_brush_size 0 (changeSize 12) example_world eq_refl)
    as (w' & E & S & M & _ & B & _).
  exists w'. repeat split; assumption.
Defined.

(** X5 on the example world, once the layer holds 2.7: the spin box goes
    to 2, and so does the layer. *)
Lemma X5_witness_2_7 :
  exists w',
    exec example_str example_get_color 4 _on_selection_change
      (with_selected_label (Py.Float (decimal 27 10))) = Ok w' /\
    Qt.value (selectionSpinBox (panel w')) = 2 /\
    Py.int (selected_label (layer w')) = inr 2.
Proof.
  destruct (X5_on_selection_change_writes_back example_str example_get_color
              0 (with_selected_label (Py.Float (decimal 27 10))) 2
              eq_refl eq_refl)
    as (w' & E & V & _ & _ & M).
  - cbn. lia.
  - exists w'. split; [exact E|]. split; [exact V|].
    destruct M as (L & _); [vm_compute; discriminate | exact L].
Defined.

(** X6 on the example world, once the layer holds 5. *)
Lemma X6_witness_5 :
  exists w1 w2,
    exec example_str example_get_color 4 _on_selection_change
      (with_selected_label (Py.Int 5)) = Ok w1 /\
    exec example_str example_get_color 4 _on_selection_change w1 = Ok w2 /\
    layer w2 = layer w1 /\ panel w2 = panel w1.
Proof.
  destruct (exec example_str example_get_color 4 _on_selection_change
              (with_selected_label (Py.Int 5))) as [w1|e w1|] eqn:E;
    try (vm_compute in E; discriminate).
  destruct (X6_on_selection_change_settles example_str example_get_color
              0 (with_selected_label (Py.Int 5)) w1 eq_refl E)
    as (w2 & E2 & L & P & _).
  exists w1, w2. repeat split; assumption.
Defined.

(** X7 on the example world, once the layer holds the brush size 40.9:
    the slider goes to 40, and so does the layer. *)
Lemma X7_witness_40_9 :
  exists w',
    exec example_str example_get_color 4 _on_brush_size_change
      (with_brush_size (Py.Float (decimal 409 10))) = Ok w' /\
    Qt.value (brushSizeSlider (panel w')) = 40 /\
    brush_size (layer w') = Py.Int 40.
Proof.
  destruct (X7_on_brush_size_change_writes_back example_str example_get_color
              0 (with_brush_size (Py.Float (decimal 409 10))) 40 eq_refl)
    as (w' & E & V & _ & M).
  exists w'. split; [exact E|]. split; [exact V|].
  destruct M as (L & _); [vm_compute; discriminate | exact L].
Defined.

(** X8 on the example world, once the layer holds the brush size 25. *)
Lemma X8_witness_25 :
  exists w1 w2,
    exec example_str example_get_color 4 _on_brush_size_change
      (with_brush_size (Py.Int 25)) = Ok w1 /\
    exec example_str example_get_color 4 _on_brush_size_change w1 = Ok w2 /\
    layer w2 = layer w1 /\ panel w2 = panel w1.
Proof.
  destruct (exec example_str example_get_color 4 _on_brush_size_change
              (with_brush_size (Py.Int 25))) as [w1|e w1|] eqn:E;
    try (vm_compute in E; discriminate).
  destruct (X8_on_brush_size_change_settles example_str example_get_color
              0 (with_brush_size (Py.Int 25)) w1 E)
    as (w2 & E2 & L & P & _).
  exists w1, w2. repeat split; assumption.
Defined.

(** X11 on the example world, whose layer holds 0, for the label 7. *)
Lemma X11_witness_7 :
  exists w',
    exec example_str example_get_color 6 (changeSelection 7) example_world
      = Ok w' /\
    Qt.value (selectionSpinBox (panel w')) = 7 /\
    selected_label (layer w') = Py.Int 7 /\
    repaint_pending w' = true.
Proof.
  destruct (X11_changeSelection_round_trip example_str example_get_color
              0 example_world 7 0 eq_refl eq_refl)
    as (w' & E & V & L & _ & _ & R & _); try (cbn; lia).
  exists w'. repeat split; assumption.
Defined.

(** X12 on the example world, for the size 12. *)
Lemma X12_witness_12 :
  exists w',
    exec example_str example_get_color 6 (changeSize 12) example_world
      = Ok w' /\
    Qt.value (brushSizeSlider (panel w')) = 12 /\
    brush_size (layer w') = Py.Int 12.
Proof.
  destruct (X12_changeSize_round_trip example_str example_get_color
              0 example_world 12 eq_refl)
    as (w' & E & _ & _ & _ & I).
  destruct I as (L & V); [lia | cbn; lia |].
  exists w'. repeat split; assumption.
Defined.

(** X13 on the example world, whose layer holds 0, for the label 3. *)
Lemma X13_witness_3 :
  exists w',
    exec example_str example_get_color 5
      (Layer_set_selected_label (Py.Int 3)) example_world = Ok w' /\
    repaint_pending w' = true /\
    Qt.value (selectionSpinBox (panel w')) = 3.
Proof.
  destruct (X13_selected_label_reaches_color_box_and_spin_box
              example_str example_get_color 0 example_world 3 0 eq_refl)
    as (w' & E & R & V & _); try (cbn; lia).
  exists w'. repeat split; assumption.
Defined.

(** X14 for the example layer with a brush of size 100: the slider
    shows 40, and the layer's brush size has become 40. *)
Lemma X14_witness_brush_100 :
  exists w,
    __init__ example_str example_get_color 4
      (set_brush_size (Py.Int 100) example_layer) = Ok w /\
    Qt.value (brushSizeSlider (panel w)) = 40 /\
    brush_size (layer w) = Py.Int 40 /\
    selected_label (layer w) = Py.Int 0.
Proof.
  destruct (X14_init_shows_the_layer example_str example_get_color
              0 (set_brush_size (Py.Int 100) example_layer) 0 100
              eq_refl eq_refl eq_refl)
    as (w & E & _ & V & _ & _ & _ & L & _ & B & _).
  exists w. repeat split; try assumption. exact (L eq_refl).
Defined.

(** X15 for the example layer with a label that is not a number. *)
Lemma X15_witness_nan :
  exists w,
    __init__ example_str example_get_color 4
      (set_selected_label (Py.Float S754_nan) None example_layer)
      = Raise (Py.ValueError "cannot convert float NaN to integer") w.
Proof.
  exact (X15_init_raises_on_numbers_int_rejects example_str example_get_color
           0 (set_selected_label (Py.Float S754_nan) None example_layer)
           (Py.ValueError "cannot convert float NaN to integer")
           (or_introl eq_refl)).
Defined.

(** X16 on the example world: paint, then fill. *)
Lemma X16_witness_paint_fill :
  exists w1 w2,
    exec example_str example_get_color 1 (_on_mode_change (Member PAINT))
      example_world = Ok w1 /\
    exec example_str example_get_color 1 (_on_mode_change (Member FILL))
      w1 = Ok w2 /\
    filter (fun x => Qt.isChecked (button x (panel w2))) all_buttons = [Fill].
Proof.
  destruct (X16_last_mode_event_decides example_str example_get_color
              0 example_world PAINT FILL eq_refl)
    as (w1 & w2 & E1 & E2 & C & _).
  exists w1, w2. split; [exact E1|]. split; [exact E2|].
  unfold all_buttons. cbn [filter]. rewrite !C. reflexivity.
Defined.

(** X17 for an orange in single precision. *)
Lemma X17_witness_orange :
  paintEvent (colored_layer (eight_bit_color np.float32 255 165 0)) =
    inr [Qt.setPen (Qt.rgb 255 165 0); Qt.setBrush (Qt.rgb 255 165 0);
         Qt.drawRect 0 0 _height _height].
Proof.
  apply (X17_paintEvent_keeps_8_bit_colors
           (colored_layer (eight_bit_color np.float32 255 165 0))
           np.float32 255 165 0 eq_refl); lia.
Defined.

(** X18 for the colour whose red channel is one quarter. *)
Lemma X18_witness_quarter :
  exists c,
    paintEvent (colored_layer quarter_red) =
      inr [Qt.setPen c; Qt.setBrush c; Qt.drawRect 0 0 _height _height] /\
    0 <= Qt.red c <= 255.
Proof.
  destruct (X18_paintEvent_channels_are_bytes (colored_layer quarter_red)
              quarter_red eq_refl) as (c & P & R & _).
  - intros x [<-|[<-|[<-|[]]]].
    + eexists. split; [vm_compute; reflexivity|]. split; discriminate.
    + exists 0%Q. split; [reflexivity|]. split; discriminate.
    + exists 0%Q. split; [reflexivity|]. split; discriminate.
  - exists c. split; [exact P | exact R].
Defined.

